(** * ImmichFrame web client: dominant-colour extraction

    A shallow embedding of the colour-extraction module of the web client
    ([immichFrame.Web/src/lib/utils]): the options-based revision
    ([extractDominantColor], [extractFromSplitView], [findOptimalColor],
    [boostColorBrightness], the two entry points) and, in [Legacy], the
    revision before it; the contrast and text-colour helpers
    ([getContrastRatio], [generateTextColor]) and, in [ColorUtils], those of
    colorUtils.ts; followed by the properties its specification states and
    further properties of the code.

    Numbers.  JavaScript has one number type, the IEEE 754 binary64 float.
    The embedding splits it by use:
    - pixel channels, counts, canvas coordinates and sizes are integers and
      are modelled as [Z] and [N] (channels read from a canvas as [byte]);
    - the HSL conversions, the quantisation and the region arithmetic use
      only the basic IEEE operations, so they are modelled bit-exactly with
      primitive floats and they compute;
    - relative luminance goes through [Math.pow], which ECMAScript leaves
      implementation-approximated; luminance, saturation and the scores
      compared with them are modelled as real numbers ([Rpower]).

    Effects.  A run talks to a canvas and, for a URL, to the image loader.
    The browser's side is a parameter ([Browser], [Media]); the calls a run
    makes are logged ([Call]) and an exception is the [None] of [Eff]. *)

From Stdlib Require Import ZArith List String Ascii Bool Lia.
From Stdlib Require Import Reals Lra.
From Stdlib Require Import Floats Uint63.
From Stdlib Require Strings.Byte.
From Stdlib Require DecimalString.
Import ListNotations.

#[local] Set Warnings "-inexact-float".

(** ** JavaScript object properties *)

Module JS.

(** An optional property of an options object: the key is absent, present
    with the value [undefined], or present with a value.  Reading the first
    two gives [undefined]; object spread tells them apart. *)
Inductive prop (A : Type) : Type :=
| Missing
| Undef
| Val (a : A).
Arguments Missing {A}.
Arguments Undef {A}.
Arguments Val {A} a.

(** [o.k] *)
Definition get {A} (p : prop A) : option A :=
  match p with Val a => Some a | _ => None end.

(** [const { k = d } = o] and [o.k ?? d] (no field is ever [null]). *)
Definition orDefault {A} (p : prop A) (d : A) : A :=
  match get p with Some a => a | None => d end.

(** Truthiness of [o.k] for a boolean property. *)
Definition truthyBool (p : prop bool) : bool :=
  match get p with Some b => b | None => false end.

(** A string property in a condition: its value when that is truthy, that
    is, when the property holds a string other than the empty one. *)
Definition truthy (p : prop string) : option string :=
  match get p with
  | Some s => if String.eqb s EmptyString then None else Some s
  | None => None
  end.

(** [o.k || d] for a string property. *)
Definition orElse (p : prop string) (d : string) : string :=
  match truthy p with Some s => s | None => d end.

(** The property [k] of [{ k: d, ...o }]: the spread copies every own
    property of [o], also one whose value is [undefined]. *)
Definition spreadOver {A} (d : A) (p : prop A) : prop A :=
  match p with Missing => Val d | _ => p end.

End JS.
Import JS.

(** ** Hex colour strings *)

(** One character of the class [[a-f\d]] under the [i] flag, with the value
    [parseInt] gives it in base 16. *)
Definition hexDigit (c : ascii) : option Z :=
  let n := Z.of_nat (nat_of_ascii c) in
  if ((48 <=? n) && (n <=? 57))%Z then Some (n - 48)%Z
  else if ((97 <=? n) && (n <=? 102))%Z then Some (n - 87)%Z
  else if ((65 <=? n) && (n <=? 70))%Z then Some (n - 55)%Z
  else None.

(** [parseInt(s, 16)] of a two-character capture group. *)
Definition parseHexPair (a b : ascii) : option Z :=
  match hexDigit a, hexDigit b with
  | Some x, Some y => Some (16 * x + y)%Z
  | _, _ => None
  end.

(** [hexToRgb]: the regular expression
    [/^#?([a-f\d]{2})([a-f\d]{2})([a-f\d]{2})$/i].  ['#'] is no hex digit, so
    the optional ['#'] is taken whenever it is there. *)
Definition hexToRgb (hex : string) : option (Z * Z * Z) :=
  let body := match hex with
              | String "#"%char rest => rest
              | _ => hex
              end in
  match body with
  | String a (String b (String c (String d (String e (String f EmptyString))))) =>
      match parseHexPair a b, parseHexPair c d, parseHexPair e f with
      | Some r, Some g, Some bl => Some (r, g, bl)
      | _, _, _ => None
      end
  | _ => None
  end.

(** The digit characters of [Number.prototype.toString(16)]. *)
Definition hexChar (d : Z) : ascii :=
  ascii_of_nat (Z.to_nat (if (d <? 10)%Z then 48 + d else 87 + d)%Z).

Fixpoint hexDigits (fuel : nat) (n : Z) (acc : string) : string :=
  match fuel with
  | O => acc
  | S k =>
      let acc' := String (hexChar (n mod 16)) acc in
      if (n / 16 =? 0)%Z then acc' else hexDigits k (n / 16)%Z acc'
  end.

(** [n.toString(16)] for an integer [n]. *)
Definition toString16 (n : Z) : string :=
  let digits m := hexDigits (S (Z.to_nat (Z.log2 m))) m EmptyString in
  if (n <? 0)%Z then String "-"%char (digits (- n)%Z) else digits n.

(** [toHex] inside [rgbToHex]; [Math.round] is the identity on the integer
    channels the function is called with. *)
Definition toHex (n : Z) : string :=
  let hex := toString16 n in
  if (String.length hex =? 1)%nat then String "0"%char hex else hex.

Definition rgbToHex (r g b : Z) : string :=
  String "#"%char (toHex r ++ toHex g ++ toHex b)%string.

(** [n.toString()] in base 10, for the keys of the frequency table. *)
Definition toString10 (n : Z) : string :=
  DecimalString.NilZero.string_of_int (Z.to_int n).

(** ** Binary64 arithmetic

    [+], [-], [*], [/] and the comparisons of JavaScript numbers are the IEEE
    754 binary64 operations of [PrimFloat]. *)

(** An integer as a JavaScript number (exact below [2^53]). *)
Definition Z2F (z : Z) : float := PrimFloat.of_uint63 (Uint63.of_Z z).

(** [Math.max] and [Math.min] on two finite numbers. *)
Definition Math_max (a b : float) : float := if (a <? b)%float then b else a.
Definition Math_min (a b : float) : float := if (b <? a)%float then b else a.

(** A finite number as sign, 53-bit mantissa [m] and biased exponent [e]:
    [|x| = m * 2^(e - bias)].  Zero has mantissa 0. *)
Definition bias : int := 2154.

Definition decompose (x : float) : bool * int * int :=
  let (f, e) := PrimFloat.frshiftexp x in
  ((x <? 0)%float, PrimFloat.normfr_mantissa f, e).

Definition signed (neg : bool) (z : Z) : Z := if neg then (- z)%Z else z.

(** [Math.floor], as an integer.  (NaN and the infinities, which no caller
    here produces, are sent to 0.) *)
Definition Math_floor (x : float) : Z :=
  let '(neg, m, e) := decompose x in
  if (bias <=? e)%uint63 then
    signed neg (Z.shiftl (Uint63.to_Z m) (Uint63.to_Z (e - bias)))
  else
    let k := (bias - e)%uint63 in
    if (63 <=? k)%uint63 then
      (if neg && negb (m =? 0)%uint63 then -1 else 0)%Z
    else
      signed neg (Uint63.to_Z (if neg then (m + ((1 << k) - 1)) >> k
                               else m >> k)%uint63).

(** [Math.round]: the nearest integer, a tie going up; that is
    [floor (x + 1/2)] computed without rounding. *)
Definition Math_round (x : float) : Z :=
  let '(neg, m, e) := decompose x in
  if (bias <=? e)%uint63 then
    signed neg (Z.shiftl (Uint63.to_Z m) (Uint63.to_Z (e - bias)))
  else
    let k := (bias - e)%uint63 in
    if (63 <=? k)%uint63 then 0%Z
    else
      let half := (1 << (k - 1))%uint63 in
      signed neg (Uint63.to_Z (if neg then (m + (half - 1)) >> k
                               else (m + half) >> k)%uint63).

(** ** HSL conversion *)

(** [rgbToHsl].  The [switch (max)] takes the first [case] that is [===]. *)
Definition rgbToHsl (r g b : float) : float * float * float :=
  let r := (r / 255)%float in
  let g := (g / 255)%float in
  let b := (b / 255)%float in
  let max := Math_max (Math_max r g) b in
  let min := Math_min (Math_min r g) b in
  let l := ((max + min) / 2)%float in
  if (max =? min)%float then ((0 * 360)%float, 0%float, l)
  else
    let d := (max - min)%float in
    let s := if (0.5 <? l)%float then (d / (2 - max - min))%float
             else (d / (max + min))%float in
    let h := if (max =? r)%float then
               ((g - b) / d + (if (g <? b)%float then 6 else 0))%float
             else if (max =? g)%float then ((b - r) / d + 2)%float
             else ((r - g) / d + 4)%float in
    let h := (h / 6)%float in
    ((h * 360)%float, s, l).

Definition hue2rgb (p q t : float) : float :=
  let t := if (t <? 0)%float then (t + 1)%float else t in
  let t := if (1 <? t)%float then (t - 1)%float else t in
  if (t <? 1 / 6)%float then (p + (q - p) * 6 * t)%float
  else if (t <? 1 / 2)%float then q
  else if (t <? 2 / 3)%float then (p + (q - p) * (2 / 3 - t) * 6)%float
  else p.

(** [r], [g] and [b] of [hslToRgb] before they are scaled and rounded. *)
Definition hslToUnit (h s l : float) : float * float * float :=
  let h := (h / 360)%float in
  if (s =? 0)%float then (l, l, l)
  else
    let q := if (l <? 0.5)%float then (l * (1 + s))%float
             else (l + s - l * s)%float in
    let p := (2 * l - q)%float in
    (hue2rgb p q (h + 1 / 3)%float, hue2rgb p q h,
     hue2rgb p q (h - 1 / 3)%float).

Definition hslToRgb (h s l : float) : Z * Z * Z :=
  let '(r, g, b) := hslToUnit h s l in
  (Math_round (r * 255)%float, Math_round (g * 255)%float,
   Math_round (b * 255)%float).

(** [boostColorBrightness]: only the lightness of the HSL triple changes,
    to [Math.max(hsl[2], targetLuminance)]. *)
Definition boostColorBrightness (r g b : Z) (targetLuminance : float)
  : Z * Z * Z :=
  let '(h, s, l) := rgbToHsl (Z2F r) (Z2F g) (Z2F b) in
  let l := Math_max l targetLuminance in
  let '(br, bg, bb) := hslToRgb h s l in
  (Z.min 255 (Z.max 0 br), Z.min 255 (Z.max 0 bg), Z.min 255 (Z.max 0 bb)).

(** ** Luminance and saturation *)

(** The sRGB linearisation inside [getLuminance]. *)
Definition linearize (c : R) : R :=
  if Rle_dec c 0.03928 then (c / 12.92)%R
  else Rpower ((c + 0.055) / 1.055) 2.4.

(** [getLuminance]: WCAG relative luminance. *)
Definition getLuminance (r g b : Z) : R :=
  (0.2126 * linearize (IZR r / 255)
   + 0.7152 * linearize (IZR g / 255)
   + 0.0722 * linearize (IZR b / 255))%R.

(** [calculateSaturation] *)
Definition calculateSaturation (r g b : Z) : R :=
  let max := (IZR (Z.max (Z.max r g) b) / 255)%R in
  let min := (IZR (Z.min (Z.min r g) b) / 255)%R in
  let delta := (max - min)%R in
  if Req_dec_T max 0 then 0%R else (delta / max)%R.

Definition Rltb (a b : R) : bool := if Rlt_dec a b then true else false.

(** ** Data model *)

Record ExtractedColor : Type := {
  hex : string;
  rgb : Z * Z * Z;
  luminance : R
}.

(** Canvas sizes and media dimensions are unsigned; they enter the
    arithmetic as JavaScript numbers through [N2F]. *)
Definition N2F (n : N) : float := Z2F (Z.of_N n).

Record ColorExtractionOptions : Type := {
  sampleSize : prop N;
  fallbackColor : prop string;
  sampleLowerThird : prop bool;
  analyzePortraitVideo : prop bool;
  handleSplitView : prop bool;
  ignoreBlackBackground : prop bool;
  enableContrastBoost : prop bool;
  minSaturation : prop R;
  maxSaturation : prop R;
  minLuminance : prop R;
  maxLuminance : prop R;
  maxDarkness : prop R;
  useFallbackOnly : prop bool
}.

(** [{}], the default of the [options] parameter. *)
Definition noOptions : ColorExtractionOptions :=
  {| sampleSize := Missing; fallbackColor := Missing;
     sampleLowerThird := Missing; analyzePortraitVideo := Missing;
     handleSplitView := Missing; ignoreBlackBackground := Missing;
     enableContrastBoost := Missing; minSaturation := Missing;
     maxSaturation := Missing; minLuminance := Missing;
     maxLuminance := Missing; maxDarkness := Missing;
     useFallbackOnly := Missing |}.

(** [{ ...options, useFallbackOnly: flag }] *)
Definition withUseFallbackOnly (flag : prop bool)
  (options : ColorExtractionOptions) : ColorExtractionOptions :=
  {| sampleSize := sampleSize options;
     fallbackColor := fallbackColor options;
     sampleLowerThird := sampleLowerThird options;
     analyzePortraitVideo := analyzePortraitVideo options;
     handleSplitView := handleSplitView options;
     ignoreBlackBackground := ignoreBlackBackground options;
     enableContrastBoost := enableContrastBoost options;
     minSaturation := minSaturation options;
     maxSaturation := maxSaturation options;
     minLuminance := minLuminance options;
     maxLuminance := maxLuminance options;
     maxDarkness := maxDarkness options;
     useFallbackOnly := flag |}.

(** [{ ...options, fallbackColor: color }] *)
Definition withFallbackColor (color : prop string)
  (options : ColorExtractionOptions) : ColorExtractionOptions :=
  {| sampleSize := sampleSize options;
     fallbackColor := color;
     sampleLowerThird := sampleLowerThird options;
     analyzePortraitVideo := analyzePortraitVideo options;
     handleSplitView := handleSplitView options;
     ignoreBlackBackground := ignoreBlackBackground options;
     enableContrastBoost := enableContrastBoost options;
     minSaturation := minSaturation options;
     maxSaturation := maxSaturation options;
     minLuminance := minLuminance options;
     maxLuminance := maxLuminance options;
     maxDarkness := maxDarkness options;
     useFallbackOnly := useFallbackOnly options |}.

(** [{ ...options, ignoreBlackBackground: flag }] *)
Definition withIgnoreBlackBackground (flag : prop bool)
  (options : ColorExtractionOptions) : ColorExtractionOptions :=
  {| sampleSize := sampleSize options;
     fallbackColor := fallbackColor options;
     sampleLowerThird := sampleLowerThird options;
     analyzePortraitVideo := analyzePortraitVideo options;
     handleSplitView := handleSplitView options;
     ignoreBlackBackground := flag;
     enableContrastBoost := enableContrastBoost options;
     minSaturation := minSaturation options;
     maxSaturation := maxSaturation options;
     minLuminance := minLuminance options;
     maxLuminance := maxLuminance options;
     maxDarkness := maxDarkness options;
     useFallbackOnly := useFallbackOnly options |}.

(** An entry of the frequency table (the value type of [colorMap]). *)
Module ColorData.
Record t : Type := mk {
  count : Z;
  rgb : Z * Z * Z;
  luminance : R;
  saturation : R
}.
End ColorData.

(** [Map<string, ...>]: entries in insertion order, keys unique. *)
Definition ColorMap : Type := list (string * ColorData.t).

(** ** Fallback colour *)

(** [createFallbackColor] *)
Definition createFallbackColor (fallbackHex : string) : ExtractedColor :=
  match hexToRgb fallbackHex with
  | None =>
      {| hex := "#6b7280"%string; rgb := (107, 114, 128)%Z; luminance := 0.4%R |}
  | Some (r, g, b) =>
      {| hex := fallbackHex; rgb := (r, g, b); luminance := getLuminance r g b |}
  end.

(** ** Frequency analysis *)

(** [data[i]] of a [Uint8ClampedArray]. *)
Definition byteAt (data : list Byte.byte) (i : nat) : Z :=
  Z.of_N (Byte.to_N (nth i data Byte.x00)).

(** [Math.floor(c / 24) * 24] *)
Definition quantize (c : Z) : Z :=
  (Math_floor (Z2F c / 24)%float * 24)%Z.

Definition colorKey (r g b : Z) : string :=
  (toString10 r ++ "," ++ toString10 g ++ "," ++ toString10 b)%string.

Definition has (colorMap : ColorMap) (key : string) : bool :=
  existsb (fun e => String.eqb (fst e) key) colorMap.

(** [colorMap.get(key)!.count++]: the entry keeps its place. *)
Definition incrementCount (colorMap : ColorMap) (key : string) : ColorMap :=
  map (fun e : string * ColorData.t =>
         if String.eqb (fst e) key then
           let c := snd e in
           (fst e, ColorData.mk (ColorData.count c + 1) (ColorData.rgb c)
                     (ColorData.luminance c) (ColorData.saturation c))
         else e) colorMap.

(** [colorMap.set(key, value)] for a key that is not in the map. *)
Definition set (colorMap : ColorMap) (key : string) (v : ColorData.t) : ColorMap :=
  colorMap ++ [(key, v)].

(** The values [i] takes in [for (let i = 0; i < length; i += 16)]. *)
Definition loopIndices (length : nat) : list nat :=
  map (fun k => 16 * k)%nat (seq 0 ((length + 15) / 16)).

(** One iteration of the sampling loop. *)
Definition scanStep (data : list Byte.byte) (ignoreBlackBackground : bool)
  (colorMap : ColorMap) (i : nat) : ColorMap :=
  let r := byteAt data i in
  let g := byteAt data (i + 1) in
  let b := byteAt data (i + 2) in
  let alpha := byteAt data (i + 3) in
  if (alpha <? 128)%Z then colorMap
  else if ignoreBlackBackground && (r <? 30)%Z && (g <? 30)%Z && (b <? 30)%Z
  then colorMap
  else
    let quantizedR := quantize r in
    let quantizedG := quantize g in
    let quantizedB := quantize b in
    let luminance := getLuminance quantizedR quantizedG quantizedB in
    let saturation := calculateSaturation quantizedR quantizedG quantizedB in
    let key := colorKey quantizedR quantizedG quantizedB in
    if has colorMap key then incrementCount colorMap key
    else set colorMap key
           (ColorData.mk 1 (quantizedR, quantizedG, quantizedB)
                         luminance saturation).

(** The sampling loop, shared by [extractDominantColor] (inline) and
    [analyzeImageData]. *)
Definition scanPixels (data : list Byte.byte) (ignoreBlackBackground : bool)
  : ColorMap :=
  fold_left (scanStep data ignoreBlackBackground)
            (loopIndices (List.length data)) [].

(** [analyzeImageData] *)
Definition analyzeImageData (data : list Byte.byte)
  (options : ColorExtractionOptions) : ColorMap :=
  let ignoreBlackBackground :=
    orDefault (ignoreBlackBackground options) true in
  scanPixels data ignoreBlackBackground.

(** ** Candidate selection *)

(** [totalScore] inside [findOptimalColor]. *)
Definition totalScore (colorData : ColorData.t) : R :=
  let luminance := ColorData.luminance colorData in
  let saturation := ColorData.saturation colorData in
  let count := ColorData.count colorData in
  let frequencyScore := Rmin (IZR count / 10) 1 in
  let saturationScore := Rmin (saturation * 1.5) 1 in
  let luminanceScore := (1 - Rabs (luminance - 0.5))%R in
  let darknessBonus := if Rltb 0.25 luminance then 1.2%R else 1%R in
  ((frequencyScore * 0.4 + saturationScore * 0.3 + luminanceScore * 0.3)
   * darknessBonus)%R.

(** The test that makes [findOptimalColor] skip an entry. *)
Definition outsideRange (minLuminance maxLuminance : R)
  (colorData : ColorData.t) : bool :=
  Rltb (ColorData.luminance colorData) minLuminance
  || Rltb maxLuminance (ColorData.luminance colorData).

(** [findOptimalColor]; [enableContrastBoost] is a parameter the body never
    reads. *)
Definition findOptimalColor (colorMap : ColorMap)
  (minLuminance maxLuminance : R) (enableContrastBoost : bool)
  : option ColorData.t :=
  fst (fold_left
         (fun (best : option ColorData.t * R) (entry : string * ColorData.t) =>
            let (bestColor, bestScore) := best in
            let colorData := snd entry in
            if outsideRange minLuminance maxLuminance colorData then best
            else
              let totalScore := totalScore colorData in
              if Rltb bestScore totalScore then (Some colorData, totalScore)
              else best)
         colorMap (None, 0%R)).

(** The last resort of [extractDominantColor]: the most frequent entry. *)
Definition mostFrequent (colorMap : ColorMap) : option ColorData.t :=
  fst (fold_left
         (fun (best : option ColorData.t * Z) (entry : string * ColorData.t) =>
            let (bestColor, maxCount) := best in
            let colorData := snd entry in
            if (maxCount <? ColorData.count colorData)%Z
            then (Some colorData, ColorData.count colorData)
            else best)
         colorMap (None, 0%Z)).

(** The three steps that assign [bestColor] in [extractDominantColor]. *)
Definition selectBestColor (colorMap : ColorMap)
  (minLuminance maxLuminance : R) (enableContrastBoost : bool)
  : option ColorData.t :=
  match findOptimalColor colorMap minLuminance maxLuminance enableContrastBoost with
  | Some bestColor => Some bestColor
  | None =>
      match findOptimalColor colorMap 0.1 0.9 enableContrastBoost with
      | Some bestColor => Some bestColor
      | None => mostFrequent colorMap
      end
  end.

(** The end of [extractDominantColor]: boost, hex and luminance of the
    chosen entry. *)
Definition finalColor (bestColor : ColorData.t) (enableContrastBoost : bool)
  : ExtractedColor :=
  let '(r, g, b) := ColorData.rgb bestColor in
  let finalRgb :=
    if enableContrastBoost && Rltb (ColorData.luminance bestColor) 0.3
    then boostColorBrightness r g b 0.4%float
    else (r, g, b) in
  let '(fr, fg, fb) := finalRgb in
  {| hex := rgbToHex fr fg fb;
     rgb := finalRgb;
     luminance := getLuminance fr fg fb |}.

(** ** The canvas and its effects *)

Record Pixel : Type := {
  red : Byte.byte;
  green : Byte.byte;
  blue : Byte.byte;
  alpha : Byte.byte
}.

Definition transparentBlack : Pixel :=
  {| red := Byte.x00; green := Byte.x00; blue := Byte.x00; alpha := Byte.x00 |}.

(** What the browser knows of a drawable source.  [render dw dh x y] is the
    pixel at [(x, y)] once the source has been drawn, scaled to [dw] by [dh],
    on an empty canvas; the scaling filter is the browser's.  [drawable] is
    false when [drawImage] raises on the source (a broken image, a source of
    zero size); [originClean] is false when reading back a canvas the source
    was drawn on raises a [SecurityError]. *)
Record Media : Type := {
  drawable : bool;
  originClean : bool;
  render : N -> N -> Z -> Z -> Pixel
}.

Record Video : Type := {
  videoWidth : N;
  videoHeight : N;
  readyState : Z;
  videoMedia : Media
}.

Record Image : Type := {
  complete : bool;
  naturalWidth : N;
  naturalHeight : N;
  imageMedia : Media
}.

Inductive Element : Type :=
| HTMLVideoElement (v : Video)
| HTMLImageElement (img : Image)
| HTMLCanvasElement (m : Media).

Definition mediaOf (element : Element) : Media :=
  match element with
  | HTMLVideoElement v => videoMedia v
  | HTMLImageElement img => imageMedia img
  | HTMLCanvasElement m => m
  end.

(** The 2D context after the last [drawImage]. *)
Record Context2D : Type := {
  width : N;
  height : N;
  bitmap : Z -> Z -> Pixel;
  readable : bool
}.

(** What the page can do: whether [getContext('2d')] gives a context, and
    what loading a URL into a [new Image()] ends in ([None]: [onerror]). *)
Record Browser : Type := {
  context2d : bool;
  loadImage : string -> option Image
}.

(** The calls a run makes on its collaborators, in order. *)
Inductive Call : Type :=
| DrawImage (dw dh : N)
| GetImageData (sx sy sw sh : Z)
| ConsoleWarn
| NewImage (src : string).

(** A computation that logs its calls and either returns or throws. *)
Definition Eff (A : Type) : Type := list Call * option A.

Definition ret {A} (a : A) : Eff A := ([], Some a).

Definition throw {A} : Eff A := ([], None).

Definition bind {A B} (m : Eff A) (k : A -> Eff B) : Eff B :=
  match m with
  | (calls, None) => (calls, None)
  | (calls, Some a) => let (calls', r) := k a in (calls ++ calls', r)
  end.

Notation "x <- m ;; k" := (bind m (fun x => k))
  (at level 61, m at next level, right associativity).

(** The context of a [dw] by [dh] canvas the source has been drawn on. *)
Definition drawn (m : Media) (dw dh : N) : Context2D :=
  {| width := dw; height := dh;
     bitmap := render m dw dh; readable := originClean m |}.

(** [ctx.drawImage(element, 0, 0, dw, dh)] on a canvas of that size. *)
Definition drawImage (element : Element) (dw dh : N) : Eff Context2D :=
  let m := mediaOf element in
  ([DrawImage dw dh], if drawable m then Some (drawn m dw dh) else None).

(** The rows of the rectangle, each pixel as four bytes; outside the canvas
    the pixels are transparent black. *)
Definition pixelBytes (p : Pixel) : list Byte.byte :=
  [red p; green p; blue p; alpha p].

Definition pixelIn (ctx : Context2D) (x y : Z) : Pixel :=
  if ((0 <=? x) && (x <? Z.of_N (width ctx))
      && (0 <=? y) && (y <? Z.of_N (height ctx)))%Z
  then bitmap ctx x y else transparentBlack.

Definition rectPixels (ctx : Context2D) (sx sy sw sh : Z) : list Pixel :=
  flat_map (fun j => map (fun i => pixelIn ctx (sx + Z.of_nat i) (sy + Z.of_nat j))
                         (seq 0 (Z.to_nat sw)))
           (seq 0 (Z.to_nat sh)).

Definition rectBytes (ctx : Context2D) (sx sy sw sh : Z) : list Byte.byte :=
  flat_map pixelBytes (rectPixels ctx sx sy sw sh).

(** [ctx.getImageData(sx, sy, sw, sh).data]: an [IndexSizeError] for an
    empty rectangle, a [SecurityError] for a tainted canvas. *)
Definition getImageData (ctx : Context2D) (sx sy sw sh : Z)
  : Eff (list Byte.byte) :=
  ([GetImageData sx sy sw sh],
   if (sw =? 0)%Z || (sh =? 0)%Z || negb (readable ctx) then None
   else Some (rectBytes ctx sx sy sw sh)).

(** ** Extraction *)

Definition toExtracted (c : ColorData.t) : ExtractedColor :=
  let '(r, g, b) := ColorData.rgb c in
  {| hex := rgbToHex r g b; rgb := (r, g, b);
     luminance := ColorData.luminance c |}.

(** The score that compares the two halves in [extractFromSplitView]. *)
Definition regionScore (c : ColorData.t) : R :=
  (ColorData.saturation c * 0.6
   + (1 - Rabs (ColorData.luminance c - 0.5)) * 0.4)%R.

(** The end of [extractFromSplitView]: the better half, the only half that
    has a colour, or the fallback. *)
Definition chooseHalf (leftBest rightBest : option ColorData.t)
  (fallbackColor : string) : ExtractedColor :=
  match leftBest, rightBest with
  | Some leftBest, Some rightBest =>
      let leftScore := regionScore leftBest in
      let rightScore := regionScore rightBest in
      let winner := if Rltb rightScore leftScore then leftBest else rightBest in
      toExtracted winner
  | Some bestColor, None => toExtracted bestColor
  | None, Some bestColor => toExtracted bestColor
  | None, None => createFallbackColor fallbackColor
  end.

(** [extractFromSplitView] *)
Definition extractFromSplitView (ctx : Context2D) (sampleSize : N)
  (options : ColorExtractionOptions) : Eff ExtractedColor :=
  let size := Z.of_N sampleSize in
  let halfWidth := Math_floor (N2F sampleSize / 2)%float in
  let leftLowerThird := Math_floor (N2F sampleSize * 0.67)%float in
  leftData <- getImageData ctx 0 leftLowerThird halfWidth (size - leftLowerThird) ;;
  rightData <- getImageData ctx halfWidth leftLowerThird halfWidth
                 (size - leftLowerThird) ;;
  let leftColors := analyzeImageData leftData options in
  let rightColors := analyzeImageData rightData options in
  let minL := orDefault (minLuminance options) 0.2%R in
  let maxL := orDefault (maxLuminance options) 0.85%R in
  let boost := orDefault (enableContrastBoost options) true in
  let leftBest := findOptimalColor leftColors minL maxL boost in
  let rightBest := findOptimalColor rightColors minL maxL boost in
  ret (chooseHalf leftBest rightBest
         (orDefault (fallbackColor options) "#4a5568"%string)).

(** What [extractDominantColor] does with the [imageData] it settled on:
    the table, the three selection steps, the boost, and the fallback when
    nothing was selected. *)
Definition dominantOf (data : list Byte.byte) (ignoreBlackBackground : bool)
  (minLuminance maxLuminance : R) (enableContrastBoost : bool)
  (fallbackColor : string) : ExtractedColor :=
  let colorMap := scanPixels data ignoreBlackBackground in
  match selectBestColor colorMap minLuminance maxLuminance
                        enableContrastBoost with
  | Some bestColor => finalColor bestColor enableContrastBoost
  | None => createFallbackColor fallbackColor
  end.

(** The [try] block of [extractDominantColor]. *)
Definition extractBody (element : Element) (options : ColorExtractionOptions)
  : Eff ExtractedColor :=
  let sampleSize := orDefault (sampleSize options) 50%N in
  let fallbackColor := orDefault (fallbackColor options) "#4a5568"%string in
  let sampleLowerThird := orDefault (sampleLowerThird options) true in
  let analyzePortraitVideo := orDefault (analyzePortraitVideo options) true in
  let handleSplitView := orDefault (handleSplitView options) true in
  let ignoreBlackBackground := orDefault (ignoreBlackBackground options) true in
  let enableContrastBoost := orDefault (enableContrastBoost options) true in
  let minLuminance := orDefault (minLuminance options) 0.2%R in
  let maxLuminance := orDefault (maxLuminance options) 0.85%R in
  let size := Z.of_N sampleSize in
  prepared <-
    match element with
    | HTMLVideoElement v =>
        if analyzePortraitVideo then
          let aspectRatio := (N2F (videoWidth v) / N2F (videoHeight v))%float in
          ctx <- drawImage element sampleSize sampleSize ;;
          ret (ctx, (aspectRatio <? 1)%float, false)
        else
          ctx <- drawImage element sampleSize sampleSize ;;
          ret (ctx, false, false)
    | HTMLImageElement img =>
        if negb (complete img) || (naturalHeight img =? 0)%N then throw
        else
          let aspectRatio := (N2F (naturalWidth img) / N2F (naturalHeight img))%float in
          let isSplitView :=
            if handleSplitView then (2.5 <? aspectRatio)%float else false in
          ctx <- drawImage element sampleSize sampleSize ;;
          ret (ctx, false, isSplitView)
    | HTMLCanvasElement _ =>
        ctx <- drawImage element sampleSize sampleSize ;;
        ret (ctx, false, false)
    end ;;
  let '(ctx, isPortraitVideo, isSplitView) := prepared in
  sampled <-
    (if isPortraitVideo && ignoreBlackBackground then
       let centerWidth := Math_floor (N2F sampleSize * 0.6)%float in
       let centerHeight := Math_floor (N2F sampleSize * 0.8)%float in
       let offsetX := Math_floor ((Z2F size - Z2F centerWidth) / 2)%float in
       let offsetY := Math_floor ((Z2F size - Z2F centerHeight) / 2)%float in
       data <- getImageData ctx offsetX offsetY centerWidth centerHeight ;;
       ret (inr data)
     else if isSplitView && handleSplitView then
       color <- extractFromSplitView ctx sampleSize options ;;
       ret (inl color)
     else if sampleLowerThird then
       let lowerThirdStart := Math_floor (N2F sampleSize * 0.67)%float in
       let lowerThirdHeight := (size - lowerThirdStart)%Z in
       data <- getImageData ctx 0 lowerThirdStart size lowerThirdHeight ;;
       ret (inr data)
     else
       data <- getImageData ctx 0 0 size size ;;
       ret (inr data)) ;;
  ret (match sampled with
       | inl color => color
       | inr data =>
           dominantOf data ignoreBlackBackground minLuminance maxLuminance
                      enableContrastBoost fallbackColor
       end).

(** [extractDominantColor]: the context check, then the [try] block with
    its [catch]. *)
Definition extractDominantColor (browser : Browser) (element : Element)
  (options : ColorExtractionOptions) : list Call * ExtractedColor :=
  let fallbackColor := orDefault (fallbackColor options) "#4a5568"%string in
  if negb (context2d browser) then ([], createFallbackColor fallbackColor)
  else
    match extractBody element options with
    | (calls, Some color) => (calls, color)
    | (calls, None) =>
        (calls ++ [ConsoleWarn], createFallbackColor fallbackColor)
    end.

(** ** Entry points *)

(** How a promise settles. *)
Inductive Settled (A : Type) : Type :=
| Resolved (a : A)
| Rejected.
Arguments Resolved {A} a.
Arguments Rejected {A}.

(** The [extractionOptions] literal of [extractColorFromImageUrl]:
    three defaults, then [...options]. *)
Definition imageExtractionOptions (options : ColorExtractionOptions)
  : ColorExtractionOptions :=
  {| sampleSize := sampleSize options;
     fallbackColor :=
       spreadOver (orElse (fallbackColor options) "#6b7280"%string)
                  (fallbackColor options);
     sampleLowerThird := sampleLowerThird options;
     analyzePortraitVideo := analyzePortraitVideo options;
     handleSplitView := handleSplitView options;
     ignoreBlackBackground := spreadOver true (ignoreBlackBackground options);
     enableContrastBoost := spreadOver true (enableContrastBoost options);
     minSaturation := minSaturation options;
     maxSaturation := maxSaturation options;
     minLuminance := minLuminance options;
     maxLuminance := maxLuminance options;
     maxDarkness := maxDarkness options;
     useFallbackOnly := useFallbackOnly options |}.

(** The [extractionOptions] literal of [extractColorFromVideo]. *)
Definition videoExtractionOptions (options : ColorExtractionOptions)
  : ColorExtractionOptions :=
  {| sampleSize := sampleSize options;
     fallbackColor :=
       spreadOver (orElse (fallbackColor options) "#4a5568"%string)
                  (fallbackColor options);
     sampleLowerThird := sampleLowerThird options;
     analyzePortraitVideo := spreadOver true (analyzePortraitVideo options);
     handleSplitView := handleSplitView options;
     ignoreBlackBackground := spreadOver true (ignoreBlackBackground options);
     enableContrastBoost := spreadOver true (enableContrastBoost options);
     minSaturation := minSaturation options;
     maxSaturation := maxSaturation options;
     minLuminance := spreadOver 0.25%R (minLuminance options);
     maxLuminance := spreadOver 0.8%R (maxLuminance options);
     maxDarkness := maxDarkness options;
     useFallbackOnly := useFallbackOnly options |}.

(** [options.useFallbackOnly && options.fallbackColor]: the string when the
    conjunction is truthy. *)
Definition fallbackOnly (options : ColorExtractionOptions) : option string :=
  if truthyBool (useFallbackOnly options) then truthy (fallbackColor options)
  else None.

(** [extractColorFromImageUrl]: the promise's outcome.  [createFallbackColor]
    and [extractDominantColor] never throw, so the [reject(error)] of the
    inner [catch] blocks is not reached. *)
Definition extractColorFromImageUrl (browser : Browser) (imageUrl : string)
  (options : ColorExtractionOptions) : list Call * Settled ExtractedColor :=
  match fallbackOnly options with
  | Some fallback => ([], Resolved (createFallbackColor fallback))
  | None =>
      match (if String.eqb imageUrl EmptyString
             then truthy (fallbackColor options) else None) with
      | Some fallback => ([], Resolved (createFallbackColor fallback))
      | None =>
          match loadImage browser imageUrl with
          | Some img =>
              let extractionOptions := imageExtractionOptions options in
              let (calls, color) :=
                extractDominantColor browser (HTMLImageElement img)
                                     extractionOptions in
              (NewImage imageUrl :: calls, Resolved color)
          | None =>
              match truthy (fallbackColor options) with
              | Some fallback =>
                  ([NewImage imageUrl], Resolved (createFallbackColor fallback))
              | None => ([NewImage imageUrl], Rejected)
              end
          end
      end
  end.

(** [extractColorFromVideo] *)
Definition extractColorFromVideo (browser : Browser) (videoElement : Video)
  (options : ColorExtractionOptions) : list Call * ExtractedColor :=
  match fallbackOnly options with
  | Some fallback => ([], createFallbackColor fallback)
  | None =>
      if (readyState videoElement <? 2)%Z then
        ([], createFallbackColor (orElse (fallbackColor options) "#4a5568"%string))
      else
        let extractionOptions := videoExtractionOptions options in
        extractDominantColor browser (HTMLVideoElement videoElement)
                             extractionOptions
  end.

(** ** The earlier revision

    The first revision of the module, without options: one rectangle (the
    whole canvas), buckets of 32, and a literal fallback colour. *)

Module Legacy.

(** The literal every fallback path of this revision returns. *)
Definition fallback : ExtractedColor :=
  {| hex := "#4a5568"%string; rgb := (74, 85, 104)%Z; luminance := 0.3%R |}.

(** An entry of this revision's [colorMap]. *)
Module Entry.
Record t : Type := mk {
  count : Z;
  rgb : Z * Z * Z
}.
End Entry.

(** [Math.floor(c / 32) * 32] *)
Definition quantize (c : Z) : Z :=
  (Math_floor (Z2F c / 32)%float * 32)%Z.

Definition has (colorMap : list (string * Entry.t)) (key : string) : bool :=
  existsb (fun e => String.eqb (fst e) key) colorMap.

Definition incrementCount (colorMap : list (string * Entry.t)) (key : string)
  : list (string * Entry.t) :=
  map (fun e : string * Entry.t =>
         if String.eqb (fst e) key
         then (fst e, Entry.mk (Entry.count (snd e) + 1) (Entry.rgb (snd e)))
         else e) colorMap.

(** One iteration of the sampling loop. *)
Definition scanStep (data : list Byte.byte) (colorMap : list (string * Entry.t))
  (i : nat) : list (string * Entry.t) :=
  let r := byteAt data i in
  let g := byteAt data (i + 1) in
  let b := byteAt data (i + 2) in
  let alpha := byteAt data (i + 3) in
  if (alpha <? 128)%Z then colorMap
  else
    let quantizedR := quantize r in
    let quantizedG := quantize g in
    let quantizedB := quantize b in
    let key := colorKey quantizedR quantizedG quantizedB in
    if has colorMap key then incrementCount colorMap key
    else colorMap ++ [(key, Entry.mk 1 (quantizedR, quantizedG, quantizedB))].

(** The first loop over the table: the most frequent entry whose luminance
    is strictly between 0.1 and 0.8. *)
Definition preferred (colorMap : list (string * Entry.t)) (start : Entry.t) : Entry.t :=
  fold_left
    (fun (dominantColor : Entry.t) (e : string * Entry.t) =>
       let colorData := snd e in
       let '(r, g, b) := Entry.rgb colorData in
       let luminance := getLuminance r g b in
       if Rltb 0.1 luminance && Rltb luminance 0.8
          && (Entry.count dominantColor <? Entry.count colorData)%Z
       then colorData else dominantColor)
    colorMap start.

(** The second loop: the most frequent entry of all. *)
Definition anyDominant (colorMap : list (string * Entry.t)) (start : Entry.t) : Entry.t :=
  fold_left
    (fun (dominantColor : Entry.t) (e : string * Entry.t) =>
       let colorData := snd e in
       if (Entry.count dominantColor <? Entry.count colorData)%Z
       then colorData else dominantColor)
    colorMap start.

(** The [try] block of this revision's [extractDominantColor]. *)
Definition extractBody (element : Element) (sampleSize : N)
  : Eff ExtractedColor :=
  let size := Z.of_N sampleSize in
  ctx <-
    match element with
    | HTMLImageElement img =>
        if negb (complete img) || (naturalHeight img =? 0)%N then throw
        else drawImage element sampleSize sampleSize
    | _ => drawImage element sampleSize sampleSize
    end ;;
  data <- getImageData ctx 0 0 size size ;;
  let colorMap := fold_left (scanStep data) (loopIndices (List.length data)) [] in
  let dominantColor := preferred colorMap (Entry.mk 0 (74, 85, 104)%Z) in
  let dominantColor :=
    if (Entry.count dominantColor =? 0)%Z then anyDominant colorMap dominantColor
    else dominantColor in
  let '(r, g, b) := Entry.rgb dominantColor in
  ret {| hex := rgbToHex r g b; rgb := (r, g, b);
         luminance := getLuminance r g b |}.

(** [extractDominantColor(element, sampleSize = 50)] *)
Definition extractDominantColor (browser : Browser) (element : Element)
  (sampleSize : N) : list Call * ExtractedColor :=
  if negb (context2d browser) then ([], fallback)
  else
    match extractBody element sampleSize with
    | (calls, Some color) => (calls, color)
    | (calls, None) => (calls ++ [ConsoleWarn], fallback)
    end.

(** [extractColorFromVideo(videoElement)] *)
Definition extractColorFromVideo (browser : Browser) (videoElement : Video)
  : list Call * ExtractedColor :=
  if (readyState videoElement <? 2)%Z then ([], fallback)
  else extractDominantColor browser (HTMLVideoElement videoElement) 50.

(** [extractColorFromImageUrl(imageUrl)]: the promise's outcome.
    [extractDominantColor] never throws, so the [reject(error)] of [onload]
    is not reached. *)
Definition extractColorFromImageUrl (browser : Browser) (imageUrl : string)
  : list Call * Settled ExtractedColor :=
  match loadImage browser imageUrl with
  | Some img =>
      let (calls, color) :=
        extractDominantColor browser (HTMLImageElement img) 50 in
      (NewImage imageUrl :: calls, Resolved color)
  | None => ([NewImage imageUrl], Rejected)
  end.

End Legacy.

(** ** Contrast and text colour *)

(** A JavaScript number that is either a real or [NaN]. *)
Definition Num : Type := option R.

(** [>=] and [>] on numbers: every comparison with [NaN] is false. *)
Definition geNum (a : Num) (b : R) : bool :=
  match a with
  | Some x => if Rle_dec b x then true else false
  | None => false
  end.

Definition gtNum (a b : Num) : bool :=
  match a, b with
  | Some x, Some y => Rltb y x
  | _, _ => false
  end.

(** [s.replace('#', '')]: the first ['#'] is removed. *)
Fixpoint removeHash (s : string) : string :=
  match s with
  | EmptyString => EmptyString
  | String c rest =>
      if Ascii.eqb c "#"%char then rest else String c (removeHash rest)
  end.

(** [s.substr(start, length)] with non-negative arguments. *)
Definition substr (s : string) (start length : nat) : string :=
  String.substring start length s.

(** The white space [parseInt] skips, among the characters of a byte
    string. *)
Definition isWhiteSpace (c : ascii) : bool :=
  let n := nat_of_ascii c in
  ((n =? 9) || (n =? 10) || (n =? 11) || (n =? 12) || (n =? 13)
   || (n =? 32) || (n =? 160))%nat.

Fixpoint trimStart (s : string) : string :=
  match s with
  | String c rest => if isWhiteSpace c then trimStart rest else s
  | EmptyString => s
  end.

(** The value of the longest prefix of base-16 digits, if there is one. *)
Fixpoint digitPrefix (s : string) (acc : option Z) : option Z :=
  match s with
  | String c rest =>
      match hexDigit c with
      | Some d =>
          digitPrefix rest
            (Some (16 * match acc with Some a => a | None => 0 end + d)%Z)
      | None => acc
      end
  | EmptyString => acc
  end.

(** The sign [parseInt] reads after the white space. *)
Definition stripSign (s : string) : bool * string :=
  match s with
  | String c rest =>
      if Ascii.eqb c "-"%char then (true, rest)
      else if Ascii.eqb c "+"%char then (false, rest)
      else (false, s)
  | EmptyString => (false, s)
  end.

(** The [0x] or [0X] that radix 16 lets [parseInt] skip. *)
Definition stripPrefix (s : string) : string :=
  match s with
  | String c (String d rest) =>
      if Ascii.eqb c "0"%char
         && (Ascii.eqb d "x"%char || Ascii.eqb d "X"%char)
      then rest else s
  | _ => s
  end.

(** [parseInt(s, 16)]: leading white space, a sign and a [0x] prefix are
    skipped, then the longest run of hex digits is read; [NaN] ([None]) when
    that run is empty.  Exact on the strings of at most two characters it is
    called with. *)
Definition parseInt16 (s : string) : option Z :=
  let '(negative, s) := stripSign (trimStart s) in
  match digitPrefix (stripPrefix s) None with
  | Some v => Some (if negative then (- v)%Z else v)
  | None => None
  end.

(** [getLuminance] on channels that may be [NaN]. *)
Definition getLuminanceNum (r g b : option Z) : Num :=
  match r, g, b with
  | Some r, Some g, Some b => Some (getLuminance r g b)
  | _, _, _ => None
  end.

(** The three channels [getContrastRatio] reads out of a colour string. *)
Definition parseChannels (color : string) : option Z * option Z * option Z :=
  let hex := removeHash color in
  (parseInt16 (substr hex 0 2),
   parseInt16 (substr hex 2 2),
   parseInt16 (substr hex 4 2)).

(** [getContrastRatio] of colorExtraction.ts, on colour strings. *)
Definition getContrastRatio (color1 color2 : string) : Num :=
  let '(r1, g1, b1) := parseChannels color1 in
  let '(r2, g2, b2) := parseChannels color2 in
  match getLuminanceNum r1 g1 b1, getLuminanceNum r2 g2 b2 with
  | Some luminance1, Some luminance2 =>
      let brighter := Rmax luminance1 luminance2 in
      let darker := Rmin luminance1 luminance2 in
      Some ((brighter + 0.05) / (darker + 0.05))%R
  | _, _ => None
  end.

(** [generateTextColor] *)
Definition generateTextColor (backgroundColor : string) : string :=
  let whiteContrast := getContrastRatio backgroundColor "#ffffff" in
  let blackContrast := getContrastRatio backgroundColor "#000000" in
  if geNum whiteContrast 7 then "#ffffff"%string
  else if geNum blackContrast 7 then "#000000"%string
  else if gtNum whiteContrast blackContrast then "#ffffff"%string
  else "#000000"%string.

(** ** colorUtils.ts

    [hexToRgb] and [getLuminance] of this file are the ones above, and its
    [rgbToHex] is [rgbToHex] above, which it equals on integers. *)
Module ColorUtils.

(** [getContrastRatio] on RGB objects. *)
Definition getContrastRatio (color1 color2 : Z * Z * Z) : R :=
  let '(r1, g1, b1) := color1 in
  let '(r2, g2, b2) := color2 in
  let lum1 := getLuminance r1 g1 b1 in
  let lum2 := getLuminance r2 g2 b2 in
  let brightest := Rmax lum1 lum2 in
  let darkest := Rmin lum1 lum2 in
  ((brightest + 0.05) / (darkest + 0.05))%R.

Definition isDarkColor (r g b : Z) : bool :=
  let luminance := getLuminance r g b in
  Rltb luminance 0.5.

Definition getHighContrastColor (backgroundHex : string) : string :=
  match hexToRgb backgroundHex with
  | None => "#ffffff"%string
  | Some (r, g, b) =>
      if isDarkColor r g b then "#ffffff"%string else "#000000"%string
  end.

End ColorUtils.

(** ** Vocabulary of the specification *)

(** "7-char, lowercase, '#' + 6 hex digits". *)
Definition isLowerHexDigit (c : ascii) : bool :=
  let n := nat_of_ascii c in
  ((48 <=? n) && (n <=? 57) || (97 <=? n) && (n <=? 102))%nat.

Definition wellFormedHex (s : string) : bool :=
  match s with
  | String "#"%char
      (String a (String b (String c (String d (String e (String f EmptyString)))))) =>
      forallb isLowerHexDigit [a; b; c; d; e; f]
  | _ => false
  end.

(** The rectangles a run read back from the canvas, in order. *)
Definition regionsRead (calls : list Call) : list (Z * Z * Z * Z) :=
  flat_map (fun c => match c with
                     | GetImageData sx sy sw sh => [(sx, sy, sw, sh)]
                     | _ => []
                     end) calls.

(** A colour channel. *)
Definition channel (c : Z) : Prop := (0 <= c <= 255)%Z.

Definition channels (rgb : Z * Z * Z) : Prop :=
  let '(r, g, b) := rgb in channel r /\ channel g /\ channel b.

(** What every entry of a table built by [scanPixels] satisfies. *)
Definition wellFormedEntry (c : ColorData.t) : Prop :=
  (1 <= ColorData.count c)%Z
  /\ channels (ColorData.rgb c)
  /\ ColorData.luminance c
     = (let '(r, g, b) := ColorData.rgb c in getLuminance r g b)
  /\ ColorData.saturation c
     = (let '(r, g, b) := ColorData.rgb c in calculateSaturation r g b).

(** The entries inside a luminance band, as [findOptimalColor] tests it. *)
Definition inRange (minLuminance maxLuminance : R) (c : ColorData.t) : Prop :=
  (minLuminance <= ColorData.luminance c <= maxLuminance)%R.

(** [Math.round x] is the small non-negative integer [n]; decided on the
    machine integers alone. *)
Definition roundsTo (x : float) (n : int) : bool :=
  let (f, e) := PrimFloat.frshiftexp x in
  if (bias <=? e)%uint63 then false
  else
    let k := (bias - e)%uint63 in
    if (63 <=? k)%uint63 then (n =? 0)%uint63
    else if (x <? 0)%float then false
    else (((PrimFloat.normfr_mantissa f + (1 << (k - 1))) >> k) =? n)%uint63.

(** [f] holds on [i], [i + 1], ..., [i + n - 1]. *)
Fixpoint allFrom (n : nat) (i : Z) (f : Z -> bool) : bool :=
  match n with
  | O => true
  | S k => if f i then allFrom k (i + 1)%Z f else false
  end.

(** "A centered region covering 60% of width and 80% of height" of a square
    of side [s], as [(offsetX, offsetY, width, height)]. *)
Definition centerRegion (s : Z) : Z * Z * Z * Z :=
  let w := (6 * s / 10)%Z in
  let h := (8 * s / 10)%Z in
  (((s - w) / 2)%Z, ((s - h) / 2)%Z, w, h).

(** The largest side of a canvas that the region lemmas cover; browsers cap
    a canvas dimension at 32767 or below. *)
Definition maxCanvasSide : Z := 32767.

(** The luminance field is [getLuminance] of the colour's own triple. *)
Definition consistent (c : ExtractedColor) : Prop :=
  luminance c = (let '(r, g, b) := rgb c in getLuminance r g b).

(** The hex field has the specified form, or it is the configured
    [fallbackColor] as the caller wrote it, with the triple it parses to. *)
Definition hexAsConfigured (options : ColorExtractionOptions)
  (c : ExtractedColor) : Prop :=
  wellFormedHex (hex c) = true
  \/ (fallbackColor options = Val (hex c) /\ hexToRgb (hex c) = Some (rgb c)).

(** The literal [createFallbackColor] returns for a string that is no hex
    colour. *)
Definition ultimateFallback : ExtractedColor :=
  {| hex := "#6b7280"; rgb := (107, 114, 128)%Z; luminance := 0.4%R |}.

(** A fault inside [extractDominantColor]: no 2D context, or the [try]
    block throws. *)
Definition faults (browser : Browser) (element : Element)
  (options : ColorExtractionOptions) : Prop :=
  context2d browser = false \/ snd (extractBody element options) = None.

(** A sample the black filter drops: all three colour channels below 30. *)
Definition nearBlack (p : Pixel) : Prop :=
  (Z.of_N (Byte.to_N (red p)) < 30
   /\ Z.of_N (Byte.to_N (green p)) < 30
   /\ Z.of_N (Byte.to_N (blue p)) < 30)%Z.

(** A source that is near-black everywhere, at whatever size it is drawn. *)
Definition allNearBlack (m : Media) : Prop :=
  forall dw dh x y, nearBlack (render m dw dh x y).

(** The score of section 4.4:
    [(0.4 min(count/10, 1) + 0.3 min(saturation 1.5, 1)
      + 0.3 (1 - |luminance - 0.5|)) bonus], with [bonus] 1.2 above
    luminance 0.25 and 1 otherwise. *)
Definition specScore (c : ColorData.t) : R :=
  let bonus := if Rlt_dec 0.25 (ColorData.luminance c) then 1.2%R else 1%R in
  ((0.4 * Rmin (IZR (ColorData.count c) / 10) 1
    + 0.3 * Rmin (ColorData.saturation c * 1.5) 1
    + 0.3 * (1 - Rabs (ColorData.luminance c - 0.5))) * bonus)%R.

(** [best] is an entry of the table inside the band whose score no entry
    inside the band exceeds. *)
Definition maxScoreIn (lo hi : R) (m : ColorMap) (best : ColorData.t) : Prop :=
  In best (map snd m) /\ inRange lo hi best
  /\ forall c, In c (map snd m) -> inRange lo hi c ->
               (specScore c <= specScore best)%R.

(** No entry of the table is inside the band. *)
Definition noneIn (lo hi : R) (m : ColorMap) : Prop :=
  forall c, In c (map snd m) -> ~ inRange lo hi c.

(** [best] is an entry of the table whose count no entry exceeds. *)
Definition maxCountIn (m : ColorMap) (best : ColorData.t) : Prop :=
  In best (map snd m)
  /\ forall c, In c (map snd m) ->
               (ColorData.count c <= ColorData.count best)%Z.

(** The same over machine integers. *)
Fixpoint allFromI (n : nat) (i : int) (f : int -> bool) : bool :=
  match n with
  | O => true
  | S k => if f i then allFromI k (i + 1)%uint63 f else false
  end.

(** The round trip gives the channels [r], [g], [b] back exactly. *)
Definition roundTripOk (r g b : int) : bool :=
  let '(h, s, l) :=
    rgbToHsl (PrimFloat.of_uint63 r) (PrimFloat.of_uint63 g)
             (PrimFloat.of_uint63 b) in
  let '(ru, gu, bu) := hslToUnit h s l in
  roundsTo (ru * 255)%float r
  && roundsTo (gu * 255)%float g
  && roundsTo (bu * 255)%float b.

(** ** Vocabulary of the further properties *)

(** The two characters [toHex] writes for a channel read back as that
    channel. *)
Definition toHexParses (n : Z) : bool :=
  match toHex n with
  | String a (String b EmptyString) =>
      match parseHexPair a b with
      | Some m => (m =? n)%Z
      | None => false
      end
  | _ => false
  end.

(** [toHex] writes a channel as its two base-16 digits. *)
Definition toHexDigits (n : Z) : bool :=
  String.eqb (toHex n)
    (String (hexChar (n / 16)) (String (hexChar (n mod 16)) EmptyString)).

(** The eleven values a quantized channel takes: 0, 24, ..., 240. *)
Definition buckets : list Z := map (fun k => (Z.of_nat k * 24)%Z) (seq 0 11).

Definition bucketTriples : list (Z * Z * Z) :=
  list_prod (list_prod buckets buckets) buckets.

(** The samples the loop counts: opaque enough and, under
    [ignoreBlackBackground], not near black. *)
Definition counted (data : list Byte.byte) (ignoreBlackBackground : bool)
  (i : nat) : bool :=
  negb (byteAt data (i + 3) <? 128)%Z
  && negb (ignoreBlackBackground && (byteAt data i <? 30)%Z
           && (byteAt data (i + 1) <? 30)%Z && (byteAt data (i + 2) <? 30)%Z).

(** The sum of the counts of a table. *)
Definition totalCount (colorMap : ColorMap) : Z :=
  fold_right (fun e acc => (ColorData.count (snd e) + acc)%Z) 0%Z colorMap.

(** Keys are unique, each is the key of its entry's colour, and that colour
    is a triple of buckets. *)
Definition keyed (colorMap : ColorMap) : Prop :=
  NoDup (map fst colorMap)
  /\ Forall (fun e : string * ColorData.t =>
               let '(r, g, b) := ColorData.rgb (snd e) in
               fst e = colorKey r g b /\ In (r, g, b) bucketTriples)
            colorMap.

(** The rectangles of the sampling policy on a square canvas of side [s],
    as [(x, y, width, height)], in integer arithmetic. *)
Definition lowerThird (s : Z) : Z * Z * Z * Z :=
  (0, 67 * s / 100, s, s - 67 * s / 100)%Z.

Definition leftHalf (s : Z) : Z * Z * Z * Z :=
  (0, 67 * s / 100, s / 2, s - 67 * s / 100)%Z.

Definition rightHalf (s : Z) : Z * Z * Z * Z :=
  (s / 2, 67 * s / 100, s / 2, s - 67 * s / 100)%Z.

Definition wholeCanvas (s : Z) : Z * Z * Z * Z := (0, 0, s, s)%Z.

(** A video taller than wide, with [analyzePortraitVideo] on. *)
Definition portrait (element : Element) (options : ColorExtractionOptions)
  : bool :=
  match element with
  | HTMLVideoElement v =>
      orDefault (analyzePortraitVideo options) true
      && (N2F (videoWidth v) / N2F (videoHeight v) <? 1)%float
  | _ => false
  end.

(** An image more than 2.5 times as wide as high, with [handleSplitView]
    on. *)
Definition splitView (element : Element) (options : ColorExtractionOptions)
  : bool :=
  match element with
  | HTMLImageElement img =>
      orDefault (handleSplitView options) true
      && (2.5 <? N2F (naturalWidth img) / N2F (naturalHeight img))%float
  | _ => false
  end.

(** The rectangles the policy asks for, in the order they are read. *)
Definition regionPolicy (element : Element) (options : ColorExtractionOptions)
  : list (Z * Z * Z * Z) :=
  let s := Z.of_N (orDefault (sampleSize options) 50%N) in
  if portrait element options && orDefault (ignoreBlackBackground options) true
  then [centerRegion s]
  else if splitView element options then [leftHalf s; rightHalf s]
  else if orDefault (sampleLowerThird options) true then [lowerThird s]
  else [wholeCanvas s].

(** An image element that has finished loading; other elements need not. *)
Definition loaded (element : Element) : bool :=
  match element with
  | HTMLImageElement img => complete img && negb (naturalHeight img =? 0)%N
  | _ => true
  end.

(** A rectangle that lies inside a square canvas of side [s]. *)
Definition insideCanvas (s : Z) (region : Z * Z * Z * Z) : Prop :=
  let '(x, y, w, h) := region in
  (0 <= x /\ 0 <= y /\ 0 <= w /\ 0 <= h /\ x + w <= s /\ y + h <= s)%Z.

(** The [drawImage] calls of a run. *)
Definition draws (calls : list Call) : list (N * N) :=
  flat_map (fun c => match c with
                     | DrawImage dw dh => [(dw, dh)]
                     | _ => []
                     end) calls.

(** [getImageData] throws on this rectangle of a canvas the source was drawn
    on: the rectangle is empty or the canvas cannot be read back. *)
Definition readThrows (m : Media) (region : Z * Z * Z * Z) : bool :=
  let '(_, _, w, h) := region in
  (w =? 0)%Z || (h =? 0)%Z || negb (originClean m).

(** The rectangles of a list that are asked for: all of them up to and
    including the first on which [getImageData] throws. *)
Fixpoint attempted (m : Media) (regions : list (Z * Z * Z * Z))
  : list (Z * Z * Z * Z) :=
  match regions with
  | [] => []
  | region :: rest =>
      if readThrows m region then [region] else region :: attempted m rest
  end.

(** The calls of a run of [extractDominantColor], as the policy has them:
    nothing without a 2D context; only the warning for an image that has not
    loaded; one [drawImage], then the warning if it throws; else the
    rectangles of the policy up to and including the first that throws, and
    the warning if one does. *)
Definition policyCalls (browser : Browser) (element : Element)
  (options : ColorExtractionOptions) : list Call :=
  let s := orDefault (sampleSize options) 50%N in
  let m := mediaOf element in
  let policy := regionPolicy element options in
  if negb (context2d browser) then []
  else if negb (loaded element) then [ConsoleWarn]
  else if negb (drawable m) then [DrawImage s s; ConsoleWarn]
  else
    DrawImage s s
    :: map (fun '(x, y, w, h) => GetImageData x y w h) (attempted m policy)
    ++ (if existsb (readThrows m) policy then [ConsoleWarn] else []).

(** The three fields of a result describe one colour: the hex string parses
    to the triple, the triple is made of channels, and the luminance field is
    a luminance; it is the luminance of the triple, except on the literal of
    the last resort. *)
Definition coherent (c : ExtractedColor) : Prop :=
  hexToRgb (hex c) = Some (rgb c)
  /\ channels (rgb c)
  /\ (0 <= luminance c <= 1)%R
  /\ (consistent c \/ c = ultimateFallback).

(** The entries the earlier revision prefers: luminance strictly between
    0.1 and 0.8. *)
Definition legacyBand (c : Legacy.Entry.t) : Prop :=
  let '(r, g, b) := Legacy.Entry.rgb c in
  (0.1 < getLuminance r g b < 0.8)%R.

(** ** Sources used in examples *)

(** [{ useFallbackOnly: true }] with the given [fallbackColor]. *)
Definition fallbackOnlyWith (color : prop string) : ColorExtractionOptions :=
  withUseFallbackOnly (Val true) (withFallbackColor color noOptions).

(** The table entry for the dark green (0, 168, 0), seen [n] times. *)
Definition darkGreen (n : Z) : ColorData.t :=
  ColorData.mk n (0, 168, 0)%Z (getLuminance 0 168 0) (calculateSaturation 0 168 0).

(** The table of a scan that saw black once. *)
Definition blackOnce : ColorMap :=
  [("0,0,0"%string,
    ColorData.mk 1 (0, 0, 0)%Z (getLuminance 0 0 0) (calculateSaturation 0 0 0))].

Definition solid (r g b : Byte.byte) : Pixel :=
  {| red := r; green := g; blue := b; alpha := Byte.xff |}.

(** A source that renders as one colour at every size. *)
Definition uniformMedia (p : Pixel) : Media :=
  {| drawable := true; originClean := true; render := fun _ _ _ _ => p |}.

(** The same picture, on a canvas that cannot be read back. *)
Definition taintedMedia (p : Pixel) : Media :=
  {| drawable := true; originClean := false; render := fun _ _ _ _ => p |}.

Definition plainBrowser : Browser :=
  {| context2d := true; loadImage := fun _ => None |}.

(** A 1080 x 1920 clip with current data, dark green all over. *)
Definition portraitVideo : Video :=
  {| videoWidth := 1080; videoHeight := 1920; readyState := 4;
     videoMedia := uniformMedia (solid Byte.x00 Byte.xa8 Byte.x00) |}.

(** The same clip served cross-origin without CORS approval. *)
Definition taintedVideo : Video :=
  {| videoWidth := 1080; videoHeight := 1920; readyState := 4;
     videoMedia := taintedMedia (solid Byte.x00 Byte.xa8 Byte.x00) |}.

(** A loaded 3000 x 1000 panorama, dark green all over. *)
Definition panorama : Image :=
  {| complete := true; naturalWidth := 3000; naturalHeight := 1000;
     imageMedia := uniformMedia (solid Byte.x00 Byte.xa8 Byte.x00) |}.

(** A loaded square image served cross-origin without CORS approval. *)
Definition taintedImage : Image :=
  {| complete := true; naturalWidth := 1000; naturalHeight := 1000;
     imageMedia := taintedMedia (solid Byte.x00 Byte.xa8 Byte.x00) |}.

(** A page where one URL loads [taintedImage] and every other URL fails. *)
Definition galleryBrowser : Browser :=
  {| context2d := true;
     loadImage := fun src => if String.eqb src "tainted.jpg"
                             then Some taintedImage else None |}.

(** The table entry for the pale gray (240, 240, 240), the bucket of white,
    seen [n] times. *)
Definition paleGray (n : Z) : ColorData.t :=
  ColorData.mk n (240, 240, 240)%Z (getLuminance 240 240 240)
               (calculateSaturation 240 240 240).

(** A loaded 3000 x 1000 panorama, white all over. *)
Definition whitePanorama : Image :=
  {| complete := true; naturalWidth := 3000; naturalHeight := 1000;
     imageMedia := uniformMedia (solid Byte.xff Byte.xff Byte.xff) |}.

(** A clip that has metadata but no frame yet. *)
Definition loadingVideo : Video :=
  {| videoWidth := 1920; videoHeight := 1080; readyState := 1;
     videoMedia := uniformMedia (solid Byte.x00 Byte.xa8 Byte.x00) |}.

(* ================================================================ *)
(** * Properties *)

(** ** Hex strings *)

Example hexToRgb_336699 : hexToRgb "#336699" = Some (51, 102, 153)%Z.
Proof. reflexivity. Qed.

Example hexToRgb_upper_nohash : hexToRgb "ABCDEF" = Some (171, 205, 239)%Z.
Proof. reflexivity. Qed.

Example hexToRgb_named : hexToRgb "red" = None.
Proof. reflexivity. Qed.

Example rgbToHex_gray : rgbToHex 107 114 128 = "#6b7280"%string.
Proof. reflexivity. Qed.

Example rgbToHex_pad : rgbToHex 0 10 255 = "#000aff"%string.
Proof. reflexivity. Qed.

(** ** Binary64 helpers *)

Example Math_round_ties :
  map Math_round [0.5; 1.5; 2.5; -0.5; -1.5; -2.5; 0.49999999999999994; 254.5]%float
  = [1; 2; 3; 0; -1; -2; 0; 255]%Z.
Proof. vm_compute. reflexivity. Qed.

Example Math_floor_values :
  map Math_floor [0; 0.9999999999999999; 29.999999999999996; 30; -0.5; -3; 33.5]%float
  = [0; 0; 29; 30; -1; -3; 33]%Z.
Proof. vm_compute. reflexivity. Qed.

Example boost_dark_green : boostColorBrightness 0 168 0 0.4 = (0, 204, 0)%Z.
Proof. vm_compute. reflexivity. Qed.

(** ** Ranges *)

Lemma allFrom_spec (n : nat) (i : Z) (f : Z -> bool) :
  allFrom n i f = true ->
  forall z, (i <= z < i + Z.of_nat n)%Z -> f z = true.
Proof.
  revert i; induction n as [|n IH]; intros i H z Hz.
  - simpl in Hz; lia.
  - simpl in H. destruct (f i) eqn:Hi; [|discriminate].
    destruct (Z.eq_dec z i) as [->|Hne]; [exact Hi|].
    apply (IH (i + 1)%Z H). lia.
Qed.

Lemma allFrom_below (n : Z) (f : Z -> bool) :
  allFrom (Z.to_nat n) 0 f = true ->
  forall z, (0 <= z < n)%Z -> f z = true.
Proof.
  intros H z Hz. apply (@allFrom_spec _ _ _ H). rewrite Z2Nat.id; lia.
Qed.

Lemma byteAt_channel (data : list Byte.byte) (i : nat) : channel (byteAt data i).
Proof.
  unfold channel, byteAt.
  pose proof (Byte.to_N_bounded (nth i data Byte.x00)). lia.
Qed.

(** On a channel the binary64 quotient floors to the integer quotient. *)
Lemma quantize_channel (c : Z) : channel c -> quantize c = (c / 24 * 24)%Z.
Proof.
  intros Hc.
  assert (H : allFrom 256 0 (fun z => (quantize z =? z / 24 * 24)%Z) = true)
    by (vm_compute; reflexivity).
  apply Z.eqb_eq. apply (@allFrom_spec _ _ _ H). unfold channel in Hc. simpl. lia.
Qed.

Lemma quantize_is_channel (c : Z) : channel c -> channel (quantize c).
Proof.
  intros Hc. rewrite (quantize_channel _ Hc). unfold channel in *.
  pose proof (Z.mul_div_le c 24 ltac:(lia)).
  assert (0 <= c / 24)%Z by (apply Z.div_pos; lia). lia.
Qed.

(** ** Hex output *)

Lemma toHex_channel (n : Z) :
  channel n ->
  exists a b, toHex n = String a (String b EmptyString)
              /\ isLowerHexDigit a = true /\ isLowerHexDigit b = true.
Proof.
  intros Hn.
  pose (ok := fun z => match toHex z with
                       | String a (String b EmptyString) =>
                           isLowerHexDigit a && isLowerHexDigit b
                       | _ => false
                       end).
  assert (H : allFrom 256 0 ok = true) by (vm_compute; reflexivity).
  assert (Hz : ok n = true).
  { apply (@allFrom_spec _ _ _ H). unfold channel in Hn. simpl. lia. }
  unfold ok in Hz.
  destruct (toHex n) as [|a [|b [|c rest]]]; try discriminate.
  apply andb_true_iff in Hz. exists a, b. tauto.
Qed.

Lemma rgbToHex_wellFormed (r g b : Z) :
  channel r -> channel g -> channel b -> wellFormedHex (rgbToHex r g b) = true.
Proof.
  intros Hr Hg Hb. unfold rgbToHex.
  destruct (toHex_channel _ Hr) as (r1 & r2 & -> & Hr1 & Hr2).
  destruct (toHex_channel _ Hg) as (g1 & g2 & -> & Hg1 & Hg2).
  destruct (toHex_channel _ Hb) as (b1 & b2 & -> & Hb1 & Hb2).
  simpl. now rewrite Hr1, Hr2, Hg1, Hg2, Hb1, Hb2.
Qed.

(** ** Luminance, saturation and score of a well-formed entry *)

Lemma Rltb_true (a b : R) : Rltb a b = true <-> (a < b)%R.
Proof. unfold Rltb; destruct (Rlt_dec a b); split; intros; easy. Qed.

Lemma Rltb_false (a b : R) : Rltb a b = false <-> (b <= a)%R.
Proof.
  unfold Rltb; destruct (Rlt_dec a b); split; intros; try easy; lra.
Qed.

Lemma outsideRange_false (lo hi : R) (c : ColorData.t) :
  outsideRange lo hi c = false <-> inRange lo hi c.
Proof.
  unfold outsideRange, inRange. rewrite orb_false_iff, !Rltb_false. tauto.
Qed.

Lemma Rpower_le_1 (x y : R) : (0 < x <= 1)%R -> (0 <= y)%R -> (Rpower x y <= 1)%R.
Proof.
  intros Hx Hy.
  apply Rle_trans with (Rpower 1 y).
  - apply Rle_Rpower_l; lra.
  - right. unfold Rpower. rewrite ln_1, Rmult_0_r. apply exp_0.
Qed.

Lemma linearize_bounds (c : R) : (0 <= c <= 1)%R -> (0 <= linearize c <= 1)%R.
Proof.
  intros Hc. unfold linearize. destruct (Rle_dec c 0.03928) as [Hs|Hs].
  - lra.
  - split.
    + left. apply exp_pos.
    + apply Rpower_le_1; lra.
Qed.

Lemma channel_unit (c : Z) : channel c -> (0 <= IZR c / 255 <= 1)%R.
Proof.
  intros [H0 H1]. apply IZR_le in H0, H1. lra.
Qed.

Lemma getLuminance_bounds (r g b : Z) :
  channel r -> channel g -> channel b -> (0 <= getLuminance r g b <= 1)%R.
Proof.
  intros Hr Hg Hb. unfold getLuminance.
  pose proof (linearize_bounds _ (channel_unit _ Hr)).
  pose proof (linearize_bounds _ (channel_unit _ Hg)).
  pose proof (linearize_bounds _ (channel_unit _ Hb)).
  lra.
Qed.

Lemma calculateSaturation_nonneg (r g b : Z) :
  channel r -> channel g -> channel b -> (0 <= calculateSaturation r g b)%R.
Proof.
  intros [Hr _] [Hg _] [Hb _]. unfold calculateSaturation.
  set (hi := Z.max (Z.max r g) b). set (lo := Z.min (Z.min r g) b).
  assert (Hlo : (lo <= hi)%Z) by (unfold lo, hi; lia).
  assert (Hhi : (0 <= hi)%Z) by (unfold hi; lia).
  apply IZR_le in Hlo, Hhi.
  destruct (Req_dec_T (IZR hi / 255) 0) as [|Hne]; [lra|].
  apply Rmult_le_pos; [lra|].
  left. apply Rinv_0_lt_compat. lra.
Qed.

Lemma totalScore_pos (c : ColorData.t) : wellFormedEntry c -> (0 < totalScore c)%R.
Proof.
  intros (Hcount & Hch & Hlum & Hsat).
  destruct c as [n [[r g] b] lum sat]; simpl in *.
  destruct Hch as (Hr & Hg & Hb).
  pose proof (getLuminance_bounds _ _ _ Hr Hg Hb) as HL.
  pose proof (calculateSaturation_nonneg _ _ _ Hr Hg Hb) as HS.
  rewrite <- Hlum in HL. rewrite <- Hsat in HS.
  apply IZR_le in Hcount.
  unfold totalScore; simpl.
  apply Rmult_lt_0_compat.
  - assert (0 < Rmin (IZR n / 10) 1)%R by (apply Rmin_glb_lt; lra).
    assert (0 <= Rmin (sat * 1.5) 1)%R by (apply Rmin_glb; lra).
    assert (Rabs (lum - 0.5) <= 0.5)%R by (apply Rabs_le; lra).
    lra.
  - destruct (Rltb 0.25 lum); lra.
Qed.

(** ** The selection loops *)

Lemma fold_left_snoc {A B} (f : A -> B -> A) (l : list B) (x : B) (a : A) :
  fold_left f (l ++ [x]) a = f (fold_left f l a) x.
Proof. now rewrite fold_left_app. Qed.

(** What [findOptimalColor] holds after any prefix of the table. *)
Lemma findOptimalColor_prefix (lo hi : R) (l : ColorMap) :
  let step := fun (best : option ColorData.t * R) (entry : string * ColorData.t) =>
                let (bestColor, bestScore) := best in
                let colorData := snd entry in
                if outsideRange lo hi colorData then best
                else
                  let totalScore := totalScore colorData in
                  if Rltb bestScore totalScore then (Some colorData, totalScore)
                  else best in
  let st := fold_left step l (None, 0%R) in
  (forall c, In c (map snd l) -> inRange lo hi c -> (totalScore c <= snd st)%R)
  /\ match fst st with
     | None => snd st = 0%R
     | Some c => In c (map snd l) /\ inRange lo hi c
                 /\ totalScore c = snd st /\ (0 < snd st)%R
     end.
Proof.
  intros step. induction l as [|e l IH] using rev_ind; simpl.
  - split; [intros c []|reflexivity].
  - rewrite fold_left_snoc.
    destruct (fold_left step l (None, 0%R)) as [best bs] eqn:Hst.
    simpl in IH. destruct IH as [Hmax Hbest].
    unfold step at 1. simpl.
    destruct (outsideRange lo hi (snd e)) eqn:Hout.
    + simpl. split.
      * intros c Hc Hin. rewrite map_app in Hc. apply in_app_or in Hc.
        destruct Hc as [Hc|[<-|[]]]; [now apply Hmax|].
        apply outsideRange_false in Hin. congruence.
      * destruct best; [|assumption].
        rewrite map_app. destruct Hbest as (H1 & H2). split; [|assumption].
        apply in_or_app; now left.
    + apply outsideRange_false in Hout.
      destruct (Rltb bs (totalScore (snd e))) eqn:Hlt; simpl.
      * apply Rltb_true in Hlt. split.
        -- intros c Hc Hin. rewrite map_app in Hc. apply in_app_or in Hc.
           destruct Hc as [Hc|[<-|[]]]; [|lra].
           specialize (Hmax c Hc Hin). lra.
        -- rewrite map_app.
           split; [apply in_or_app; right; now left|].
           split; [exact Hout|]. split; [reflexivity|].
           destruct best as [c|]; [destruct Hbest as (_ & _ & _ & ?)|]; lra.
      * apply Rltb_false in Hlt. split.
        -- intros c Hc Hin. rewrite map_app in Hc. apply in_app_or in Hc.
           destruct Hc as [Hc|[<-|[]]]; [now apply Hmax|exact Hlt].
        -- destruct best; [|assumption].
           rewrite map_app. destruct Hbest as (H1 & H2). split; [|assumption].
           apply in_or_app; now left.
Qed.

Lemma findOptimalColor_Some (m : ColorMap) (lo hi : R) (boost : bool)
  (best : ColorData.t) :
  findOptimalColor m lo hi boost = Some best ->
  In best (map snd m) /\ inRange lo hi best
  /\ forall c, In c (map snd m) -> inRange lo hi c ->
               (totalScore c <= totalScore best)%R.
Proof.
  unfold findOptimalColor. intros H.
  pose proof (findOptimalColor_prefix lo hi m) as [Hmax Hbest].
  simpl in Hmax, Hbest. rewrite H in Hbest.
  destruct Hbest as (Hin & Hr & Hs & _).
  repeat split; try assumption; try apply Hr.
  intros c Hc Hcr. rewrite Hs. now apply Hmax.
Qed.

Lemma findOptimalColor_None (m : ColorMap) (lo hi : R) (boost : bool) :
  Forall (fun e => wellFormedEntry (snd e)) m ->
  findOptimalColor m lo hi boost = None ->
  forall c, In c (map snd m) -> ~ inRange lo hi c.
Proof.
  unfold findOptimalColor. intros Hwf H c Hc Hr.
  pose proof (findOptimalColor_prefix lo hi m) as [Hmax Hbest].
  simpl in Hmax, Hbest. rewrite H in Hbest.
  specialize (Hmax c Hc Hr). rewrite Hbest in Hmax.
  apply in_map_iff in Hc. destruct Hc as (e & <- & He).
  rewrite Forall_forall in Hwf. pose proof (totalScore_pos _ (Hwf e He)). lra.
Qed.

(** What the most-frequent loop holds after any prefix of the table. *)
Lemma mostFrequent_prefix (l : ColorMap) :
  let step := fun (best : option ColorData.t * Z) (entry : string * ColorData.t) =>
                let (bestColor, maxCount) := best in
                let colorData := snd entry in
                if (maxCount <? ColorData.count colorData)%Z
                then (Some colorData, ColorData.count colorData)
                else best in
  let st := fold_left step l (None, 0%Z) in
  (forall c, In c (map snd l) -> (ColorData.count c <= snd st)%Z)
  /\ match fst st with
     | None => snd st = 0%Z
     | Some c => In c (map snd l) /\ ColorData.count c = snd st
     end.
Proof.
  intros step. induction l as [|e l IH] using rev_ind; simpl.
  - split; [intros c []|reflexivity].
  - rewrite fold_left_snoc.
    destruct (fold_left step l (None, 0%Z)) as [best n] eqn:Hst.
    simpl in IH. destruct IH as [Hmax Hbest].
    unfold step at 1. simpl. rewrite map_app.
    destruct (n <? ColorData.count (snd e))%Z eqn:Hlt; simpl.
    + apply Z.ltb_lt in Hlt. split.
      * intros c Hc. apply in_app_or in Hc.
        destruct Hc as [Hc|[<-|[]]]; [|lia]. specialize (Hmax c Hc). lia.
      * split; [|reflexivity]. apply in_or_app; right; now left.
    + apply Z.ltb_ge in Hlt. split.
      * intros c Hc. apply in_app_or in Hc.
        destruct Hc as [Hc|[<-|[]]]; [now apply Hmax|exact Hlt].
      * destruct best; [|assumption]. destruct Hbest as (H1 & H2).
        split; [|assumption]. apply in_or_app; now left.
Qed.

Lemma mostFrequent_Some (m : ColorMap) :
  m <> [] -> Forall (fun e => wellFormedEntry (snd e)) m ->
  exists best, mostFrequent m = Some best /\ In best (map snd m)
               /\ forall c, In c (map snd m) ->
                            (ColorData.count c <= ColorData.count best)%Z.
Proof.
  intros Hne Hwf. unfold mostFrequent.
  pose proof (mostFrequent_prefix m) as [Hmax Hbest]. simpl in Hmax, Hbest.
  destruct (fst (fold_left _ m (None, 0%Z))) as [best|] eqn:Hf.
  - destruct Hbest as (Hin & Hc). exists best. repeat split; try assumption.
    intros c Hcin. rewrite Hc. now apply Hmax.
  - exfalso. destruct m as [|e m]; [congruence|].
    specialize (Hmax (snd e) (or_introl eq_refl)). rewrite Hbest in Hmax.
    apply Forall_inv in Hwf. destruct Hwf as (Hcount & _). lia.
Qed.

Lemma totalScore_specScore (c : ColorData.t) : totalScore c = specScore c.
Proof.
  unfold totalScore, specScore, Rltb.
  destruct (Rlt_dec 0.25 (ColorData.luminance c)); ring.
Qed.

Lemma findOptimalColor_maxScoreIn (m : ColorMap) (lo hi : R) (boost : bool)
  (best : ColorData.t) :
  findOptimalColor m lo hi boost = Some best -> maxScoreIn lo hi m best.
Proof.
  intros H. destruct (@findOptimalColor_Some _ _ _ _ _ H) as (Hin & Hr & Hmax).
  repeat split; try assumption; try apply Hr.
  intros c Hc Hcr. rewrite <- !totalScore_specScore. now apply Hmax.
Qed.

(** The three tiers on the single-region path.  On a non-empty frequency
    table the selection of [extractDominantColor] always finds an entry: the
    entry of highest score among those with [minLuminance <= luminance <=
    maxLuminance]; if there is none in that band, the entry of highest score
    among those with luminance in [0.1, 0.9]; if there is none there either,
    the entry of highest count.  The score is the formula of section 4.4. *)
Theorem selectBestColor_three_tiers (colorMap : ColorMap)
  (minLuminance maxLuminance : R) (enableContrastBoost : bool) :
  colorMap <> [] ->
  Forall (fun e => wellFormedEntry (snd e)) colorMap ->
  exists best,
    selectBestColor colorMap minLuminance maxLuminance enableContrastBoost
    = Some best
    /\ (maxScoreIn minLuminance maxLuminance colorMap best
        \/ (noneIn minLuminance maxLuminance colorMap
            /\ maxScoreIn 0.1 0.9 colorMap best)
        \/ (noneIn minLuminance maxLuminance colorMap
            /\ noneIn 0.1 0.9 colorMap
            /\ maxCountIn colorMap best)).
Proof.
  intros Hne Hwf. unfold selectBestColor.
  destruct (findOptimalColor colorMap minLuminance maxLuminance _)
    as [best|] eqn:H1.
  - exists best. split; [reflexivity|]. left.
    now apply findOptimalColor_maxScoreIn with enableContrastBoost.
  - pose proof (@findOptimalColor_None _ _ _ _ Hwf H1) as N1.
    destruct (findOptimalColor colorMap 0.1 0.9 _) as [best|] eqn:H2.
    + exists best. split; [reflexivity|]. right; left. split; [exact N1|].
      now apply findOptimalColor_maxScoreIn with enableContrastBoost.
    + pose proof (@findOptimalColor_None _ _ _ _ Hwf H2) as N2.
      destruct (mostFrequent_Some _ Hne Hwf) as (best & -> & Hin & Hmax).
      exists best. split; [reflexivity|]. right; right.
      repeat split; assumption.
Qed.

(** The same on the table with the single entry black, seen once. *)
Lemma selectBestColor_three_tiers_witness :
  blackOnce <> []
  /\ Forall (fun e => wellFormedEntry (snd e)) blackOnce
  /\ exists best,
       selectBestColor blackOnce 0.2 0.85 true = Some best
       /\ (maxScoreIn 0.2 0.85 blackOnce best
           \/ (noneIn 0.2 0.85 blackOnce /\ maxScoreIn 0.1 0.9 blackOnce best)
           \/ (noneIn 0.2 0.85 blackOnce /\ noneIn 0.1 0.9 blackOnce
               /\ maxCountIn blackOnce best)).
Proof.
  assert (Hne : blackOnce <> []) by discriminate.
  assert (Hwf : Forall (fun e => wellFormedEntry (snd e)) blackOnce).
  { repeat constructor; unfold channel; simpl; lia. }
  split; [exact Hne|]. split; [exact Hwf|].
  exact (selectBestColor_three_tiers blackOnce 0.2 0.85 true Hne Hwf).
Defined.

(** ** The frequency table *)

Lemma fold_left_invariant {A B} (P : A -> Prop) (f : A -> B -> A)
  (l : list B) (a : A) :
  P a -> (forall acc x, P acc -> P (f acc x)) -> P (fold_left f l a).
Proof.
  intros Ha Hstep. revert a Ha.
  induction l as [|x l IH]; intros a Ha; simpl; auto.
Qed.

Lemma incrementCount_wellFormed (m : ColorMap) (key : string) :
  Forall (fun e => wellFormedEntry (snd e)) m ->
  Forall (fun e => wellFormedEntry (snd e)) (incrementCount m key).
Proof.
  intros H. unfold incrementCount. apply Forall_map.
  eapply Forall_impl; [|exact H].
  intros [k c] Hc; simpl in *. destruct (String.eqb k key); [|exact Hc].
  destruct Hc as (H1 & H2 & H3 & H4). repeat split; simpl; try assumption; try apply H2. lia.
Qed.

Lemma scanStep_wellFormed (data : list Byte.byte) (ignoreBlack : bool)
  (m : ColorMap) (i : nat) :
  Forall (fun e => wellFormedEntry (snd e)) m ->
  Forall (fun e => wellFormedEntry (snd e)) (scanStep data ignoreBlack m i).
Proof.
  intros H. unfold scanStep.
  destruct (_ <? 128)%Z; [exact H|].
  destruct (_ && _ && _ && _); [exact H|].
  destruct (has m _).
  - now apply incrementCount_wellFormed.
  - unfold set. apply Forall_app. split; [exact H|].
    constructor; [|constructor].
    repeat split; simpl; try lia;
      apply quantize_is_channel, byteAt_channel.
Qed.

Lemma scanPixels_wellFormed (data : list Byte.byte) (ignoreBlack : bool) :
  Forall (fun e => wellFormedEntry (snd e)) (scanPixels data ignoreBlack).
Proof.
  unfold scanPixels. apply fold_left_invariant; [constructor|].
  intros acc i. apply scanStep_wellFormed.
Qed.

(** ** What a run of [extractDominantColor] can return *)

Ltac split_ifs :=
  repeat match goal with
         | |- context [if ?b then _ else _] => destruct b eqn:?; simpl
         end.

(** Every result is the fallback colour, the colour of one rectangle of the
    canvas, or the better half of a split view. *)
Lemma extractDominantColor_cases (browser : Browser) (element : Element)
  (options : ColorExtractionOptions) :
  let s := orDefault (sampleSize options) 50%N in
  let fb := orDefault (fallbackColor options) "#4a5568"%string in
  let ib := orDefault (ignoreBlackBackground options) true in
  let boost := orDefault (enableContrastBoost options) true in
  let lo := orDefault (minLuminance options) 0.2%R in
  let hi := orDefault (maxLuminance options) 0.85%R in
  let ctx := drawn (mediaOf element) s s in
  let c := snd (extractDominantColor browser element options) in
  c = createFallbackColor fb
  \/ (exists sx sy sw sh,
        c = dominantOf (rectBytes ctx sx sy sw sh) ib lo hi boost fb)
  \/ (exists lx ly lw lh rx ry rw rh,
        c = chooseHalf
              (findOptimalColor (scanPixels (rectBytes ctx lx ly lw lh) ib) lo hi boost)
              (findOptimalColor (scanPixels (rectBytes ctx rx ry rw rh) ib) lo hi boost)
              fb).
Proof.
  intros s fb ib boost lo hi ctx c. subst c.
  unfold extractDominantColor.
  destruct (negb (context2d browser)); [now left|].
  destruct (extractBody element options) as [calls [color|]] eqn:Hbody;
    [|now left]. simpl.
  revert Hbody. unfold extractBody, extractFromSplitView, analyzeImageData.
  fold s fb ib boost lo hi.
  unfold drawImage, getImageData, bind, ret, throw.
  destruct element as [v|img|m]; simpl; fold ctx; split_ifs;
    intros Heq; inversion Heq; subst; clear Heq;
    try (now left);
    try (right; left; do 4 eexists; reflexivity);
    try (right; right; do 8 eexists; reflexivity).
Qed.

(** ** Near-black input *)

Lemma nearBlack_transparentBlack : nearBlack transparentBlack.
Proof. unfold nearBlack; simpl; lia. Qed.

(** Byte [4 j + o] of the data is channel [o] of pixel [j]. *)
Lemma nth_pixelBytes (ps : list Pixel) (j o : nat) :
  (o < 4)%nat ->
  nth (4 * j + o) (flat_map pixelBytes ps) Byte.x00
  = nth o (pixelBytes (nth j ps transparentBlack)) Byte.x00.
Proof.
  intros Ho. revert j. induction ps as [|p ps IH]; intros j.
  - destruct j; simpl; destruct o as [|[|[|[|o]]]]; try reflexivity; lia.
  - destruct j as [|j].
    + destruct o as [|[|[|[|o]]]]; try reflexivity; lia.
    + replace (4 * S j + o)%nat with (4 + (4 * j + o))%nat by lia.
      simpl flat_map. simpl nth at 1. apply IH.
Qed.

Lemma nth_nearBlack (ps : list Pixel) (j : nat) :
  Forall nearBlack ps -> nearBlack (nth j ps transparentBlack).
Proof.
  intros H. destruct (Nat.lt_ge_cases j (List.length ps)) as [Hlt|Hge].
  - rewrite Forall_forall in H. apply H. now apply nth_In.
  - rewrite nth_overflow by exact Hge. apply nearBlack_transparentBlack.
Qed.

(** With the black filter on, a near-black sample leaves the table as it
    is. *)
Lemma scanStep_nearBlack (ps : list Pixel) (m : ColorMap) (j : nat) :
  Forall nearBlack ps ->
  scanStep (flat_map pixelBytes ps) true m (4 * j) = m.
Proof.
  intros H. unfold scanStep, byteAt.
  pose proof (@nth_pixelBytes ps j 0 ltac:(lia)) as E0.
  pose proof (@nth_pixelBytes ps j 1 ltac:(lia)) as E1.
  pose proof (@nth_pixelBytes ps j 2 ltac:(lia)) as E2.
  rewrite Nat.add_0_r in E0. rewrite E0, E1, E2.
  destruct (nth_nearBlack ps j H) as (Hr & Hg & Hb).
  cbn [nth pixelBytes].
  destruct (_ <? 128)%Z; [reflexivity|].
  apply Z.ltb_lt in Hr, Hg, Hb. now rewrite Hr, Hg, Hb.
Qed.

Lemma scanPixels_nearBlack (ps : list Pixel) :
  Forall nearBlack ps -> scanPixels (flat_map pixelBytes ps) true = [].
Proof.
  intros H. unfold scanPixels, loopIndices.
  induction (seq 0 _) as [|k ks IH]; [reflexivity|].
  simpl map. simpl fold_left.
  replace (k + (k + (k + (k + (k + (k + (k + (k + (k + (k + (k + (k + (k + (k + (k + (k + 0))))))))))))))))%nat
    with (4 * (4 * k))%nat by lia.
  rewrite scanStep_nearBlack by exact H. exact IH.
Qed.

Lemma rectPixels_nearBlack (m : Media) (dw dh : N) (sx sy sw sh : Z) :
  allNearBlack m -> Forall nearBlack (rectPixels (drawn m dw dh) sx sy sw sh).
Proof.
  intros H. unfold rectPixels. apply Forall_flat_map.
  apply Forall_forall. intros j _. apply Forall_map.
  apply Forall_forall. intros i _. unfold pixelIn.
  destruct (_ && _ && _ && _); [apply H|apply nearBlack_transparentBlack].
Qed.

Lemma rectBytes_nearBlack (m : Media) (dw dh : N) (sx sy sw sh : Z) :
  allNearBlack m -> scanPixels (rectBytes (drawn m dw dh) sx sy sw sh) true = [].
Proof.
  intros H. apply scanPixels_nearBlack. now apply rectPixels_nearBlack.
Qed.

(** C9.  When every sample of the source has its three colour channels below
    30 and [ignoreBlackBackground] is on, every table the run builds is
    empty, the three selection steps find nothing in an empty table, and
    [extractDominantColor] returns the fallback colour. *)
Theorem extractDominantColor_nearBlack (browser : Browser) (element : Element)
  (options : ColorExtractionOptions) :
  orDefault (ignoreBlackBackground options) true = true ->
  allNearBlack (mediaOf element) ->
  (forall dw dh sx sy sw sh,
      scanPixels (rectBytes (drawn (mediaOf element) dw dh) sx sy sw sh) true = [])
  /\ (forall lo hi boost,
         findOptimalColor [] lo hi boost = None
         /\ mostFrequent [] = None
         /\ selectBestColor [] lo hi boost = None)
  /\ snd (extractDominantColor browser element options)
     = createFallbackColor (orDefault (fallbackColor options) "#4a5568"%string).
Proof.
  intros Hib Hblack. split; [|split].
  - intros. now apply rectBytes_nearBlack.
  - intros. repeat split.
  - destruct (extractDominantColor_cases browser element options)
      as [H|[(sx & sy & sw & sh & H)|(lx & ly & lw & lh & rx & ry & rw & rh & H)]];
      rewrite H; clear H; rewrite ?Hib.
    + reflexivity.
    + unfold dominantOf. now rewrite rectBytes_nearBlack.
    + now rewrite !rectBytes_nearBlack.
Qed.

(** C9, on a black, opaque canvas element with the default options. *)
Lemma extractDominantColor_nearBlack_witness :
  orDefault (ignoreBlackBackground noOptions) true = true
  /\ allNearBlack (uniformMedia (solid Byte.x00 Byte.x00 Byte.x00))
  /\ snd (extractDominantColor plainBrowser
            (HTMLCanvasElement (uniformMedia (solid Byte.x00 Byte.x00 Byte.x00)))
            noOptions)
     = createFallbackColor "#4a5568"%string.
Proof.
  assert (H1 : orDefault (ignoreBlackBackground noOptions) true = true)
    by reflexivity.
  assert (H2 : allNearBlack
                 (mediaOf (HTMLCanvasElement
                             (uniformMedia (solid Byte.x00 Byte.x00 Byte.x00))))).
  { intros dw dh x y. unfold nearBlack; simpl; lia. }
  split; [exact H1|]. split; [exact H2|].
  exact (proj2 (proj2 (extractDominantColor_nearBlack plainBrowser _ _ H1 H2))).
Defined.

(** ** The fallback-only short cut *)

Lemma fallbackOnly_Some (options : ColorExtractionOptions) (s : string) :
  useFallbackOnly options = Val true ->
  fallbackColor options = Val s -> s <> EmptyString ->
  fallbackOnly options = Some s.
Proof.
  intros Hflag Hcolor Hs. unfold fallbackOnly, truthyBool, truthy.
  rewrite Hflag, Hcolor. simpl.
  destruct (String.eqb_spec s EmptyString); [contradiction|reflexivity].
Qed.

Lemma fallbackOnly_None (options : ColorExtractionOptions) (flag : prop bool) :
  truthy (fallbackColor options) = None ->
  fallbackOnly (withUseFallbackOnly flag options) = None.
Proof.
  intros H. unfold fallbackOnly. simpl. rewrite H. now destruct (truthyBool flag).
Qed.

(** C7, as the code has it.  With [useFallbackOnly] true and a non-empty
    [fallbackColor], both entry points return [createFallbackColor] of that
    string and make no call at all: no image is requested, nothing is drawn
    and no pixel is read.  For the string #336699 the colour has that hex,
    the triple (51, 102, 153) and the luminance of that triple. *)
Theorem useFallbackOnly_short_circuit (browser : Browser) (video : Video)
  (imageUrl : string) (options : ColorExtractionOptions) (s : string) :
  useFallbackOnly options = Val true ->
  fallbackColor options = Val s -> s <> EmptyString ->
  extractColorFromVideo browser video options = ([], createFallbackColor s)
  /\ extractColorFromImageUrl browser imageUrl options
     = ([], Resolved (createFallbackColor s))
  /\ createFallbackColor "#336699"
     = {| hex := "#336699"; rgb := (51, 102, 153)%Z;
          luminance := getLuminance 51 102 153 |}.
Proof.
  intros Hflag Hcolor Hs.
  pose proof (fallbackOnly_Some options s Hflag Hcolor Hs) as H.
  unfold extractColorFromVideo, extractColorFromImageUrl. rewrite H.
  repeat split.
Qed.

(** C7 at the options with [useFallbackOnly] true and [fallbackColor]
    #336699. *)
Lemma useFallbackOnly_short_circuit_witness :
  useFallbackOnly (fallbackOnlyWith (Val "#336699"%string)) = Val true
  /\ fallbackColor (fallbackOnlyWith (Val "#336699"%string))
     = Val "#336699"%string
  /\ "#336699"%string <> EmptyString
  /\ extractColorFromVideo plainBrowser portraitVideo
       (fallbackOnlyWith (Val "#336699"%string))
     = ([], {| hex := "#336699"; rgb := (51, 102, 153)%Z;
               luminance := getLuminance 51 102 153 |}).
Proof.
  assert (H3 : "#336699"%string <> EmptyString) by discriminate.
  split; [reflexivity|]. split; [reflexivity|]. split; [exact H3|].
  destruct (useFallbackOnly_short_circuit plainBrowser portraitVideo
              EmptyString (fallbackOnlyWith (Val "#336699"%string))
              "#336699"%string eq_refl eq_refl H3)
    as (Hv & _ & Hc).
  rewrite Hv, Hc. reflexivity.
Defined.

(** C7 as stated fails: with [useFallbackOnly] true and no [fallbackColor]
    the video entry point draws the frame and reads its pixels. *)
Lemma useFallbackOnly_alone_reads_pixels :
  useFallbackOnly (fallbackOnlyWith Missing) = Val true
  /\ fst (extractColorFromVideo plainBrowser portraitVideo
            (fallbackOnlyWith Missing))
     = [DrawImage 50 50; GetImageData 10 5 30 40].
Proof. split; reflexivity. Qed.

(** C10.  With no [fallbackColor] to return (absent, [undefined] or empty),
    the value of [useFallbackOnly] changes nothing: with the flag true both
    entry points make the same calls and give the same result as with any
    other value of the flag, [false] included. *)
Theorem useFallbackOnly_without_fallback (browser : Browser) (video : Video)
  (imageUrl : string) (options : ColorExtractionOptions) (flag : prop bool) :
  truthy (fallbackColor options) = None ->
  extractColorFromVideo browser video (withUseFallbackOnly (Val true) options)
  = extractColorFromVideo browser video (withUseFallbackOnly flag options)
  /\ extractColorFromImageUrl browser imageUrl
       (withUseFallbackOnly (Val true) options)
     = extractColorFromImageUrl browser imageUrl
         (withUseFallbackOnly flag options).
Proof.
  intros H. unfold extractColorFromVideo, extractColorFromImageUrl.
  rewrite !(fallbackOnly_None options _ H). split; reflexivity.
Qed.

(** C10 on a playing portrait clip, the flag true against the flag false. *)
Lemma useFallbackOnly_without_fallback_witness :
  truthy (fallbackColor noOptions) = None
  /\ extractColorFromVideo plainBrowser portraitVideo
       (withUseFallbackOnly (Val true) noOptions)
     = extractColorFromVideo plainBrowser portraitVideo
         (withUseFallbackOnly (Val false) noOptions).
Proof.
  split; [reflexivity|].
  exact (proj1 (useFallbackOnly_without_fallback plainBrowser portraitVideo
                  EmptyString noOptions (Val false) eq_refl)).
Defined.

(** ** The shape of a result *)

Lemma createFallbackColor_cases (s : string) :
  (hexToRgb s = None /\ createFallbackColor s = ultimateFallback)
  \/ (hexToRgb s = Some (rgb (createFallbackColor s))
      /\ hex (createFallbackColor s) = s
      /\ consistent (createFallbackColor s)).
Proof.
  unfold createFallbackColor.
  destruct (hexToRgb s) as [[[r g] b]|]; [right|left]; repeat split.
Qed.

Lemma createFallbackColor_default_4a5568 :
  createFallbackColor "#4a5568"
  = {| hex := "#4a5568"; rgb := (74, 85, 104)%Z;
       luminance := getLuminance 74 85 104 |}.
Proof. reflexivity. Qed.

Lemma createFallbackColor_default_6b7280 :
  createFallbackColor "#6b7280"
  = {| hex := "#6b7280"; rgb := (107, 114, 128)%Z;
       luminance := getLuminance 107 114 128 |}.
Proof. reflexivity. Qed.

Lemma boostColorBrightness_channels (r g b : Z) (target : float) :
  channels (boostColorBrightness r g b target).
Proof.
  unfold boostColorBrightness.
  destruct (rgbToHsl _ _ _) as [[h s] l].
  destruct (hslToRgb _ _ _) as [[x y] z].
  unfold channels, channel. lia.
Qed.

Lemma finalColor_shape (best : ColorData.t) (boost : bool) :
  wellFormedEntry best ->
  wellFormedHex (hex (finalColor best boost)) = true
  /\ consistent (finalColor best boost)
  /\ channels (rgb (finalColor best boost)).
Proof.
  intros (_ & Hch & _). unfold finalColor.
  destruct (ColorData.rgb best) as [[r g] b].
  assert (H : channels (if boost && Rltb (ColorData.luminance best) 0.3
                        then boostColorBrightness r g b 0.4%float
                        else (r, g, b))).
  { destruct (boost && _); [apply boostColorBrightness_channels|exact Hch]. }
  destruct (if boost && _ then _ else _) as [[fr fg] fb].
  destruct H as (Hr & Hg & Hb). unfold consistent; simpl.
  repeat split; try apply Hr; try apply Hg; try apply Hb.
  now apply rgbToHex_wellFormed.
Qed.

Lemma toExtracted_shape (best : ColorData.t) :
  wellFormedEntry best ->
  wellFormedHex (hex (toExtracted best)) = true
  /\ consistent (toExtracted best)
  /\ channels (rgb (toExtracted best)).
Proof.
  intros (_ & Hch & Hlum & _). unfold toExtracted, consistent.
  destruct (ColorData.rgb best) as [[r g] b]. simpl.
  destruct Hch as (Hr & Hg & Hb).
  repeat split; try apply Hr; try apply Hg; try apply Hb; try exact Hlum.
  now apply rgbToHex_wellFormed.
Qed.

Lemma mostFrequent_In (m : ColorMap) (best : ColorData.t) :
  mostFrequent m = Some best -> In best (map snd m).
Proof.
  unfold mostFrequent. intros H.
  pose proof (mostFrequent_prefix m) as [_ Hbest]. simpl in Hbest.
  rewrite H in Hbest. apply Hbest.
Qed.

Lemma selectBestColor_In (m : ColorMap) (lo hi : R) (boost : bool)
  (best : ColorData.t) :
  selectBestColor m lo hi boost = Some best -> In best (map snd m).
Proof.
  unfold selectBestColor.
  destruct (findOptimalColor m lo hi boost) as [c|] eqn:H1.
  - intros [= <-]. apply (@findOptimalColor_Some _ _ _ _ _ H1).
  - destruct (findOptimalColor m 0.1 0.9 boost) as [c|] eqn:H2.
    + intros [= <-]. apply (@findOptimalColor_Some _ _ _ _ _ H2).
    + apply mostFrequent_In.
Qed.

Lemma wellFormed_In (m : ColorMap) (c : ColorData.t) :
  Forall (fun e => wellFormedEntry (snd e)) m ->
  In c (map snd m) -> wellFormedEntry c.
Proof.
  intros Hwf Hin. apply in_map_iff in Hin. destruct Hin as (e & <- & He).
  rewrite Forall_forall in Hwf. now apply Hwf.
Qed.

(** Every result of [extractDominantColor] is what [createFallbackColor]
    makes of the fallback string, or a colour computed from channels, with a
    hex of the specified form and the luminance of its own triple. *)
Lemma extractDominantColor_shape (browser : Browser) (element : Element)
  (options : ColorExtractionOptions) :
  let c := snd (extractDominantColor browser element options) in
  c = createFallbackColor (orDefault (fallbackColor options) "#4a5568"%string)
  \/ (wellFormedHex (hex c) = true /\ consistent c /\ channels (rgb c)).
Proof.
  intros c. subst c.
  destruct (extractDominantColor_cases browser element options)
    as [H|[(sx & sy & sw & sh & H)|(lx & ly & lw & lh & rx & ry & rw & rh & H)]];
    rewrite H; clear H.
  - now left.
  - unfold dominantOf.
    destruct (selectBestColor _ _ _ _) as [best|] eqn:Hsel; [right|now left].
    apply finalColor_shape.
    eapply wellFormed_In; [apply scanPixels_wellFormed|].
    eapply selectBestColor_In; exact Hsel.
  - assert (Hfind : forall data ib lo hi boost best,
               findOptimalColor (scanPixels data ib) lo hi boost = Some best ->
               wellFormedEntry best).
    { intros data ib lo hi boost best Hf.
      eapply wellFormed_In; [apply scanPixels_wellFormed|].
      eapply findOptimalColor_Some; exact Hf. }
    unfold chooseHalf.
    destruct (findOptimalColor _ _ _ _) as [l|] eqn:HL;
      destruct (findOptimalColor (scanPixels (rectBytes _ rx ry rw rh) _) _ _ _)
        as [r|] eqn:HR; try (now left); right.
    + destruct (Rltb _ _); apply toExtracted_shape; eapply Hfind; eassumption.
    + apply toExtracted_shape; eapply Hfind; eassumption.
    + apply toExtracted_shape; eapply Hfind; eassumption.
Qed.

(** ** The hex field *)

Lemma truthy_Some (p : prop string) (s : string) :
  truthy p = Some s -> p = Val s.
Proof.
  unfold truthy. destruct p as [| |t]; simpl; try discriminate.
  destruct (String.eqb t EmptyString); [discriminate|]. now intros [= ->].
Qed.

Lemma truthy_get_None (p : prop string) : get p = None -> truthy p = None.
Proof. unfold truthy. now intros ->. Qed.

Lemma createFallbackColor_hexAsConfigured (options : ColorExtractionOptions)
  (s : string) :
  fallbackColor options = Val s \/ wellFormedHex s = true ->
  hexAsConfigured options (createFallbackColor s).
Proof.
  intros Hs.
  destruct (createFallbackColor_cases s) as [(_ & ->)|(Hrgb & Hhex & _)].
  - now left.
  - unfold hexAsConfigured. rewrite Hhex.
    destruct Hs as [Hs|Hs]; [right|left]; auto.
Qed.

(** The fallback an entry point hands on is the caller's string or the
    entry point's own default. *)
Lemma hexAsConfigured_spread (options inner : ColorExtractionOptions)
  (d : string) (c : ExtractedColor) :
  wellFormedHex d = true ->
  fallbackColor inner
  = spreadOver (orElse (fallbackColor options) d) (fallbackColor options) ->
  hexAsConfigured inner c -> hexAsConfigured options c.
Proof.
  intros Hd Hinner [Hwf|(Hfb & Hrgb)]; [now left|].
  rewrite Hinner in Hfb. unfold hexAsConfigured.
  destruct (fallbackColor options) as [| |s] eqn:Hopt; simpl in Hfb.
  - left. injection Hfb as <-. exact Hd.
  - discriminate.
  - right. split; assumption.
Qed.

Lemma extractDominantColor_hexAsConfigured (browser : Browser)
  (element : Element) (options : ColorExtractionOptions) :
  hexAsConfigured options (snd (extractDominantColor browser element options)).
Proof.
  destruct (extractDominantColor_shape browser element options)
    as [->|(Hwf & _)]; [|now left].
  apply createFallbackColor_hexAsConfigured.
  unfold orDefault. destruct (fallbackColor options); simpl; auto.
Qed.

(** C3, as the code has it.  The hex field of every result is '#' and six
    lowercase hex digits, except when the run returns the configured
    [fallbackColor]: then the hex field is that string as the caller wrote
    it, whatever its case and with or without its '#'. *)
Theorem hex_wellFormed_or_configured (browser : Browser) (element : Element)
  (video : Video) (imageUrl : string) (options : ColorExtractionOptions) :
  hexAsConfigured options (snd (extractDominantColor browser element options))
  /\ hexAsConfigured options (snd (extractColorFromVideo browser video options))
  /\ forall c,
       snd (extractColorFromImageUrl browser imageUrl options) = Resolved c ->
       hexAsConfigured options c.
Proof.
  split; [apply extractDominantColor_hexAsConfigured|]. split.
  - unfold extractColorFromVideo, fallbackOnly.
    destruct (truthyBool (useFallbackOnly options));
      [destruct (truthy (fallbackColor options)) as [s|] eqn:Hs|].
    + apply createFallbackColor_hexAsConfigured. left. now apply truthy_Some.
    + destruct (_ <? 2)%Z; simpl.
      * apply createFallbackColor_hexAsConfigured.
        unfold orElse. rewrite Hs. now right.
      * apply hexAsConfigured_spread
          with (inner := videoExtractionOptions options) (d := "#4a5568"%string);
          [reflexivity|reflexivity|apply extractDominantColor_hexAsConfigured].
    + destruct (_ <? 2)%Z; simpl.
      * apply createFallbackColor_hexAsConfigured. unfold orElse.
        destruct (truthy (fallbackColor options)) as [s|] eqn:Hs;
          [left; now apply truthy_Some|now right].
      * apply hexAsConfigured_spread
          with (inner := videoExtractionOptions options) (d := "#4a5568"%string);
          [reflexivity|reflexivity|apply extractDominantColor_hexAsConfigured].
  - intros c. unfold extractColorFromImageUrl.
    assert (Hfb : forall s, truthy (fallbackColor options) = Some s ->
                            hexAsConfigured options (createFallbackColor s)).
    { intros s Hs. apply createFallbackColor_hexAsConfigured.
      left. now apply truthy_Some. }
    destruct (fallbackOnly options) as [s|] eqn:Hfo.
    { simpl. intros [= <-]. apply Hfb. unfold fallbackOnly in Hfo.
      now destruct (truthyBool _). }
    destruct (if String.eqb imageUrl EmptyString then _ else None)
      as [s|] eqn:Hempty.
    { simpl. intros [= <-]. apply Hfb. now destruct (String.eqb _ _). }
    destruct (loadImage browser imageUrl) as [img|].
    + destruct (extractDominantColor _ _ _) as [calls color] eqn:Hrun.
      simpl. intros [= <-].
      apply hexAsConfigured_spread
        with (inner := imageExtractionOptions options) (d := "#6b7280"%string);
        [reflexivity|reflexivity|].
      replace color with (snd (extractDominantColor browser (HTMLImageElement img)
                                 (imageExtractionOptions options)))
        by now rewrite Hrun.
      apply extractDominantColor_hexAsConfigured.
    + destruct (truthy (fallbackColor options)) as [s|] eqn:Hs; simpl.
      * intros [= <-]. now apply Hfb.
      * discriminate.
Qed.

(** C3 as stated fails: a fallback written in upper case without '#' is
    accepted by [hexToRgb] and comes back as it was written, six characters
    long. *)
Lemma fallback_hex_returned_verbatim :
  hex (snd (extractColorFromVideo plainBrowser taintedVideo
              (withFallbackColor (Val "ABCDEF"%string) noOptions)))
  = "ABCDEF"%string
  /\ rgb (snd (extractColorFromVideo plainBrowser taintedVideo
                 (withFallbackColor (Val "ABCDEF"%string) noOptions)))
     = (171, 205, 239)%Z
  /\ wellFormedHex "ABCDEF" = false.
Proof. repeat split. Qed.

(** ** Faults and the fallback chain *)

Lemma orDefault_get_None {A} (p : prop A) (d : A) :
  get p = None -> orDefault p d = d.
Proof. unfold orDefault. now intros ->. Qed.

Lemma extractDominantColor_faults (browser : Browser) (element : Element)
  (options : ColorExtractionOptions) :
  faults browser element options ->
  snd (extractDominantColor browser element options)
  = createFallbackColor (orDefault (fallbackColor options) "#4a5568"%string).
Proof.
  unfold faults, extractDominantColor. intros [Hctx|Hthrow].
  - now rewrite Hctx.
  - destruct (negb (context2d browser)); [reflexivity|].
    destruct (extractBody element options) as [calls [c|]];
      [discriminate|reflexivity].
Qed.

(** C4, as the code has it.  When a fault occurs and no [fallbackColor] is
    configured (the property is absent, or present with the value
    [undefined]), [extractDominantColor] and [extractColorFromVideo] return
    the default #4a5568, rgb(74, 85, 104); the same for a clip that is not
    ready.  [extractColorFromImageUrl], when the fault comes after the image
    has loaded, resolves with its own default #6b7280, rgb(107, 114, 128),
    if the property is absent, and with #4a5568, rgb(74, 85, 104), if the
    property is [undefined]: the spread of the options then overrides the
    entry point's default.  It rejects when the image fails to load. *)
Theorem fault_without_fallbackColor (browser : Browser)
  (options : ColorExtractionOptions) :
  get (fallbackColor options) = None ->
  let slate := {| hex := "#4a5568"%string; rgb := (74, 85, 104)%Z;
                  luminance := getLuminance 74 85 104 |} in
  let gray := {| hex := "#6b7280"%string; rgb := (107, 114, 128)%Z;
                 luminance := getLuminance 107 114 128 |} in
  (forall element,
      faults browser element options ->
      snd (extractDominantColor browser element options) = slate)
  /\ (forall video,
         (readyState video < 2)%Z
         \/ faults browser (HTMLVideoElement video) (videoExtractionOptions options) ->
         snd (extractColorFromVideo browser video options) = slate)
  /\ (forall imageUrl img,
         loadImage browser imageUrl = Some img ->
         faults browser (HTMLImageElement img) (imageExtractionOptions options) ->
         snd (extractColorFromImageUrl browser imageUrl options)
         = Resolved (match fallbackColor options with
                     | Missing => gray
                     | _ => slate
                     end))
  /\ (forall imageUrl,
         loadImage browser imageUrl = None ->
         snd (extractColorFromImageUrl browser imageUrl options) = Rejected).
Proof.
  intros Hnone slate gray.
  pose proof (truthy_get_None _ Hnone) as Htruthy.
  assert (Hfo : fallbackOnly options = None).
  { unfold fallbackOnly. rewrite Htruthy. now destruct (truthyBool _). }
  split; [|split; [|split]].
  - intros element Hf. rewrite (extractDominantColor_faults _ _ _ Hf).
    now rewrite (orDefault_get_None _ _ Hnone).
  - intros video Hv. unfold extractColorFromVideo. rewrite Hfo.
    destruct (readyState video <? 2)%Z eqn:Hready.
    + unfold orElse. now rewrite Htruthy.
    + destruct Hv as [Hv|Hf]; [apply Z.ltb_ge in Hready; lia|].
      rewrite (extractDominantColor_faults _ _ _ Hf).
      unfold videoExtractionOptions, orElse; simpl. rewrite Htruthy.
      destruct (fallbackColor options); try discriminate; reflexivity.
  - intros imageUrl img Hload Hf.
    unfold extractColorFromImageUrl. rewrite Hfo, Htruthy, Hload.
    destruct (String.eqb imageUrl EmptyString).
    all: destruct (extractDominantColor _ _ _) as [calls color] eqn:Hrun;
      cbn [snd]; f_equal;
      replace color with (snd (extractDominantColor browser (HTMLImageElement img)
                                 (imageExtractionOptions options)))
        by (now rewrite Hrun);
      rewrite (extractDominantColor_faults _ _ _ Hf);
      unfold imageExtractionOptions, orElse; simpl;
      rewrite Htruthy;
      destruct (fallbackColor options); try discriminate; reflexivity.
  - intros imageUrl Hload.
    unfold extractColorFromImageUrl. rewrite Hfo, Htruthy, Hload.
    now destruct (String.eqb imageUrl EmptyString).
Qed.

(** C4 with the default options: a portrait clip whose canvas cannot be
    read back; an image that loads and whose canvas cannot be read back,
    with [fallbackColor] absent and with [fallbackColor: undefined]; and an
    image that fails to load. *)
Lemma fault_without_fallbackColor_witness :
  faults plainBrowser (HTMLVideoElement taintedVideo)
         (videoExtractionOptions noOptions)
  /\ snd (extractColorFromVideo plainBrowser taintedVideo noOptions)
     = {| hex := "#4a5568"%string; rgb := (74, 85, 104)%Z;
          luminance := getLuminance 74 85 104 |}
  /\ faults galleryBrowser (HTMLImageElement taintedImage)
            (imageExtractionOptions noOptions)
  /\ snd (extractColorFromImageUrl galleryBrowser "tainted.jpg" noOptions)
     = Resolved {| hex := "#6b7280"%string; rgb := (107, 114, 128)%Z;
                   luminance := getLuminance 107 114 128 |}
  /\ snd (extractColorFromImageUrl galleryBrowser "tainted.jpg"
            (withFallbackColor Undef noOptions))
     = Resolved {| hex := "#4a5568"%string; rgb := (74, 85, 104)%Z;
                   luminance := getLuminance 74 85 104 |}
  /\ snd (extractColorFromImageUrl galleryBrowser "missing.jpg" noOptions)
     = Rejected.
Proof.
  assert (Hv : faults plainBrowser (HTMLVideoElement taintedVideo)
                      (videoExtractionOptions noOptions))
    by (right; reflexivity).
  assert (Hi : faults galleryBrowser (HTMLImageElement taintedImage)
                      (imageExtractionOptions noOptions))
    by (right; reflexivity).
  assert (Hu : faults galleryBrowser (HTMLImageElement taintedImage)
                      (imageExtractionOptions (withFallbackColor Undef noOptions)))
    by (right; reflexivity).
  split; [exact Hv|]. split.
  { exact (proj1 (proj2 (fault_without_fallbackColor plainBrowser noOptions
                           eq_refl)) taintedVideo (or_intror Hv)). }
  split; [exact Hi|]. split.
  { exact (proj1 (proj2 (proj2 (fault_without_fallbackColor galleryBrowser
                                  noOptions eq_refl)))
                 "tainted.jpg"%string taintedImage eq_refl Hi). }
  split.
  { exact (proj1 (proj2 (proj2 (fault_without_fallbackColor galleryBrowser
                                  (withFallbackColor Undef noOptions) eq_refl)))
                 "tainted.jpg"%string taintedImage eq_refl Hu). }
  exact (proj2 (proj2 (proj2 (fault_without_fallbackColor galleryBrowser
                                noOptions eq_refl)))
               "missing.jpg"%string eq_refl).
Defined.

(** C4 as stated fails: the same run, a fault with no [fallbackColor]
    configured, returns rgb(74, 85, 104) and not rgb(107, 114, 128). *)
Lemma fault_default_is_not_gray :
  fallbackColor noOptions = Missing
  /\ snd (extractBody (HTMLVideoElement taintedVideo)
            (videoExtractionOptions noOptions)) = None
  /\ rgb (snd (extractColorFromVideo plainBrowser taintedVideo noOptions))
     <> (107, 114, 128)%Z.
Proof. repeat split. discriminate. Qed.

(** ** Bounds on the power curve *)

Lemma Rpower_2_4_pow5 (x : R) : (0 < x)%R -> (Rpower x 2.4 ^ 5 = x ^ 12)%R.
Proof.
  intros Hx.
  rewrite <- (Rpower_pow 5) by apply exp_pos.
  rewrite <- (Rpower_pow 12) by exact Hx.
  rewrite Rpower_mult. f_equal. simpl. lra.
Qed.

Lemma Rpower_2_4_lt (x y : R) :
  (0 < x)%R -> (0 < y)%R -> (x ^ 12 < y ^ 5)%R -> (Rpower x 2.4 < y)%R.
Proof.
  intros Hx Hy H.
  destruct (Rlt_le_dec (Rpower x 2.4) y) as [|Hle]; [assumption|].
  exfalso. assert (H5 : (y ^ 5 <= Rpower x 2.4 ^ 5)%R) by (apply pow_incr; lra).
  rewrite Rpower_2_4_pow5 in H5 by exact Hx. lra.
Qed.

Lemma Rpower_2_4_gt (x y : R) :
  (0 < x)%R -> (0 <= y)%R -> (y ^ 5 < x ^ 12)%R -> (y < Rpower x 2.4)%R.
Proof.
  intros Hx Hy H.
  destruct (Rlt_le_dec y (Rpower x 2.4)) as [|Hle]; [assumption|].
  exfalso. assert (H5 : (Rpower x 2.4 ^ 5 <= y ^ 5)%R).
  { apply pow_incr. split; [left; apply exp_pos|exact Hle]. }
  rewrite Rpower_2_4_pow5 in H5 by exact Hx. lra.
Qed.

(** Above the linear segment [linearize] is the power curve. *)
Lemma linearize_power (c : R) :
  (0.03928 < c)%R -> linearize c = Rpower ((c + 0.055) / 1.055) 2.4.
Proof.
  intros Hc. unfold linearize. destruct (Rle_dec c 0.03928); [lra|reflexivity].
Qed.

Lemma linearize_zero : linearize (IZR 0 / 255) = 0%R.
Proof.
  unfold linearize. destruct (Rle_dec (IZR 0 / 255) 0.03928); lra.
Qed.

(** The luminance of the gray of the last resort is well below 0.4. *)
Lemma getLuminance_gray : (getLuminance 107 114 128 < 0.22)%R.
Proof.
  unfold getLuminance. rewrite !linearize_power by lra.
  assert (Rpower ((IZR 107 / 255 + 0.055) / 1.055) 2.4 < 0.22)%R
    by (apply Rpower_2_4_lt; lra).
  assert (Rpower ((IZR 114 / 255 + 0.055) / 1.055) 2.4 < 0.22)%R
    by (apply Rpower_2_4_lt; lra).
  assert (Rpower ((IZR 128 / 255 + 0.055) / 1.055) 2.4 < 0.22)%R
    by (apply Rpower_2_4_lt; lra).
  lra.
Qed.

(** The luminance of the dark green (0, 168, 0) lies in [0.2, 0.3). *)
Lemma getLuminance_dark_green : (0.25 < getLuminance 0 168 0 < 0.3)%R.
Proof.
  unfold getLuminance. rewrite linearize_zero, linearize_power by lra.
  assert (0.35 < Rpower ((IZR 168 / 255 + 0.055) / 1.055) 2.4)%R
    by (apply Rpower_2_4_gt; lra).
  assert (Rpower ((IZR 168 / 255 + 0.055) / 1.055) 2.4 < 0.41)%R
    by (apply Rpower_2_4_lt; lra).
  lra.
Qed.

(** ** Luminance of a result *)

(** Every result carries the luminance of its own triple, except the literal
    of the last resort. *)
Lemma luminance_consistent_or_ultimate (browser : Browser) (element : Element)
  (options : ColorExtractionOptions) :
  consistent (snd (extractDominantColor browser element options))
  \/ snd (extractDominantColor browser element options) = ultimateFallback.
Proof.
  destruct (extractDominantColor_shape browser element options)
    as [->|(_ & Hc & _)]; [|now left].
  destruct (createFallbackColor_cases
              (orDefault (fallbackColor options) "#4a5568"%string))
    as [(_ & ->)|(_ & _ & Hc)]; [now right|now left].
Qed.

(** C2 fails on the last resort.  With a [fallbackColor] that is no hex
    colour, a run that falls back returns the triple (107, 114, 128) with
    the luminance field 0.4, while the luminance of that triple is below
    0.22. *)
Theorem ultimate_fallback_luminance_hardcoded :
  rgb (snd (extractColorFromVideo plainBrowser taintedVideo
              (withFallbackColor (Val "red"%string) noOptions)))
  = (107, 114, 128)%Z
  /\ luminance (snd (extractColorFromVideo plainBrowser taintedVideo
                       (withFallbackColor (Val "red"%string) noOptions)))
     = 0.4%R
  /\ (getLuminance 107 114 128 < 0.22)%R
  /\ ~ consistent (snd (extractColorFromVideo plainBrowser taintedVideo
                          (withFallbackColor (Val "red"%string) noOptions))).
Proof.
  assert (H : snd (extractColorFromVideo plainBrowser taintedVideo
                     (withFallbackColor (Val "red"%string) noOptions))
              = ultimateFallback) by reflexivity.
  rewrite H. repeat split; try apply getLuminance_gray.
  unfold consistent; simpl. pose proof getLuminance_gray. lra.
Qed.

(** ** The sampled region *)

Lemma findOptimalColor_singleton (key : string) (c : ColorData.t)
  (lo hi : R) (boost : bool) :
  wellFormedEntry c -> inRange lo hi c ->
  findOptimalColor [(key, c)] lo hi boost = Some c.
Proof.
  intros Hwf Hin. unfold findOptimalColor. simpl.
  apply outsideRange_false in Hin. rewrite Hin.
  pose proof (totalScore_pos c Hwf) as Hpos. apply Rltb_true in Hpos.
  now rewrite Hpos.
Qed.

Lemma darkGreen_wellFormed (n : Z) : (1 <= n)%Z -> wellFormedEntry (darkGreen n).
Proof. intros Hn. repeat split; simpl; unfold channel; lia. Qed.

Lemma darkGreen_inRange (n : Z) : inRange 0.2 0.85 (darkGreen n).
Proof. unfold inRange; simpl. pose proof getLuminance_dark_green. lra. Qed.

(** The binary64 products and quotients of the region arithmetic floor to
    the integer quotients, for every side a canvas can have. *)
Lemma center_arithmetic (s : Z) :
  (0 <= s <= maxCanvasSide)%Z ->
  Math_floor (Z2F s * 0.6)%float = (6 * s / 10)%Z
  /\ Math_floor (Z2F s * 0.8)%float = (8 * s / 10)%Z
  /\ Math_floor ((Z2F s - Z2F (6 * s / 10)) / 2)%float = ((s - 6 * s / 10) / 2)%Z
  /\ Math_floor ((Z2F s - Z2F (8 * s / 10)) / 2)%float = ((s - 8 * s / 10) / 2)%Z.
Proof.
  intros Hs.
  pose (ok := fun z =>
          ((Math_floor (Z2F z * 0.6)%float =? 6 * z / 10)
           && (Math_floor (Z2F z * 0.8)%float =? 8 * z / 10)
           && (Math_floor ((Z2F z - Z2F (6 * z / 10)) / 2)%float
               =? (z - 6 * z / 10) / 2)
           && (Math_floor ((Z2F z - Z2F (8 * z / 10)) / 2)%float
               =? (z - 8 * z / 10) / 2))%Z).
  assert (H : allFrom (Z.to_nat 32768) 0 ok = true) by (vm_compute; reflexivity).
  assert (Hz : ok s = true).
  { apply (allFrom_below _ _ H). unfold maxCanvasSide in Hs. lia. }
  unfold ok in Hz. rewrite !andb_true_iff, !Z.eqb_eq in Hz. tauto.
Qed.

(** C1, as the code has it.  For a video whose aspect ratio is below 1,
    with [analyzePortraitVideo] and [ignoreBlackBackground] both on (the
    defaults) and a [sampleSize] of at most 32767, whatever
    [sampleLowerThird] and [handleSplitView] say: the one rectangle
    [extractDominantColor] asks for is the centred one, 60% of the canvas
    wide and 80% high, and the colour it returns is the analysis of the
    pixels of that rectangle (the frequency table, the selection and the
    boost of [dominantOf]).  That is the run when there is a 2D context, the
    frame can be drawn, the rectangle is not empty and the canvas can be
    read back; when one of these fails the run ends there with the warning
    and the fallback colour. *)
Theorem portrait_video_center_region (browser : Browser) (video : Video)
  (options : ColorExtractionOptions) :
  orDefault (analyzePortraitVideo options) true = true ->
  (N2F (videoWidth video) / N2F (videoHeight video) <? 1)%float = true ->
  orDefault (ignoreBlackBackground options) true = true ->
  (Z.of_N (orDefault (sampleSize options) 50%N) <= maxCanvasSide)%Z ->
  let s := orDefault (sampleSize options) 50%N in
  let fallbackColor := orDefault (fallbackColor options) "#4a5568"%string in
  let '(x, y, w, h) := centerRegion (Z.of_N s) in
  extractDominantColor browser (HTMLVideoElement video) options
  = if negb (context2d browser) then ([], createFallbackColor fallbackColor)
    else if negb (drawable (videoMedia video))
    then ([DrawImage s s; ConsoleWarn], createFallbackColor fallbackColor)
    else if (w =? 0)%Z || (h =? 0)%Z || negb (originClean (videoMedia video))
    then ([DrawImage s s; GetImageData x y w h; ConsoleWarn],
          createFallbackColor fallbackColor)
    else ([DrawImage s s; GetImageData x y w h],
          dominantOf (rectBytes (drawn (videoMedia video) s s) x y w h) true
            (orDefault (minLuminance options) 0.2%R)
            (orDefault (maxLuminance options) 0.85%R)
            (orDefault (enableContrastBoost options) true)
            fallbackColor).
Proof.
  intros Hap Hratio Hib Hs s fb. subst s fb.
  unfold centerRegion. cbv zeta.
  unfold extractDominantColor, extractBody. rewrite Hap, Hib.
  destruct (context2d browser); [|reflexivity]. cbn [negb].
  unfold drawImage, getImageData, bind, ret. cbn [mediaOf].
  rewrite Hratio. cbn [andb].
  set (s := orDefault (sampleSize options) 50%N) in *.
  destruct (center_arithmetic (Z.of_N s) ltac:(lia)) as (E1 & E2 & E3 & E4).
  unfold N2F. rewrite E1, E2, E3, E4.
  destruct (drawable (videoMedia video)); [|reflexivity].
  cbn [negb drawn readable].
  destruct (_ || _ || _); reflexivity.
Qed.

(** C1 on a 1080 x 1920 clip that is dark green all over, with the default
    options: the rectangle is (10, 5, 30, 40) of the 50 x 50 canvas, its 300
    samples give the table with the one entry (0, 168, 0), and the colour
    returned is that entry, boosted to (0, 204, 0). *)
Lemma portrait_video_center_region_witness :
  orDefault (analyzePortraitVideo noOptions) true = true
  /\ (N2F (videoWidth portraitVideo) / N2F (videoHeight portraitVideo) <? 1)%float
     = true
  /\ orDefault (ignoreBlackBackground noOptions) true = true
  /\ (Z.of_N (orDefault (sampleSize noOptions) 50%N) <= maxCanvasSide)%Z
  /\ extractDominantColor plainBrowser (HTMLVideoElement portraitVideo) noOptions
     = ([DrawImage 50 50; GetImageData 10 5 30 40],
        dominantOf (rectBytes (drawn (videoMedia portraitVideo) 50 50) 10 5 30 40)
          true 0.2 0.85 true "#4a5568")
  /\ scanPixels (rectBytes (drawn (videoMedia portraitVideo) 50 50) 10 5 30 40)
                true
     = [("0,168,0"%string, darkGreen 300)]
  /\ rgb (snd (extractDominantColor plainBrowser (HTMLVideoElement portraitVideo)
                 noOptions)) = (0, 204, 0)%Z.
Proof.
  assert (H4 : (Z.of_N (orDefault (sampleSize noOptions) 50%N) <= maxCanvasSide)%Z)
    by (vm_compute; discriminate).
  pose proof (portrait_video_center_region plainBrowser portraitVideo noOptions
                eq_refl eq_refl eq_refl H4) as Hrun.
  cbv zeta in Hrun.
  change (extractDominantColor plainBrowser (HTMLVideoElement portraitVideo)
            noOptions
          = ([DrawImage 50 50; GetImageData 10 5 30 40],
             dominantOf
               (rectBytes (drawn (videoMedia portraitVideo) 50 50) 10 5 30 40)
               true 0.2 0.85 true "#4a5568")) in Hrun.
  assert (Htable : scanPixels
                     (rectBytes (drawn (videoMedia portraitVideo) 50 50)
                                10 5 30 40) true
                   = [("0,168,0"%string, darkGreen 300)]) by reflexivity.
  repeat (split; [reflexivity|]). split; [exact H4|].
  split; [exact Hrun|]. split; [exact Htable|].
  rewrite Hrun. cbn [snd]. unfold dominantOf. rewrite Htable.
  unfold selectBestColor.
  rewrite (findOptimalColor_singleton _ (darkGreen 300) 0.2 0.85 true
             (darkGreen_wellFormed 300 ltac:(lia)) (darkGreen_inRange 300)).
  assert (Hdark : Rltb (getLuminance 0 168 0) 0.3 = true)
    by (apply Rltb_true, getLuminance_dark_green).
  unfold finalColor. cbn [ColorData.rgb ColorData.luminance darkGreen andb].
  rewrite Hdark. reflexivity.
Defined.

(** C1 as stated fails: with [analyzePortraitVideo] on and
    [ignoreBlackBackground] off, the same portrait clip is sampled in its
    lower third, not in the centred rectangle. *)
Lemma portrait_video_without_black_filter :
  orDefault (analyzePortraitVideo
               (withIgnoreBlackBackground (Val false) noOptions)) true = true
  /\ (N2F (videoWidth portraitVideo) / N2F (videoHeight portraitVideo) <? 1)%float
     = true
  /\ regionsRead (fst (extractDominantColor plainBrowser
                         (HTMLVideoElement portraitVideo)
                         (withIgnoreBlackBackground (Val false) noOptions)))
     = [(0, 33, 50, 17)%Z]
  /\ centerRegion 50 = (10, 5, 30, 40)%Z.
Proof. repeat split. Qed.

(** ** Split view and the contrast boost *)

(** The split-view run on the dark-green panorama: each half gives the
    table with the one entry, seen 107 times. *)
Lemma panorama_run :
  extractDominantColor plainBrowser (HTMLImageElement panorama) noOptions
  = ([DrawImage 50 50; GetImageData 0 33 25 17; GetImageData 25 33 25 17],
     chooseHalf
       (findOptimalColor [("0,168,0"%string, darkGreen 107)] 0.2 0.85 true)
       (findOptimalColor [("0,168,0"%string, darkGreen 107)] 0.2 0.85 true)
       "#4a5568").
Proof. reflexivity. Qed.

(** The same pixels behind a canvas element: one rectangle, the lower
    third, with the entry seen 213 times. *)
Lemma green_canvas_run :
  extractDominantColor plainBrowser
    (HTMLCanvasElement (uniformMedia (solid Byte.x00 Byte.xa8 Byte.x00)))
    noOptions
  = ([DrawImage 50 50; GetImageData 0 33 50 17],
     match selectBestColor [("0,168,0"%string, darkGreen 213)] 0.2 0.85 true with
     | Some bestColor => finalColor bestColor true
     | None => createFallbackColor "#4a5568"
     end).
Proof. reflexivity. Qed.

(** C5 fails on the split-view path.  A loaded 3000 x 1000 image that is
    dark green all over, with the default options ([enableContrastBoost]
    on): the run takes the split-view path, the winning entry has luminance
    below 0.3, and the result is its triple (0, 168, 0) as it is; the boost
    would make it (0, 204, 0), which is what the single-region path returns
    for the same pixels. *)
Theorem split_view_skips_boost :
  regionsRead (fst (extractDominantColor plainBrowser
                      (HTMLImageElement panorama) noOptions))
  = [(0, 33, 25, 17)%Z; (25, 33, 25, 17)%Z]
  /\ orDefault (enableContrastBoost noOptions) true = true
  /\ rgb (snd (extractDominantColor plainBrowser
                 (HTMLImageElement panorama) noOptions)) = (0, 168, 0)%Z
  /\ (luminance (snd (extractDominantColor plainBrowser
                        (HTMLImageElement panorama) noOptions)) < 0.3)%R
  /\ boostColorBrightness 0 168 0 0.4 = (0, 204, 0)%Z
  /\ rgb (snd (extractDominantColor plainBrowser
                 (HTMLCanvasElement
                    (uniformMedia (solid Byte.x00 Byte.xa8 Byte.x00)))
                 noOptions)) = (0, 204, 0)%Z.
Proof.
  rewrite panorama_run, green_canvas_run.
  rewrite (findOptimalColor_singleton _ (darkGreen 107) 0.2 0.85 true
             (darkGreen_wellFormed 107 ltac:(lia)) (darkGreen_inRange 107)).
  unfold selectBestColor.
  rewrite (findOptimalColor_singleton _ (darkGreen 213) 0.2 0.85 true
             (darkGreen_wellFormed 213 ltac:(lia)) (darkGreen_inRange 213)).
  split; [reflexivity|]. split; [reflexivity|].
  split; [unfold chooseHalf; destruct (Rltb _ _); reflexivity|].
  split; [unfold chooseHalf; destruct (Rltb _ _); apply getLuminance_dark_green|].
  split; [vm_compute; reflexivity|].
  assert (Hdark : Rltb (getLuminance 0 168 0) 0.3 = true)
    by (apply Rltb_true, getLuminance_dark_green).
  unfold finalColor. cbn [ColorData.rgb ColorData.luminance darkGreen andb].
  rewrite Hdark. reflexivity.
Qed.

(** ** Split view and the relaxed tiers *)

(** The luminance of the bucket of white is above the default band and
    inside the relaxed one. *)
Lemma getLuminance_pale_gray : (0.85 < getLuminance 240 240 240 < 0.9)%R.
Proof.
  unfold getLuminance. rewrite !linearize_power by lra.
  assert (0.85 < Rpower ((IZR 240 / 255 + 0.055) / 1.055) 2.4)%R
    by (apply Rpower_2_4_gt; lra).
  assert (Rpower ((IZR 240 / 255 + 0.055) / 1.055) 2.4 < 0.9)%R
    by (apply Rpower_2_4_lt; lra).
  lra.
Qed.

Lemma paleGray_wellFormed (n : Z) : (1 <= n)%Z -> wellFormedEntry (paleGray n).
Proof. intros Hn. repeat split; simpl; unfold channel; lia. Qed.

Lemma findOptimalColor_pale_gray (n : Z) :
  findOptimalColor [("240,240,240"%string, paleGray n)] 0.2 0.85 true = None.
Proof.
  unfold findOptimalColor. cbn [fold_left snd].
  assert (H : outsideRange 0.2 0.85 (paleGray n) = true).
  { unfold outsideRange. cbn [paleGray ColorData.luminance].
    apply orb_true_iff. right. apply Rltb_true.
    apply getLuminance_pale_gray. }
  now rewrite H.
Qed.

Lemma white_panorama_run :
  extractDominantColor plainBrowser (HTMLImageElement whitePanorama) noOptions
  = ([DrawImage 50 50; GetImageData 0 33 25 17; GetImageData 25 33 25 17],
     chooseHalf
       (findOptimalColor [("240,240,240"%string, paleGray 107)] 0.2 0.85 true)
       (findOptimalColor [("240,240,240"%string, paleGray 107)] 0.2 0.85 true)
       "#4a5568").
Proof. reflexivity. Qed.

Lemma white_canvas_run :
  extractDominantColor plainBrowser
    (HTMLCanvasElement (uniformMedia (solid Byte.xff Byte.xff Byte.xff)))
    noOptions
  = ([DrawImage 50 50; GetImageData 0 33 50 17],
     match selectBestColor [("240,240,240"%string, paleGray 213)] 0.2 0.85 true with
     | Some bestColor => finalColor bestColor true
     | None => createFallbackColor "#4a5568"
     end).
Proof. reflexivity. Qed.

Lemma selectBestColor_pale_gray (n : Z) :
  (1 <= n)%Z ->
  selectBestColor [("240,240,240"%string, paleGray n)] 0.2 0.85 true
  = Some (paleGray n).
Proof.
  intros Hn. unfold selectBestColor. rewrite findOptimalColor_pale_gray.
  rewrite (findOptimalColor_singleton _ (paleGray n) 0.1 0.9 true
             (paleGray_wellFormed n Hn)); [reflexivity|].
  unfold inRange. cbn [paleGray ColorData.luminance].
  pose proof getLuminance_pale_gray. lra.
Qed.

(** C6 fails on the split-view path.  A loaded 3000 x 1000 image that is
    white all over, with the default options: each half scans to a table
    that is not empty, with the one entry (240, 240, 240), whose luminance is
    above the band [0.2, 0.85] and inside the relaxed band [0.1, 0.9]; the
    three tiers select that entry, in the second tier, and the single-region
    path returns it for the same pixels; the split-view path stops after the
    first tier and returns the fallback #4a5568, rgb(74, 85, 104). *)
Theorem split_view_skips_relaxed_tiers :
  regionsRead (fst (extractDominantColor plainBrowser
                      (HTMLImageElement whitePanorama) noOptions))
  = [(0, 33, 25, 17)%Z; (25, 33, 25, 17)%Z]
  /\ analyzeImageData
       (rectBytes (drawn (imageMedia whitePanorama) 50 50) 0 33 25 17) noOptions
     = [("240,240,240"%string, paleGray 107)]
  /\ analyzeImageData
       (rectBytes (drawn (imageMedia whitePanorama) 50 50) 25 33 25 17) noOptions
     = [("240,240,240"%string, paleGray 107)]
  /\ (0.85 < ColorData.luminance (paleGray 107) < 0.9)%R
  /\ selectBestColor [("240,240,240"%string, paleGray 107)] 0.2 0.85 true
     = Some (paleGray 107)
  /\ snd (extractDominantColor plainBrowser
            (HTMLImageElement whitePanorama) noOptions)
     = {| hex := "#4a5568"%string; rgb := (74, 85, 104)%Z;
          luminance := getLuminance 74 85 104 |}
  /\ rgb (snd (extractDominantColor plainBrowser
                 (HTMLCanvasElement
                    (uniformMedia (solid Byte.xff Byte.xff Byte.xff)))
                 noOptions)) = (240, 240, 240)%Z.
Proof.
  rewrite white_panorama_run, white_canvas_run.
  rewrite !findOptimalColor_pale_gray.
  rewrite (selectBestColor_pale_gray 107), (selectBestColor_pale_gray 213) by lia.
  split; [reflexivity|]. split; [reflexivity|]. split; [reflexivity|].
  split; [apply getLuminance_pale_gray|]. split; [reflexivity|].
  split; [reflexivity|].
  assert (Hlight : Rltb (getLuminance 240 240 240) 0.3 = false).
  { apply Rltb_false. pose proof getLuminance_pale_gray. lra. }
  unfold finalColor. cbn [ColorData.rgb ColorData.luminance paleGray andb].
  rewrite Hlight. reflexivity.
Qed.

(** ** HSL round trip *)

Lemma roundsTo_spec (x : float) (n : int) :
  roundsTo x n = true -> Math_round x = Uint63.to_Z n.
Proof.
  unfold roundsTo, Math_round, decompose.
  destruct (PrimFloat.frshiftexp x) as [f e].
  destruct (bias <=? e)%uint63; [discriminate|].
  destruct (63 <=? bias - e)%uint63.
  - intros H. apply Uint63.eqb_spec in H. now rewrite H.
  - destruct (x <? 0)%float; [discriminate|]. cbn [signed].
    intros H. apply Uint63.eqb_spec in H. now rewrite H.
Qed.

Lemma to_Z_of_Z_channel (c : Z) : channel c -> Uint63.to_Z (Uint63.of_Z c) = c.
Proof.
  intros [H0 H1]. rewrite Uint63.of_Z_spec. apply Z.mod_small.
  split; [exact H0|]. apply Z.le_lt_trans with 255%Z; [exact H1|reflexivity].
Qed.

Lemma allFromI_spec (n : nat) (i : int) (f : int -> bool) :
  (Uint63.to_Z i + Z.of_nat n <= wB)%Z ->
  allFromI n i f = true ->
  forall j, (Uint63.to_Z i <= Uint63.to_Z j < Uint63.to_Z i + Z.of_nat n)%Z ->
            f j = true.
Proof.
  revert i; induction n as [|n IH]; intros i Hbound H j Hj.
  - simpl in Hj; lia.
  - simpl in H. destruct (f i) eqn:Hi; [|discriminate].
    destruct (Z.eq_dec (Uint63.to_Z j) (Uint63.to_Z i)) as [Heq|Hne].
    + apply Uint63.to_Z_inj in Heq. now subst j.
    + assert (Hnext : Uint63.to_Z (i + 1)%uint63 = (Uint63.to_Z i + 1)%Z).
      { rewrite Uint63.add_spec.
        change (Uint63.to_Z 1%uint63) with 1%Z.
        pose proof (Uint63.to_Z_bounded i). apply Z.mod_small. lia. }
      apply (IH (i + 1)%uint63); [lia|exact H|lia].
Qed.

(** On the whole 8-bit cube the binary64 round trip is exact. *)
Lemma hsl_round_trip_cube :
  allFromI 256 0 (fun r =>
    allFromI 256 0 (fun g =>
      allFromI 256 0 (fun b => roundTripOk r g b))) = true.
Proof. vm_cast_no_check (eq_refl true). Qed.

Lemma hsl_round_trip_exact (r g b : Z) :
  channel r -> channel g -> channel b ->
  (let '(h, s, l) := rgbToHsl (Z2F r) (Z2F g) (Z2F b) in hslToRgb h s l)
  = (r, g, b).
Proof.
  intros Hr Hg Hb.
  pose proof (to_Z_of_Z_channel r Hr) as Er.
  pose proof (to_Z_of_Z_channel g Hg) as Eg.
  pose proof (to_Z_of_Z_channel b Hb) as Eb.
  unfold channel in Hr, Hg, Hb.
  assert (Hw : (Uint63.to_Z 0%uint63 + Z.of_nat 256 <= wB)%Z) by (vm_compute; discriminate).
  assert (H0 : Uint63.to_Z 0%uint63 = 0%Z) by reflexivity.
  pose proof (allFromI_spec _ _ _ Hw hsl_round_trip_cube (Uint63.of_Z r)
                ltac:(rewrite Er, H0; simpl; lia)) as H1.
  pose proof (allFromI_spec _ _ _ Hw H1 (Uint63.of_Z g)
                ltac:(rewrite Eg, H0; simpl; lia)) as H2.
  pose proof (allFromI_spec _ _ _ Hw H2 (Uint63.of_Z b)
                ltac:(rewrite Eb, H0; simpl; lia)) as H3.
  unfold roundTripOk in H3. unfold hslToRgb, Z2F.
  destruct (rgbToHsl _ _ _) as [[h s] l].
  destruct (hslToUnit h s l) as [[ru gu] bu].
  rewrite !andb_true_iff in H3. destruct H3 as ((H3r & H3g) & H3b).
  rewrite (roundsTo_spec _ _ H3r), (roundsTo_spec _ _ H3g), (roundsTo_spec _ _ H3b).
  now rewrite Er, Eg, Eb.
Qed.

(** C8.  For every triple of integer channels in 0..255, [rgbToHsl] followed
    by [hslToRgb] gives each channel back within 1 (in fact exactly). *)
Theorem hsl_round_trip_within_one (r g b : Z) :
  channel r -> channel g -> channel b ->
  let '(h, s, l) := rgbToHsl (Z2F r) (Z2F g) (Z2F b) in
  let '(r', g', b') := hslToRgb h s l in
  (Z.abs (r' - r) <= 1 /\ Z.abs (g' - g) <= 1 /\ Z.abs (b' - b) <= 1)%Z.
Proof.
  intros Hr Hg Hb.
  pose proof (hsl_round_trip_exact r g b Hr Hg Hb) as H.
  destruct (rgbToHsl _ _ _) as [[h s] l]. rewrite H. lia.
Qed.

(** C8 at the triple (51, 102, 153). *)
Lemma hsl_round_trip_within_one_witness :
  channel 51 /\ channel 102 /\ channel 153
  /\ (let '(h, s, l) := rgbToHsl (Z2F 51) (Z2F 102) (Z2F 153) in
      let '(r', g', b') := hslToRgb h s l in
      (Z.abs (r' - 51) <= 1 /\ Z.abs (g' - 102) <= 1 /\ Z.abs (b' - 153) <= 1)%Z).
Proof.
  assert (H1 : channel 51) by (unfold channel; lia).
  assert (H2 : channel 102) by (unfold channel; lia).
  assert (H3 : channel 153) by (unfold channel; lia).
  split; [exact H1|]. split; [exact H2|]. split; [exact H3|].
  exact (hsl_round_trip_within_one 51 102 153 H1 H2 H3).
Defined.

(** ** The earlier revision's fallback *)

Lemma getLuminance_4a5568 : (getLuminance 74 85 104 < 0.15)%R.
Proof.
  unfold getLuminance. rewrite !linearize_power by lra.
  assert (Rpower ((IZR 74 / 255 + 0.055) / 1.055) 2.4 < 0.15)%R
    by (apply Rpower_2_4_lt; lra).
  assert (Rpower ((IZR 85 / 255 + 0.055) / 1.055) 2.4 < 0.15)%R
    by (apply Rpower_2_4_lt; lra).
  assert (Rpower ((IZR 104 / 255 + 0.055) / 1.055) 2.4 < 0.15)%R
    by (apply Rpower_2_4_lt; lra).
  lra.
Qed.

(** In the earlier revision every fallback path (no context, a throw, a clip
    that is not ready) returns the literal with luminance 0.3 for the triple
    (74, 85, 104), whose luminance is below 0.15. *)
Lemma legacy_fallback_luminance_hardcoded (browser : Browser) (video : Video) :
  (readyState video < 2)%Z ->
  snd (Legacy.extractColorFromVideo browser video) = Legacy.fallback
  /\ ~ consistent Legacy.fallback.
Proof.
  intros Hready. split.
  - unfold Legacy.extractColorFromVideo.
    apply Z.ltb_lt in Hready. now rewrite Hready.
  - unfold consistent; simpl. pose proof getLuminance_4a5568. lra.
Qed.

(** ** The boost on the single-region path *)

(** With [enableContrastBoost] on, an entry chosen with luminance below 0.3
    is returned boosted: its HSL lightness becomes [Math.max(l, 0.4)], and
    the channels that come back are clamped to 0..255. *)
Lemma finalColor_boosts (best : ColorData.t) (r g b : Z) :
  ColorData.rgb best = (r, g, b) ->
  (ColorData.luminance best < 0.3)%R ->
  rgb (finalColor best true) = boostColorBrightness r g b 0.4%float
  /\ boostColorBrightness r g b 0.4%float
     = (let '(h, s, l) := rgbToHsl (Z2F r) (Z2F g) (Z2F b) in
        let '(br, bg, bb) := hslToRgb h s (Math_max l 0.4%float) in
        (Z.min 255 (Z.max 0 br), Z.min 255 (Z.max 0 bg),
         Z.min 255 (Z.max 0 bb))).
Proof.
  intros Hrgb Hlum. split; [|reflexivity].
  unfold finalColor. rewrite Hrgb.
  apply Rltb_true in Hlum. rewrite Hlum. cbn [andb].
  now destruct (boostColorBrightness r g b 0.4%float) as [[fr fg] fb].
Qed.

(* ================================================================ *)
(** * Further properties of the code *)

(** ** Hex strings, both ways *)

Lemma hexDigit_range (c : ascii) (d : Z) :
  hexDigit c = Some d -> (0 <= d <= 15)%Z.
Proof.
  unfold hexDigit. set (n := Z.of_nat (nat_of_ascii c)).
  destruct (_ && _) eqn:E1.
  { intros [= <-]. apply andb_prop in E1 as [?%Z.leb_le ?%Z.leb_le]. lia. }
  destruct (_ && _) eqn:E2 in |- *.
  { intros [= <-]. apply andb_prop in E2 as [?%Z.leb_le ?%Z.leb_le]. lia. }
  destruct (_ && _) eqn:E3 in |- *; [|discriminate].
  intros [= <-]. apply andb_prop in E3 as [?%Z.leb_le ?%Z.leb_le]. lia.
Qed.

Lemma parseHexPair_channel (a b : ascii) (n : Z) :
  parseHexPair a b = Some n -> channel n.
Proof.
  unfold parseHexPair.
  destruct (hexDigit a) as [x|] eqn:Ha; [|discriminate].
  destruct (hexDigit b) as [y|] eqn:Hb; [|discriminate].
  intros H. assert (Hn : n = (16 * x + y)%Z) by congruence.
  apply hexDigit_range in Ha. apply hexDigit_range in Hb.
  unfold channel. lia.
Qed.

Lemma hexToRgb_channels (hex : string) (rgb : Z * Z * Z) :
  hexToRgb hex = Some rgb -> channels rgb.
Proof.
  unfold hexToRgb.
  destruct (match hex with String _ _ => _ | _ => _ end)
    as [|c1 [|c2 [|c3 [|c4 [|c5 [|c6 [|]]]]]]]; try discriminate.
  destruct (parseHexPair c1 c2) as [r|] eqn:P1; [|discriminate].
  destruct (parseHexPair c3 c4) as [g|] eqn:P2; [|discriminate].
  destruct (parseHexPair c5 c6) as [b|] eqn:P3; [|discriminate].
  intros H. assert (Hrgb : rgb = (r, g, b)) by congruence. subst rgb.
  repeat split; eapply parseHexPair_channel; eassumption.
Qed.

Lemma toHex_parses (n : Z) :
  channel n ->
  exists a b, toHex n = String a (String b EmptyString)
              /\ parseHexPair a b = Some n.
Proof.
  intros Hn.
  assert (H : toHexParses n = true).
  { assert (Hall : allFrom 256 0 toHexParses = true) by (vm_compute; reflexivity).
    apply (allFrom_spec 256 0 toHexParses Hall). unfold channel in Hn. lia. }
  unfold toHexParses in H.
  destruct (toHex n) as [|a [|b [|]]]; try discriminate.
  destruct (parseHexPair a b) as [m|] eqn:Hp; [|discriminate].
  apply Z.eqb_eq in H. subst m. now exists a, b.
Qed.

Lemma isLowerHexDigit_hexDigit (c : ascii) :
  isLowerHexDigit c = true ->
  exists d, (0 <= d <= 15)%Z /\ hexDigit c = Some d /\ hexChar d = c.
Proof.
  unfold isLowerHexDigit, hexDigit, hexChar.
  pose proof (ascii_nat_embedding c) as Hc.
  set (n := nat_of_ascii c) in *.
  rewrite orb_true_iff, !andb_true_iff, !Nat.leb_le. intros H.
  destruct H as [[H1 H2]|[H1 H2]].
  - exists (Z.of_nat n - 48)%Z.
    replace ((48 <=? Z.of_nat n) && (Z.of_nat n <=? 57))%Z with true
      by (symmetry; apply andb_true_iff; split; apply Z.leb_le; lia).
    replace (Z.of_nat n - 48 <? 10)%Z with true
      by (symmetry; apply Z.ltb_lt; lia).
    replace (48 + (Z.of_nat n - 48))%Z with (Z.of_nat n) by lia.
    rewrite Nat2Z.id. repeat split; try lia; assumption.
  - exists (Z.of_nat n - 87)%Z.
    replace ((48 <=? Z.of_nat n) && (Z.of_nat n <=? 57))%Z with false
      by (symmetry; apply andb_false_iff; right; apply Z.leb_gt; lia).
    replace ((97 <=? Z.of_nat n) && (Z.of_nat n <=? 102))%Z with true
      by (symmetry; apply andb_true_iff; split; apply Z.leb_le; lia).
    replace (Z.of_nat n - 87 <? 10)%Z with false
      by (symmetry; apply Z.ltb_ge; lia).
    replace (87 + (Z.of_nat n - 87))%Z with (Z.of_nat n) by lia.
    rewrite Nat2Z.id. repeat split; try lia; assumption.
Qed.

Lemma toHex_digits (n : Z) :
  channel n ->
  toHex n = String (hexChar (n / 16)) (String (hexChar (n mod 16)) EmptyString).
Proof.
  intros Hn. apply String.eqb_eq. change (toHexDigits n = true).
  assert (Hall : allFrom 256 0 toHexDigits = true) by (vm_compute; reflexivity).
  apply (allFrom_spec 256 0 toHexDigits Hall). unfold channel in Hn. lia.
Qed.

Lemma lowerHexPair_prints (a b : ascii) :
  isLowerHexDigit a = true -> isLowerHexDigit b = true ->
  exists n, parseHexPair a b = Some n
            /\ toHex n = String a (String b EmptyString).
Proof.
  intros Ha Hb.
  destruct (isLowerHexDigit_hexDigit a Ha) as (x & Hx & Dx & Cx).
  destruct (isLowerHexDigit_hexDigit b Hb) as (y & Hy & Dy & Cy).
  exists (16 * x + y)%Z. unfold parseHexPair. rewrite Dx, Dy.
  split; [reflexivity|].
  rewrite toHex_digits by (unfold channel; lia).
  assert (Hq : ((16 * x + y) / 16 = x)%Z)
    by (symmetry; apply (Z.div_unique _ 16 x y); lia).
  assert (Hm : ((16 * x + y) mod 16 = y)%Z)
    by (symmetry; apply (Z.mod_unique _ 16 x y); lia).
  now rewrite Hq, Hm, Cx, Cy.
Qed.

(** X1.  Every colour [rgbToHex] prints from channels is read back by
    [hexToRgb] as the same channels. *)
Theorem hexToRgb_rgbToHex (r g b : Z) :
  channels (r, g, b) -> hexToRgb (rgbToHex r g b) = Some (r, g, b).
Proof.
  intros (Hr & Hg & Hb).
  destruct (toHex_parses r Hr) as (r1 & r2 & Er & Pr).
  destruct (toHex_parses g Hg) as (g1 & g2 & Eg & Pg).
  destruct (toHex_parses b Hb) as (b1 & b2 & Eb & Pb).
  unfold rgbToHex. rewrite Er, Eg, Eb. cbn [append hexToRgb].
  now rewrite Pr, Pg, Pb.
Qed.

Lemma hexToRgb_rgbToHex_witness :
  channels (74, 85, 104)%Z
  /\ hexToRgb (rgbToHex 74 85 104) = Some (74, 85, 104)%Z.
Proof.
  assert (H : channels (74, 85, 104)%Z) by (unfold channels, channel; lia).
  split; [exact H|exact (hexToRgb_rgbToHex 74 85 104 H)].
Defined.

(** X2.  A well-formed hex string is accepted by [hexToRgb], as channels that
    [rgbToHex] prints back as the same string. *)
Theorem rgbToHex_hexToRgb (hex : string) :
  wellFormedHex hex = true ->
  exists r g b, hexToRgb hex = Some (r, g, b)
                /\ channels (r, g, b)
                /\ rgbToHex r g b = hex.
Proof.
  unfold wellFormedHex.
  destruct hex as [|h rest]; [discriminate|].
  destruct (Ascii.eqb_spec h "#"%char) as [->|Hh].
  2:{ destruct h as [[] [] [] [] [] [] [] []]; try discriminate.
      now contradiction Hh. }
  destruct rest as [|a [|b [|c [|d [|e [|f [|]]]]]]]; try discriminate.
  cbn [forallb]. rewrite !andb_true_iff.
  intros (Ha & Hb & Hc & Hd & He & Hf & _).
  destruct (lowerHexPair_prints a b Ha Hb) as (r & Pr & Tr).
  destruct (lowerHexPair_prints c d Hc Hd) as (g & Pg & Tg).
  destruct (lowerHexPair_prints e f He Hf) as (bl & Pb & Tb).
  exists r, g, bl. cbn [hexToRgb]. rewrite Pr, Pg, Pb.
  split; [reflexivity|]. split.
  - repeat split; eapply parseHexPair_channel; eassumption.
  - unfold rgbToHex. now rewrite Tr, Tg, Tb.
Qed.

Lemma rgbToHex_hexToRgb_witness :
  wellFormedHex "#4a5568" = true
  /\ exists r g b, hexToRgb "#4a5568" = Some (r, g, b)
                   /\ channels (r, g, b)
                   /\ rgbToHex r g b = "#4a5568"%string.
Proof.
  split; [reflexivity|exact (rgbToHex_hexToRgb "#4a5568" eq_refl)].
Defined.

(** ** Luminance is increasing *)

Lemma linearize_channel_lt (a b : Z) :
  (0 <= a)%Z -> (a < b)%Z -> (b <= 255)%Z ->
  (linearize (IZR a / 255) < linearize (IZR b / 255))%R.
Proof.
  intros H0 Hab Hb.
  assert (Ha' : (0 <= IZR a)%R) by now apply IZR_le.
  assert (Hab' : (IZR a < IZR b)%R) by now apply IZR_lt.
  assert (Hb' : (IZR b <= 255)%R) by now apply IZR_le.
  destruct (Z_le_gt_dec b 10) as [Hs|Hs].
  - assert (IZR b <= 10)%R by now apply IZR_le.
    unfold linearize.
    destruct (Rle_dec (IZR a / 255) 0.03928); [|lra].
    destruct (Rle_dec (IZR b / 255) 0.03928); lra.
  - assert (H11 : (11 <= IZR b)%R) by (apply IZR_le; lia).
    rewrite (linearize_power (IZR b / 255)) by lra.
    destruct (Z_le_gt_dec a 10) as [Ha|Ha].
    + assert (IZR a <= 10)%R by now apply IZR_le.
      unfold linearize at 1.
      destruct (Rle_dec (IZR a / 255) 0.03928); [|lra].
      apply Rlt_le_trans with (Rpower ((11 / 255 + 0.055) / 1.055) 2.4).
      * apply Rle_lt_trans with 0.00304%R; [lra|].
        apply Rpower_2_4_gt; lra.
      * apply Rle_Rpower_l; lra.
    + assert (11 <= IZR a)%R by (apply IZR_le; lia).
      rewrite (linearize_power (IZR a / 255)) by lra.
      apply Rlt_Rpower_l; lra.
Qed.

Lemma linearize_channel_le (a b : Z) :
  (0 <= a)%Z -> (a <= b)%Z -> (b <= 255)%Z ->
  (linearize (IZR a / 255) <= linearize (IZR b / 255))%R.
Proof.
  intros H0 Hab Hb. destruct (Z.eq_dec a b) as [->|Hne]; [lra|].
  left. apply linearize_channel_lt; lia.
Qed.

Lemma linearize_one : linearize (IZR 255 / 255) = 1%R.
Proof.
  rewrite linearize_power by lra.
  replace ((IZR 255 / 255 + 0.055) / 1.055)%R with 1%R by lra.
  unfold Rpower. rewrite ln_1, Rmult_0_r. apply exp_0.
Qed.

(** X3.  [getLuminance] never decreases when a channel grows, and increases
    when one does. *)
Theorem getLuminance_monotone (r g b r' g' b' : Z) :
  channels (r, g, b) -> channels (r', g', b') ->
  (r <= r')%Z -> (g <= g')%Z -> (b <= b')%Z ->
  (getLuminance r g b <= getLuminance r' g' b')%R
  /\ ((r, g, b) <> (r', g', b') ->
      (getLuminance r g b < getLuminance r' g' b')%R).
Proof.
  intros (Hr & Hg & Hb) (Hr' & Hg' & Hb') Lr Lg Lb. unfold channel in *.
  pose proof (linearize_channel_le r r' ltac:(lia) Lr ltac:(lia)) as Er.
  pose proof (linearize_channel_le g g' ltac:(lia) Lg ltac:(lia)) as Eg.
  pose proof (linearize_channel_le b b' ltac:(lia) Lb ltac:(lia)) as Eb.
  unfold getLuminance. split; [lra|]. intros Hne.
  destruct (Z.eq_dec r r') as [<-|Nr].
  - destruct (Z.eq_dec g g') as [<-|Ng].
    + destruct (Z.eq_dec b b') as [<-|Nb]; [now contradiction Hne|].
      pose proof (linearize_channel_lt b b' ltac:(lia) ltac:(lia) ltac:(lia)).
      lra.
    + pose proof (linearize_channel_lt g g' ltac:(lia) ltac:(lia) ltac:(lia)).
      lra.
  - pose proof (linearize_channel_lt r r' ltac:(lia) ltac:(lia) ltac:(lia)).
    lra.
Qed.

Lemma getLuminance_monotone_witness :
  (getLuminance 0 24 48 < getLuminance 0 24 72)%R.
Proof.
  apply (getLuminance_monotone 0 24 48 0 24 72);
    unfold channels, channel; try lia.
  intros H; discriminate H.
Defined.

Lemma getLuminance_black : getLuminance 0 0 0 = 0%R.
Proof. unfold getLuminance. rewrite linearize_zero. lra. Qed.

Lemma getLuminance_white : getLuminance 255 255 255 = 1%R.
Proof. unfold getLuminance. rewrite linearize_one. lra. Qed.

(** X4.  Among channel triples, luminance 0 is black alone and luminance 1 is
    white alone. *)
Theorem getLuminance_extremes (r g b : Z) :
  channels (r, g, b) ->
  (getLuminance r g b = 0%R <-> (r, g, b) = (0, 0, 0)%Z)
  /\ (getLuminance r g b = 1%R <-> (r, g, b) = (255, 255, 255)%Z).
Proof.
  intros (Hr & Hg & Hb). unfold channel in *.
  pose proof (linearize_channel_le 0 r ltac:(lia) ltac:(lia) ltac:(lia)) as R0.
  pose proof (linearize_channel_le 0 g ltac:(lia) ltac:(lia) ltac:(lia)) as G0.
  pose proof (linearize_channel_le 0 b ltac:(lia) ltac:(lia) ltac:(lia)) as B0.
  pose proof (linearize_channel_le r 255 ltac:(lia) ltac:(lia) ltac:(lia)) as R1.
  pose proof (linearize_channel_le g 255 ltac:(lia) ltac:(lia) ltac:(lia)) as G1.
  pose proof (linearize_channel_le b 255 ltac:(lia) ltac:(lia) ltac:(lia)) as B1.
  rewrite linearize_zero in R0, G0, B0. rewrite linearize_one in R1, G1, B1.
  split; split.
  - intros H. unfold getLuminance in H.
    assert (r = 0%Z).
    { destruct (Z.eq_dec r 0) as [|N]; [assumption|exfalso].
      pose proof (linearize_channel_lt 0 r ltac:(lia) ltac:(lia) ltac:(lia)) as L.
      rewrite linearize_zero in L. lra. }
    assert (g = 0%Z).
    { destruct (Z.eq_dec g 0) as [|N]; [assumption|exfalso].
      pose proof (linearize_channel_lt 0 g ltac:(lia) ltac:(lia) ltac:(lia)) as L.
      rewrite linearize_zero in L. lra. }
    assert (b = 0%Z).
    { destruct (Z.eq_dec b 0) as [|N]; [assumption|exfalso].
      pose proof (linearize_channel_lt 0 b ltac:(lia) ltac:(lia) ltac:(lia)) as L.
      rewrite linearize_zero in L. lra. }
    congruence.
  - intros [= -> -> ->]. apply getLuminance_black.
  - intros H. unfold getLuminance in H.
    assert (r = 255%Z).
    { destruct (Z.eq_dec r 255) as [|N]; [assumption|exfalso].
      pose proof (linearize_channel_lt r 255 ltac:(lia) ltac:(lia) ltac:(lia)) as L.
      rewrite linearize_one in L. lra. }
    assert (g = 255%Z).
    { destruct (Z.eq_dec g 255) as [|N]; [assumption|exfalso].
      pose proof (linearize_channel_lt g 255 ltac:(lia) ltac:(lia) ltac:(lia)) as L.
      rewrite linearize_one in L. lra. }
    assert (b = 255%Z).
    { destruct (Z.eq_dec b 255) as [|N]; [assumption|exfalso].
      pose proof (linearize_channel_lt b 255 ltac:(lia) ltac:(lia) ltac:(lia)) as L.
      rewrite linearize_one in L. lra. }
    congruence.
  - intros [= -> -> ->]. apply getLuminance_white.
Qed.

Lemma getLuminance_extremes_witness :
  getLuminance 0 0 0 = 0%R <-> (0, 0, 0)%Z = (0, 0, 0)%Z.
Proof.
  apply (getLuminance_extremes 0 0 0). unfold channels, channel. lia.
Defined.

(** ** Contrast ratios *)

Lemma div_between (a b lo hi : R) :
  (0 < b)%R -> (lo * b <= a)%R -> (a <= hi * b)%R -> (lo <= a / b <= hi)%R.
Proof.
  intros Hb Hlo Hhi.
  assert (Hi : (0 < / b)%R) by now apply Rinv_0_lt_compat.
  unfold Rdiv. split.
  - replace lo with (lo * b * / b)%R by (field; lra).
    apply Rmult_le_compat_r; lra.
  - replace hi with (hi * b * / b)%R by (field; lra).
    apply Rmult_le_compat_r; lra.
Qed.

(** The ratio of two luminances in [0, 1]. *)
Lemma ratio_bounds (x y : R) :
  (0 <= x <= 1)%R -> (0 <= y <= 1)%R ->
  (1 <= (Rmax x y + 0.05) / (Rmin x y + 0.05) <= 21)%R.
Proof.
  intros Hx Hy. unfold Rmax, Rmin.
  destruct (Rle_dec x y); apply div_between; lra.
Qed.

(** X5.  The contrast ratio of colorUtils.ts is symmetric, lies between 1 and
    21 on channel triples, and is 1 for a colour against itself. *)
Theorem ColorUtils_getContrastRatio_bounds (color1 color2 : Z * Z * Z) :
  channels color1 -> channels color2 ->
  (1 <= ColorUtils.getContrastRatio color1 color2 <= 21)%R
  /\ ColorUtils.getContrastRatio color1 color2
     = ColorUtils.getContrastRatio color2 color1
  /\ ColorUtils.getContrastRatio color1 color1 = 1%R.
Proof.
  destruct color1 as [[r1 g1] b1], color2 as [[r2 g2] b2].
  intros (Hr1 & Hg1 & Hb1) (Hr2 & Hg2 & Hb2).
  pose proof (getLuminance_bounds r1 g1 b1 Hr1 Hg1 Hb1) as L1.
  pose proof (getLuminance_bounds r2 g2 b2 Hr2 Hg2 Hb2) as L2.
  unfold ColorUtils.getContrastRatio. cbv zeta.
  split; [now apply ratio_bounds|]. split.
  - now rewrite Rmax_comm, Rmin_comm.
  - unfold Rmax, Rmin. destruct (Rle_dec _ _); field; lra.
Qed.

Lemma ColorUtils_getContrastRatio_bounds_witness :
  (1 <= ColorUtils.getContrastRatio (74, 85, 104)%Z (255, 255, 255)%Z <= 21)%R.
Proof.
  apply (ColorUtils_getContrastRatio_bounds (74, 85, 104)%Z (255, 255, 255)%Z);
    unfold channels, channel; lia.
Defined.

(** X6.  [getHighContrastColor] answers white for a string that is no hex
    colour; for a hex colour it answers black or white, and the answer's
    contrast with the background is at least 21/11. *)
Theorem getHighContrastColor_contrast (backgroundHex : string) :
  match hexToRgb backgroundHex with
  | None => ColorUtils.getHighContrastColor backgroundHex = "#ffffff"%string
  | Some background =>
      exists text,
        hexToRgb (ColorUtils.getHighContrastColor backgroundHex) = Some text
        /\ (text = (255, 255, 255)%Z \/ text = (0, 0, 0)%Z)
        /\ (21 / 11 <= ColorUtils.getContrastRatio background text)%R
  end.
Proof.
  unfold ColorUtils.getHighContrastColor.
  destruct (hexToRgb backgroundHex) as [[[r g] b]|] eqn:Hp; [|reflexivity].
  pose proof (hexToRgb_channels backgroundHex (r, g, b) Hp) as Hc.
  destruct Hc as (Hr & Hg & Hb).
  pose proof (getLuminance_bounds r g b Hr Hg Hb) as L.
  unfold ColorUtils.isDarkColor. cbv zeta.
  destruct (Rltb (getLuminance r g b) 0.5) eqn:Hd.
  - apply Rltb_true in Hd. exists (255, 255, 255)%Z.
    split; [reflexivity|]. split; [now left|].
    unfold ColorUtils.getContrastRatio. cbv zeta.
    rewrite getLuminance_white.
    rewrite Rmax_right, Rmin_left by lra.
    refine (proj1 (div_between _ _ (21 / 11) 21 _ _ _)); lra.
  - apply Rltb_false in Hd. exists (0, 0, 0)%Z.
    split; [reflexivity|]. split; [now right|].
    unfold ColorUtils.getContrastRatio. cbv zeta.
    rewrite getLuminance_black.
    rewrite Rmax_left, Rmin_right by lra.
    refine (proj1 (div_between _ _ (21 / 11) 21 _ _ _)); lra.
Qed.

(** ** Colour strings read by [parseInt] *)

Lemma hexDigit_code (c : ascii) (d : Z) :
  hexDigit c = Some d ->
  (48 <= nat_of_ascii c <= 57 \/ 97 <= nat_of_ascii c <= 102
   \/ 65 <= nat_of_ascii c <= 70)%nat.
Proof.
  unfold hexDigit. set (n := Z.of_nat (nat_of_ascii c)).
  destruct (_ && _) eqn:E1.
  { intros _. apply andb_prop in E1 as [?%Z.leb_le ?%Z.leb_le]. lia. }
  destruct (_ && _) eqn:E2 in |- *.
  { intros _. apply andb_prop in E2 as [?%Z.leb_le ?%Z.leb_le]. lia. }
  destruct (_ && _) eqn:E3 in |- *; [|discriminate].
  intros _. apply andb_prop in E3 as [?%Z.leb_le ?%Z.leb_le]. lia.
Qed.

Lemma hexDigit_neq (c k : ascii) (d : Z) :
  hexDigit c = Some d -> hexDigit k = None -> Ascii.eqb c k = false.
Proof.
  intros Hc Hk. destruct (Ascii.eqb_spec c k) as [->|]; congruence.
Qed.

Lemma hexDigit_not_space (c : ascii) (d : Z) :
  hexDigit c = Some d -> isWhiteSpace c = false.
Proof.
  intros H. apply hexDigit_code in H. unfold isWhiteSpace.
  set (n := nat_of_ascii c) in *.
  repeat (apply orb_false_iff; split); apply Nat.eqb_neq; lia.
Qed.

Lemma parseInt16_pair (a b : ascii) (x y : Z) :
  hexDigit a = Some x -> hexDigit b = Some y ->
  parseInt16 (String a (String b EmptyString)) = Some (16 * x + y)%Z.
Proof.
  intros Ha Hb. unfold parseInt16. cbn [trimStart].
  rewrite (hexDigit_not_space a x Ha). unfold stripSign.
  rewrite (hexDigit_neq a "-" x Ha eq_refl), (hexDigit_neq a "+" x Ha eq_refl).
  unfold stripPrefix.
  rewrite (hexDigit_neq b "x" y Hb eq_refl), (hexDigit_neq b "X" y Hb eq_refl).
  rewrite andb_false_r. cbn [digitPrefix]. rewrite Ha, Hb.
  replace (16 * 0 + x)%Z with x by lia. reflexivity.
Qed.

Lemma parseInt16_parseHexPair (a b : ascii) (n : Z) :
  parseHexPair a b = Some n ->
  parseInt16 (String a (String b EmptyString)) = Some n.
Proof.
  unfold parseHexPair.
  destruct (hexDigit a) as [x|] eqn:Ha; [|discriminate].
  destruct (hexDigit b) as [y|] eqn:Hb; [|discriminate].
  intros H. rewrite (parseInt16_pair a b x y Ha Hb). congruence.
Qed.

Lemma parseHexPair_no_hash (a b : ascii) (n : Z) :
  parseHexPair a b = Some n ->
  Ascii.eqb a "#" = false /\ Ascii.eqb b "#" = false.
Proof.
  unfold parseHexPair.
  destruct (hexDigit a) as [x|] eqn:Ha; [|discriminate].
  destruct (hexDigit b) as [y|] eqn:Hb; [|discriminate].
  intros _. split; eapply hexDigit_neq; try eassumption; reflexivity.
Qed.

(** A string [hexToRgb] accepts is read by [getContrastRatio] as the same
    channels. *)
Lemma parseChannels_hexToRgb (color : string) (r g b : Z) :
  hexToRgb color = Some (r, g, b) ->
  parseChannels color = (Some r, Some g, Some b).
Proof.
  intros H.
  assert (Hbody : exists c1 c2 c3 c4 c5 c6,
             removeHash color
             = String c1 (String c2 (String c3 (String c4 (String c5
                 (String c6 EmptyString)))))
             /\ parseHexPair c1 c2 = Some r
             /\ parseHexPair c3 c4 = Some g
             /\ parseHexPair c5 c6 = Some b).
  { revert H. unfold hexToRgb.
    destruct color as [|h rest]; [discriminate|].
    destruct (Ascii.eqb_spec h "#"%char) as [->|Hh].
    - destruct rest as [|c1 [|c2 [|c3 [|c4 [|c5 [|c6 [|]]]]]]];
        try discriminate.
      destruct (parseHexPair c1 c2) as [r'|] eqn:P1; [|discriminate].
      destruct (parseHexPair c3 c4) as [g'|] eqn:P2; [|discriminate].
      destruct (parseHexPair c5 c6) as [b'|] eqn:P3; [|discriminate].
      intros E. exists c1, c2, c3, c4, c5, c6.
      split; [reflexivity|]. repeat split; congruence.
    - assert (Hm : match String h rest with
                   | String "#"%char rest' => rest'
                   | _ => String h rest
                   end = String h rest).
      { destruct h as [[] [] [] [] [] [] [] []]; try reflexivity.
        now contradiction Hh. }
      rewrite Hm.
      destruct rest as [|c2 [|c3 [|c4 [|c5 [|c6 [|]]]]]]; try discriminate.
      destruct (parseHexPair h c2) as [r'|] eqn:P1; [|discriminate].
      destruct (parseHexPair c3 c4) as [g'|] eqn:P2; [|discriminate].
      destruct (parseHexPair c5 c6) as [b'|] eqn:P3; [|discriminate].
      intros E. exists h, c2, c3, c4, c5, c6.
      destruct (parseHexPair_no_hash _ _ _ P1) as [N1 N2].
      destruct (parseHexPair_no_hash _ _ _ P2) as [N3 N4].
      destruct (parseHexPair_no_hash _ _ _ P3) as [N5 N6].
      split; [cbn [removeHash]; now rewrite N1, N2, N3, N4, N5, N6|].
      repeat split; congruence. }
  destruct Hbody as (c1 & c2 & c3 & c4 & c5 & c6 & E & P1 & P2 & P3).
  unfold parseChannels. rewrite E. unfold substr. cbn [substring].
  now rewrite (parseInt16_parseHexPair _ _ _ P1),
    (parseInt16_parseHexPair _ _ _ P2), (parseInt16_parseHexPair _ _ _ P3).
Qed.

(** X7.  On strings [hexToRgb] accepts, the contrast ratio computed from
    strings is the one colorUtils.ts computes from their channels. *)
Theorem getContrastRatio_agree (color1 color2 : string) (rgb1 rgb2 : Z * Z * Z) :
  hexToRgb color1 = Some rgb1 -> hexToRgb color2 = Some rgb2 ->
  getContrastRatio color1 color2
  = Some (ColorUtils.getContrastRatio rgb1 rgb2).
Proof.
  destruct rgb1 as [[r1 g1] b1], rgb2 as [[r2 g2] b2]. intros H1 H2.
  unfold getContrastRatio.
  rewrite (parseChannels_hexToRgb _ _ _ _ H1),
    (parseChannels_hexToRgb _ _ _ _ H2).
  reflexivity.
Qed.

Lemma getContrastRatio_agree_witness :
  getContrastRatio "#4a5568" "FFFFFF"
  = Some (ColorUtils.getContrastRatio (74, 85, 104)%Z (255, 255, 255)%Z).
Proof.
  exact (getContrastRatio_agree "#4a5568" "FFFFFF" (74, 85, 104)%Z
           (255, 255, 255)%Z eq_refl eq_refl).
Defined.

(** ** Text colour *)

Lemma contrast_with_white (color : string) (r g b : Z) :
  hexToRgb color = Some (r, g, b) ->
  getContrastRatio color "#ffffff"
  = Some ((1 + 0.05) / (getLuminance r g b + 0.05))%R.
Proof.
  intros H.
  destruct (hexToRgb_channels _ _ H) as (Hr & Hg & Hb).
  pose proof (getLuminance_bounds r g b Hr Hg Hb) as L.
  unfold getContrastRatio. rewrite (parseChannels_hexToRgb _ _ _ _ H).
  change (parseChannels "#ffffff") with (Some 255%Z, Some 255%Z, Some 255%Z).
  cbv iota beta zeta. unfold getLuminanceNum.
  rewrite getLuminance_white. now rewrite Rmax_right, Rmin_left by lra.
Qed.

Lemma contrast_with_black (color : string) (r g b : Z) :
  hexToRgb color = Some (r, g, b) ->
  getContrastRatio color "#000000"
  = Some ((getLuminance r g b + 0.05) / (0 + 0.05))%R.
Proof.
  intros H.
  destruct (hexToRgb_channels _ _ H) as (Hr & Hg & Hb).
  pose proof (getLuminance_bounds r g b Hr Hg Hb) as L.
  unfold getContrastRatio. rewrite (parseChannels_hexToRgb _ _ _ _ H).
  change (parseChannels "#000000") with (Some 0%Z, Some 0%Z, Some 0%Z).
  cbv iota beta zeta. unfold getLuminanceNum.
  rewrite getLuminance_black. now rewrite Rmax_left, Rmin_right by lra.
Qed.

(** X8.  For a background [hexToRgb] accepts, [generateTextColor] answers
    white or black, whichever contrasts more with the background (black on
    a tie); the two ratios multiply to 21, so the answer's is above 4.5. *)
Theorem generateTextColor_best (backgroundColor : string) (rgb : Z * Z * Z) :
  hexToRgb backgroundColor = Some rgb ->
  exists white black : R,
    getContrastRatio backgroundColor "#ffffff" = Some white
    /\ getContrastRatio backgroundColor "#000000" = Some black
    /\ (white * black = 21)%R
    /\ generateTextColor backgroundColor
       = (if Rltb black white then "#ffffff" else "#000000")%string
    /\ getContrastRatio backgroundColor (generateTextColor backgroundColor)
       = Some (Rmax white black)
    /\ (4.5 < Rmax white black)%R.
Proof.
  destruct rgb as [[r g] b]. intros H.
  destruct (hexToRgb_channels _ _ H) as (Hr & Hg & Hb).
  pose proof (getLuminance_bounds r g b Hr Hg Hb) as L.
  set (l := getLuminance r g b) in *.
  pose proof (contrast_with_white _ _ _ _ H) as Hw.
  pose proof (contrast_with_black _ _ _ _ H) as Hk.
  fold l in Hw, Hk.
  set (w := ((1 + 0.05) / (l + 0.05))%R) in *.
  set (k := ((l + 0.05) / (0 + 0.05))%R) in *.
  assert (Hwk : (w * k = 21)%R).
  { unfold w, k.
    replace (1 + 0.05)%R with (21 / 20)%R by lra.
    replace (0 + 0.05)%R with (1 / 20)%R by lra.
    assert (Hd : (l + 0.05 <> 0)%R) by lra.
    revert Hd. generalize (l + 0.05)%R. intros d Hd. now field. }
  assert (Hwpos : (1 <= w <= 21)%R) by (unfold w; apply div_between; lra).
  assert (Hkpos : (1 <= k <= 21)%R) by (unfold k; apply div_between; lra).
  assert (Hgen : generateTextColor backgroundColor
                 = (if Rltb k w then "#ffffff" else "#000000")%string).
  { unfold generateTextColor. rewrite Hw, Hk. unfold geNum, gtNum.
    destruct (Rle_dec 7 w) as [H7|H7].
    - assert (k < w)%R by nra.
      now replace (Rltb k w) with true by (symmetry; now apply Rltb_true).
    - destruct (Rle_dec 7 k) as [H7k|H7k]; [|reflexivity].
      assert (w <= k)%R by nra.
      now replace (Rltb k w) with false by (symmetry; now apply Rltb_false). }
  exists w, k. repeat split; try assumption.
  - rewrite Hgen. destruct (Rltb k w) eqn:E.
    + apply Rltb_true in E. rewrite Hw. now rewrite Rmax_left by lra.
    + apply Rltb_false in E. rewrite Hk. now rewrite Rmax_right by lra.
  - unfold Rmax. destruct (Rle_dec w k); nra.
Qed.

Lemma generateTextColor_best_witness :
  exists white black : R,
    getContrastRatio "#4a5568" "#ffffff" = Some white
    /\ getContrastRatio "#4a5568" "#000000" = Some black
    /\ (white * black = 21)%R
    /\ generateTextColor "#4a5568"
       = (if Rltb black white then "#ffffff" else "#000000")%string
    /\ getContrastRatio "#4a5568" (generateTextColor "#4a5568")
       = Some (Rmax white black)
    /\ (4.5 < Rmax white black)%R.
Proof.
  exact (generateTextColor_best "#4a5568" (74, 85, 104)%Z eq_refl).
Defined.

(** X9.  A colour string with fewer than five characters besides its first
    ['#'], such as the short form [#rgb], has no blue channel for
    [parseInt]; every comparison is then false and the answer is black. *)
Theorem generateTextColor_short (backgroundColor : string) :
  (String.length (removeHash backgroundColor) <= 4)%nat ->
  getContrastRatio backgroundColor "#ffffff" = None
  /\ generateTextColor backgroundColor = "#000000"%string.
Proof.
  intros Hlen.
  assert (Hnan : forall other, getContrastRatio backgroundColor other = None).
  { intros other. unfold getContrastRatio, parseChannels.
    assert (Hb : substr (removeHash backgroundColor) 4 2 = EmptyString).
    { unfold substr.
      destruct (removeHash backgroundColor) as [|c1 [|c2 [|c3 [|c4 [|c5 s]]]]];
        try reflexivity. simpl in Hlen. lia. }
    rewrite Hb. change (parseInt16 EmptyString) with (@None Z).
    destruct (parseInt16 (substr (removeHash backgroundColor) 0 2));
      destruct (parseInt16 (substr (removeHash backgroundColor) 2 2));
      reflexivity. }
  split; [apply Hnan|].
  unfold generateTextColor. now rewrite !Hnan.
Qed.

Lemma generateTextColor_short_witness :
  getContrastRatio "#000" "#ffffff" = None
  /\ generateTextColor "#000" = "#000000"%string.
Proof.
  apply (generateTextColor_short "#000"). simpl. lia.
Defined.

(** ** Size and counts of the frequency table *)

Lemma quantize_bucket (c : Z) : channel c -> In (quantize c) buckets.
Proof.
  intros Hc. rewrite (quantize_channel c Hc). unfold channel in Hc.
  assert (H0 : (0 <= c / 24)%Z) by (apply Z.div_pos; lia).
  assert (H1 : (c / 24 < 11)%Z) by (apply Z.div_lt_upper_bound; lia).
  unfold buckets. apply in_map_iff. exists (Z.to_nat (c / 24)). split.
  - now rewrite Z2Nat.id.
  - apply in_seq. lia.
Qed.

Lemma has_true (m : ColorMap) (key : string) :
  has m key = true <-> In key (map fst m).
Proof.
  unfold has. rewrite existsb_exists, in_map_iff. split.
  - intros ([k c] & Hin & He). apply String.eqb_eq in He.
    exists (k, c). now split.
  - intros ([k c] & He & Hin). exists (k, c). split; [assumption|].
    now apply String.eqb_eq.
Qed.

Lemma incrementCount_keys (m : ColorMap) (key : string) :
  map fst (incrementCount m key) = map fst m.
Proof.
  unfold incrementCount. rewrite map_map. apply map_ext.
  intros [k c]; simpl. now destruct (String.eqb k key).
Qed.

Lemma scanStep_keyed (data : list Byte.byte) (ignoreBlack : bool)
  (m : ColorMap) (i : nat) :
  keyed m -> keyed (scanStep data ignoreBlack m i).
Proof.
  intros [Hnd Hall]. unfold scanStep.
  destruct (_ <? 128)%Z; [now split|].
  destruct (_ && _ && _ && _); [now split|].
  destruct (has m _) eqn:Hhas.
  - split; [now rewrite incrementCount_keys|].
    unfold incrementCount. apply Forall_map.
    eapply Forall_impl; [|exact Hall].
    intros [k c] Hc. cbn [fst snd] in *.
    destruct (String.eqb k _); cbn [fst snd ColorData.rgb]; exact Hc.
  - unfold set. split.
    + rewrite map_app. simpl. apply NoDup_app.
      * exact Hnd.
      * constructor; [intros []|constructor].
      * intros k Hk [<-|[]].
        apply has_true in Hk. congruence.
    + apply Forall_app. split; [exact Hall|].
      constructor; [|constructor]. cbn [fst snd ColorData.rgb].
      split; [reflexivity|].
      unfold bucketTriples.
      repeat (apply in_prod); apply quantize_bucket, byteAt_channel.
Qed.

Lemma totalCount_app (m m' : ColorMap) :
  totalCount (m ++ m') = (totalCount m + totalCount m')%Z.
Proof.
  unfold totalCount. induction m as [|e m IH]; simpl; [reflexivity|].
  rewrite IH. lia.
Qed.

Lemma incrementCount_absent (m : ColorMap) (key : string) :
  ~ In key (map fst m) -> incrementCount m key = m.
Proof.
  induction m as [|[k c] m IH]; simpl; intros Hn; [reflexivity|].
  destruct (String.eqb_spec k key) as [->|Hne]; [tauto|].
  f_equal. apply IH. tauto.
Qed.

Lemma incrementCount_total (m : ColorMap) (key : string) :
  NoDup (map fst m) -> In key (map fst m) ->
  totalCount (incrementCount m key) = (totalCount m + 1)%Z.
Proof.
  induction m as [|[k c] m IH]; simpl; intros Hnd Hin; [contradiction|].
  inversion Hnd as [|? ? Hk Hnd']; subst.
  destruct (String.eqb_spec k key) as [->|Hne].
  - fold (incrementCount m key). rewrite (incrementCount_absent m key Hk).
    unfold totalCount. cbn [fold_right snd ColorData.count]. lia.
  - destruct Hin as [->|Hin]; [congruence|].
    fold (incrementCount m key).
    change (totalCount ((k, c) :: incrementCount m key))
      with (ColorData.count c + totalCount (incrementCount m key))%Z.
    rewrite (IH Hnd' Hin).
    change (totalCount ((k, c) :: m)) with (ColorData.count c + totalCount m)%Z.
    cbn [snd]. lia.
Qed.

Lemma scanStep_total (data : list Byte.byte) (ignoreBlack : bool)
  (m : ColorMap) (i : nat) :
  keyed m ->
  totalCount (scanStep data ignoreBlack m i)
  = (totalCount m + if counted data ignoreBlack i then 1 else 0)%Z.
Proof.
  intros [Hnd _]. unfold scanStep, counted.
  destruct (_ <? 128)%Z; simpl; [lia|].
  destruct (_ && _ && _ && _); simpl; [lia|].
  destruct (has m _) eqn:Hhas.
  - apply has_true in Hhas. now apply incrementCount_total.
  - unfold set. rewrite totalCount_app. reflexivity.
Qed.

Lemma scan_fold (data : list Byte.byte) (ignoreBlack : bool)
  (indices : list nat) (m : ColorMap) :
  keyed m ->
  keyed (fold_left (scanStep data ignoreBlack) indices m)
  /\ totalCount (fold_left (scanStep data ignoreBlack) indices m)
     = (totalCount m
        + Z.of_nat (List.length (filter (counted data ignoreBlack) indices)))%Z.
Proof.
  revert m. induction indices as [|i indices IH]; intros m Hm; simpl.
  - split; [assumption|lia].
  - destruct (IH _ (scanStep_keyed data ignoreBlack m i Hm)) as [Hk Ht].
    split; [assumption|]. rewrite Ht, (scanStep_total _ _ _ _ Hm).
    destruct (counted data ignoreBlack i); simpl List.length; lia.
Qed.

Lemma keyed_nil : keyed [].
Proof. split; constructor. Qed.

(** X10.  The table [scanPixels] builds has one entry per key, every entry
    holds a triple of quantized channels under the key of that triple, the
    table has at most 11 * 11 * 11 entries whatever the image, and the counts
    add up to the number of samples that passed the alpha and black
    filters. *)
Theorem scanPixels_table (data : list Byte.byte) (ignoreBlackBackground : bool) :
  let colorMap := scanPixels data ignoreBlackBackground in
  keyed colorMap
  /\ (List.length colorMap <= 1331)%nat
  /\ totalCount colorMap
     = Z.of_nat (List.length (filter (counted data ignoreBlackBackground)
                                (loopIndices (List.length data)))).
Proof.
  intros colorMap.
  destruct (scan_fold data ignoreBlackBackground
              (loopIndices (List.length data)) [] keyed_nil) as [Hk Ht].
  fold (scanPixels data ignoreBlackBackground) in Hk, Ht. fold colorMap in Hk, Ht.
  split; [exact Hk|]. split; [|exact Ht].
  destruct Hk as [Hnd Hall].
  set (rgbOf := fun e : string * ColorData.t => ColorData.rgb (snd e)).
  set (keyOf := fun c : Z * Z * Z => let '(r, g, b) := c in colorKey r g b).
  assert (Hkeys : map fst colorMap = map keyOf (map rgbOf colorMap)).
  { rewrite map_map. apply map_ext_in. intros [k c] Hin.
    rewrite Forall_forall in Hall. specialize (Hall _ Hin).
    unfold rgbOf, keyOf. cbn [fst snd] in *.
    destruct (ColorData.rgb c) as [[r g] b]. tauto. }
  rewrite Hkeys in Hnd. apply NoDup_map_inv in Hnd.
  assert (Hincl : incl (map rgbOf colorMap) bucketTriples).
  { intros c Hc. apply in_map_iff in Hc as ([k e] & <- & Hin).
    rewrite Forall_forall in Hall. specialize (Hall _ Hin).
    unfold rgbOf. cbn [fst snd] in *.
    destruct (ColorData.rgb e) as [[r g] b]. tauto. }
  pose proof (NoDup_incl_length Hnd Hincl) as Hlen.
  rewrite length_map in Hlen.
  replace (List.length bucketTriples) with 1331%nat in Hlen
    by (vm_compute; reflexivity).
  exact Hlen.
Qed.

(** ** Ties in [findOptimalColor] *)

(** X11.  The entry [findOptimalColor] returns is the first of the table, in
    insertion order, that reaches the highest score inside the band: every
    entry of the band before it scores strictly less, every one after it
    scores no more. *)
Theorem findOptimalColor_first (colorMap : ColorMap)
  (minLuminance maxLuminance : R) (enableContrastBoost : bool)
  (best : ColorData.t) :
  findOptimalColor colorMap minLuminance maxLuminance enableContrastBoost
  = Some best ->
  exists before key after,
    colorMap = before ++ (key, best) :: after
    /\ inRange minLuminance maxLuminance best
    /\ (forall c, In c (map snd before) ->
                  inRange minLuminance maxLuminance c ->
                  (totalScore c < totalScore best)%R)
    /\ (forall c, In c (map snd after) ->
                  inRange minLuminance maxLuminance c ->
                  (totalScore c <= totalScore best)%R).
Proof.
  unfold findOptimalColor.
  set (step := fun (best : option ColorData.t * R) (entry : string * ColorData.t) =>
                 let (bestColor, bestScore) := best in
                 let colorData := snd entry in
                 if outsideRange minLuminance maxLuminance colorData then best
                 else
                   let totalScore := totalScore colorData in
                   if Rltb bestScore totalScore then (Some colorData, totalScore)
                   else best).
  assert (Inv : forall l,
             let st := fold_left step l (None, 0%R) in
             (forall c, In c (map snd l) ->
                        inRange minLuminance maxLuminance c ->
                        (totalScore c <= snd st)%R)
             /\ match fst st with
                | None => True
                | Some b =>
                    exists before key after,
                      l = before ++ (key, b) :: after
                      /\ inRange minLuminance maxLuminance b
                      /\ totalScore b = snd st
                      /\ (forall c, In c (map snd before) ->
                                    inRange minLuminance maxLuminance c ->
                                    (totalScore c < totalScore b)%R)
                      /\ (forall c, In c (map snd after) ->
                                    inRange minLuminance maxLuminance c ->
                                    (totalScore c <= totalScore b)%R)
                end).
  { induction l as [|e l IH] using rev_ind.
    - simpl. split; [intros c []|exact I].
    - cbv zeta in IH |- *. rewrite fold_left_snoc.
      destruct (fold_left step l (None, 0%R)) as [cur bs] eqn:Hst.
      cbn [fst snd] in IH. destruct IH as [Hmax Hcur].
      unfold step. cbv beta iota zeta.
      destruct (outsideRange minLuminance maxLuminance (snd e)) eqn:Hout.
      + cbn [fst snd]. split.
        * intros c Hc Hin. rewrite map_app in Hc. apply in_app_or in Hc.
          destruct Hc as [Hc|[<-|[]]]; [now apply Hmax|].
          apply outsideRange_false in Hin. congruence.
        * destruct cur as [b|]; [|exact I].
          destruct Hcur as (before & key & after & -> & Hr & Hs & Hb & Ha).
          exists before, key, (after ++ [e]).
          split; [now rewrite <- app_assoc|]. repeat split; try assumption;
            try apply Hr.
          intros c Hc Hin. rewrite map_app in Hc. apply in_app_or in Hc.
          destruct Hc as [Hc|[<-|[]]]; [now apply Ha|].
          apply outsideRange_false in Hin. congruence.
      + apply outsideRange_false in Hout.
        destruct (Rltb bs (totalScore (snd e))) eqn:Hlt; cbn [fst snd].
        * apply Rltb_true in Hlt. split.
          -- intros c Hc Hin. rewrite map_app in Hc. apply in_app_or in Hc.
             destruct Hc as [Hc|[<-|[]]]; [|lra].
             specialize (Hmax c Hc Hin). lra.
          -- exists l, (fst e), []. destruct e as [k c]; cbn [fst snd] in *.
             repeat split; try apply Hout.
             ++ intros c' Hc Hin. specialize (Hmax c' Hc Hin). lra.
             ++ intros c' [].
        * apply Rltb_false in Hlt. split.
          -- intros c Hc Hin. rewrite map_app in Hc. apply in_app_or in Hc.
             destruct Hc as [Hc|[<-|[]]]; [now apply Hmax|exact Hlt].
          -- destruct cur as [b|]; [|exact I].
             destruct Hcur as (before & key & after & -> & Hr & Hs & Hb & Ha).
             exists before, key, (after ++ [e]).
             split; [now rewrite <- app_assoc|].
             repeat split; try assumption; try apply Hr.
             intros c Hc Hin. rewrite map_app in Hc. apply in_app_or in Hc.
             destruct Hc as [Hc|[<-|[]]]; [now apply Ha|lra]. }
  intros H. destruct (Inv colorMap) as [_ Hb]. cbv zeta in Hb.
  rewrite H in Hb.
  destruct Hb as (before & key & after & E & Hr & _ & Hbefore & Hafter).
  now exists before, key, after.
Qed.

Lemma findOptimalColor_first_witness :
  exists before key after,
    [("0,168,0"%string, darkGreen 3); ("0,168,0"%string, darkGreen 3)]
    = before ++ (key, darkGreen 3) :: after
    /\ inRange 0.2 0.85 (darkGreen 3)
    /\ (forall c, In c (map snd before) -> inRange 0.2 0.85 c ->
                  (totalScore c < totalScore (darkGreen 3))%R)
    /\ (forall c, In c (map snd after) -> inRange 0.2 0.85 c ->
                  (totalScore c <= totalScore (darkGreen 3))%R).
Proof.
  apply (findOptimalColor_first
           [("0,168,0"%string, darkGreen 3); ("0,168,0"%string, darkGreen 3)]
           0.2 0.85 true (darkGreen 3)).
  unfold findOptimalColor. cbn [fold_left snd].
  pose proof (darkGreen_inRange 3) as Hr.
  apply outsideRange_false in Hr. rewrite Hr.
  pose proof (totalScore_pos (darkGreen 3) (darkGreen_wellFormed 3 ltac:(lia))) as Hp.
  replace (Rltb 0 (totalScore (darkGreen 3))) with true
    by (symmetry; now apply Rltb_true).
  replace (Rltb (totalScore (darkGreen 3)) (totalScore (darkGreen 3))) with false
    by (symmetry; apply Rltb_false; lra).
  reflexivity.
Defined.

(** ** The sampling policy *)

Lemma lower_arithmetic (s : Z) :
  (0 <= s <= maxCanvasSide)%Z ->
  Math_floor (Z2F s * 0.67)%float = (67 * s / 100)%Z
  /\ Math_floor (Z2F s / 2)%float = (s / 2)%Z.
Proof.
  intros Hs.
  pose (ok := fun z =>
          ((Math_floor (Z2F z * 0.67)%float =? 67 * z / 100)
           && (Math_floor (Z2F z / 2)%float =? z / 2))%Z).
  assert (H : allFrom (Z.to_nat 32768) 0 ok = true) by (vm_compute; reflexivity).
  assert (Hz : ok s = true).
  { apply (allFrom_below _ _ H). unfold maxCanvasSide in Hs. lia. }
  unfold ok in Hz. rewrite !andb_true_iff, !Z.eqb_eq in Hz. tauto.
Qed.

(** X12.  On a source that can be drawn and read back, [extractDominantColor]
    reads exactly the rectangles of the policy: the centred rectangle for a
    portrait video under the black filter, else the two lower halves for a
    wide image, else the lower third (rows from 67% down), else the whole
    canvas. *)
Theorem regions_follow_policy (browser : Browser) (element : Element)
  (options : ColorExtractionOptions) :
  context2d browser = true ->
  drawable (mediaOf element) = true ->
  originClean (mediaOf element) = true ->
  loaded element = true ->
  (2 <= Z.of_N (orDefault (sampleSize options) 50%N) <= maxCanvasSide)%Z ->
  regionsRead (fst (extractDominantColor browser element options))
  = regionPolicy element options.
Proof.
  intros Hctx Hdraw Hclean Hload Hs.
  unfold extractDominantColor, extractBody, extractFromSplitView, regionPolicy.
  rewrite Hctx. cbn [negb].
  set (s := orDefault (sampleSize options) 50%N) in *.
  destruct (center_arithmetic (Z.of_N s) ltac:(lia)) as (E1 & E2 & E3 & E4).
  destruct (lower_arithmetic (Z.of_N s) ltac:(lia)) as (E5 & E6).
  assert (Hh : (Z.of_N s / 2 =? 0)%Z = false)
    by (apply Z.eqb_neq; Z.to_euclidean_division_equations; lia).
  assert (Hl : (Z.of_N s - 67 * Z.of_N s / 100 =? 0)%Z = false)
    by (apply Z.eqb_neq; Z.to_euclidean_division_equations; lia).
  assert (Hw : (8 * Z.of_N s / 10 =? 0)%Z = false)
    by (apply Z.eqb_neq; Z.to_euclidean_division_equations; lia).
  assert (Hc : (6 * Z.of_N s / 10 =? 0)%Z = false)
    by (apply Z.eqb_neq; Z.to_euclidean_division_equations; lia).
  assert (Hz : (Z.of_N s =? 0)%Z = false) by (apply Z.eqb_neq; lia).
  unfold centerRegion, leftHalf, rightHalf, lowerThird, wholeCanvas.
  destruct element as [v|img|m]; cbn [mediaOf loaded portrait splitView] in *.
  - destruct (orDefault (analyzePortraitVideo options) true);
      [destruct (N2F (videoWidth v) / N2F (videoHeight v) <? 1)%float|];
      destruct (orDefault (ignoreBlackBackground options) true);
      destruct (orDefault (handleSplitView options) true);
      destruct (orDefault (sampleLowerThird options) true);
      repeat (progress
                (cbn [bind ret throw drawImage getImageData mediaOf drawn
                      readable andb orb negb app fst snd regionsRead flat_map];
                 unfold N2F;
                 rewrite ?Hdraw, ?Hclean, ?E1, ?E2, ?E3, ?E4, ?E5, ?E6,
                   ?Hh, ?Hl, ?Hw, ?Hc, ?Hz));
      reflexivity.
  - apply andb_true_iff in Hload as [Hcomplete Hheight].
    rewrite Hcomplete. apply negb_true_iff in Hheight. rewrite Hheight.
    destruct (orDefault (handleSplitView options) true);
      [destruct (2.5 <? N2F (naturalWidth img) / N2F (naturalHeight img))%float|];
      destruct (orDefault (ignoreBlackBackground options) true);
      destruct (orDefault (sampleLowerThird options) true);
      repeat (progress
                (cbn [bind ret throw drawImage getImageData mediaOf drawn
                      readable andb orb negb app fst snd regionsRead flat_map];
                 unfold N2F;
                 rewrite ?Hdraw, ?Hclean, ?E1, ?E2, ?E3, ?E4, ?E5, ?E6,
                   ?Hh, ?Hl, ?Hw, ?Hc, ?Hz));
      reflexivity.
  - destruct (orDefault (handleSplitView options) true);
      destruct (orDefault (ignoreBlackBackground options) true);
      destruct (orDefault (sampleLowerThird options) true);
      repeat (progress
                (cbn [bind ret throw drawImage getImageData mediaOf drawn
                      readable andb orb negb app fst snd regionsRead flat_map];
                 unfold N2F;
                 rewrite ?Hdraw, ?Hclean, ?E1, ?E2, ?E3, ?E4, ?E5, ?E6,
                   ?Hh, ?Hl, ?Hw, ?Hc, ?Hz));
      reflexivity.
Qed.

Lemma regions_follow_policy_witness :
  regionsRead (fst (extractDominantColor plainBrowser
                      (HTMLImageElement panorama) noOptions))
  = [(0, 33, 25, 17)%Z; (25, 33, 25, 17)%Z].
Proof.
  apply (regions_follow_policy plainBrowser (HTMLImageElement panorama)
           noOptions); try reflexivity.
  unfold maxCanvasSide. simpl. lia.
Defined.

Lemma policy_inside (element : Element) (options : ColorExtractionOptions) :
  Forall (insideCanvas (Z.of_N (orDefault (sampleSize options) 50%N)))
         (regionPolicy element options).
Proof.
  unfold regionPolicy.
  set (s := Z.of_N (orDefault (sampleSize options) 50%N)).
  assert (Hs : (0 <= s)%Z) by (unfold s; lia).
  unfold centerRegion, leftHalf, rightHalf, lowerThird, wholeCanvas.
  destruct (_ && _); [|destruct (splitView _ _);
                        [|destruct (orDefault (sampleLowerThird options) true)]];
    repeat constructor; unfold insideCanvas;
    Z.to_euclidean_division_equations; lia.
Qed.

Lemma attempted_prefix (m : Media) (regions : list (Z * Z * Z * Z)) :
  exists rest, regions = attempted m regions ++ rest.
Proof.
  induction regions as [|r regions [rest IH]]; [now exists []|].
  cbn [attempted]. destruct (readThrows m r).
  - now exists regions.
  - exists rest. cbn [app]. now rewrite <- IH.
Qed.

Lemma regionsRead_reads (regions : list (Z * Z * Z * Z)) :
  regionsRead (map (fun '(x, y, w, h) => GetImageData x y w h) regions)
  = regions.
Proof.
  unfold regionsRead.
  induction regions as [|[[[x y] w] h] l IH]; [reflexivity|].
  cbn [map flat_map app]. now rewrite IH.
Qed.

Lemma draws_reads (regions : list (Z * Z * Z * Z)) :
  draws (map (fun '(x, y, w, h) => GetImageData x y w h) regions) = [].
Proof.
  unfold draws.
  induction regions as [|[[[x y] w] h] l IH]; [reflexivity|].
  cbn [map flat_map app]. exact IH.
Qed.

Lemma regionsRead_policyCalls (browser : Browser) (element : Element)
  (options : ColorExtractionOptions) :
  exists rest,
    regionPolicy element options
    = regionsRead (policyCalls browser element options) ++ rest.
Proof.
  unfold policyCalls. cbv zeta.
  destruct (negb (context2d browser));
    [exists (regionPolicy element options); reflexivity|].
  destruct (negb (loaded element));
    [exists (regionPolicy element options); reflexivity|].
  destruct (negb (drawable (mediaOf element)));
    [exists (regionPolicy element options); reflexivity|].
  destruct (attempted_prefix (mediaOf element) (regionPolicy element options))
    as [rest Hrest].
  exists rest. rewrite Hrest at 1. f_equal.
  change (regionsRead (DrawImage ?a ?b :: ?l)) with (regionsRead l).
  unfold regionsRead at 1. rewrite flat_map_app.
  fold (regionsRead
          (map (fun '(x, y, w, h) => GetImageData x y w h)
               (attempted (mediaOf element) (regionPolicy element options)))).
  rewrite regionsRead_reads.
  destruct (existsb _ _); cbn [flat_map app]; now rewrite app_nil_r.
Qed.

Lemma draws_policyCalls (browser : Browser) (element : Element)
  (options : ColorExtractionOptions) :
  (List.length (draws (policyCalls browser element options)) <= 1)%nat.
Proof.
  unfold policyCalls. cbv zeta.
  destruct (negb (context2d browser)); [cbn; lia|].
  destruct (negb (loaded element)); [cbn; lia|].
  destruct (negb (drawable (mediaOf element))); [cbn; lia|].
  change (draws (DrawImage ?a ?b :: ?l)) with ((a, b) :: draws l).
  unfold draws at 1. rewrite flat_map_app.
  fold (draws
          (map (fun '(x, y, w, h) => GetImageData x y w h)
               (attempted (mediaOf element) (regionPolicy element options)))).
  rewrite draws_reads.
  destruct (existsb _ _); cbn; lia.
Qed.

(** X13.  Whatever fails, the calls of a run of [extractDominantColor] are
    the policy's: nothing without a 2D context; for an image that has not
    loaded, the warning alone; else one [drawImage]; then, if that did not
    throw, the rectangles of the policy in order, up to and including the
    first on which [getImageData] throws (an empty rectangle, a canvas that
    cannot be read back); and the warning exactly when something threw.  So
    the run draws at most once, and each rectangle it asks for is one of the
    policy's and lies inside the canvas. *)
Theorem reads_within_policy (browser : Browser) (element : Element)
  (options : ColorExtractionOptions) :
  (Z.of_N (orDefault (sampleSize options) 50%N) <= maxCanvasSide)%Z ->
  let calls := fst (extractDominantColor browser element options) in
  calls = policyCalls browser element options
  /\ (exists rest, regionPolicy element options = regionsRead calls ++ rest)
  /\ Forall (insideCanvas (Z.of_N (orDefault (sampleSize options) 50%N)))
            (regionsRead calls)
  /\ (List.length (draws calls) <= 1)%nat.
Proof.
  intros Hs calls.
  assert (H : calls = policyCalls browser element options).
  { subst calls.
    unfold extractDominantColor, extractBody, extractFromSplitView,
      policyCalls, regionPolicy.
    set (s := orDefault (sampleSize options) 50%N) in *.
    destruct (center_arithmetic (Z.of_N s) ltac:(lia)) as (E1 & E2 & E3 & E4).
    destruct (lower_arithmetic (Z.of_N s) ltac:(lia)) as (E5 & E6).
    unfold centerRegion, leftHalf, rightHalf, lowerThird, wholeCanvas.
    destruct (context2d browser); cbn [negb fst]; [|reflexivity].
    destruct element as [v|img|m]; cbn [mediaOf portrait splitView loaded].
    - destruct (drawable (videoMedia v)) eqn:Hdraw;
        destruct (originClean (videoMedia v)) eqn:Hclean;
        destruct (orDefault (analyzePortraitVideo options) true);
        try destruct (N2F (videoWidth v) / N2F (videoHeight v) <? 1)%float;
        destruct (orDefault (ignoreBlackBackground options) true);
        destruct (orDefault (handleSplitView options) true);
        destruct (orDefault (sampleLowerThird options) true);
        repeat (progress
                  (cbn [bind ret throw drawImage getImageData mediaOf drawn
                        readable andb orb negb app fst snd map attempted
                        readThrows existsb];
                   unfold N2F;
                   rewrite ?Hdraw, ?Hclean, ?E1, ?E2, ?E3, ?E4, ?E5, ?E6));
        try reflexivity;
        repeat match goal with
               | |- context [(?a =? 0)%Z] => destruct (a =? 0)%Z
               end;
        reflexivity.
    - destruct (complete img); cbn [negb orb andb]; [|reflexivity].
      destruct (naturalHeight img =? 0)%N; cbn [negb orb andb]; [reflexivity|].
      destruct (drawable (imageMedia img)) eqn:Hdraw;
        destruct (originClean (imageMedia img)) eqn:Hclean;
        destruct (orDefault (handleSplitView options) true);
        try destruct (2.5 <? N2F (naturalWidth img) / N2F (naturalHeight img))%float;
        destruct (orDefault (ignoreBlackBackground options) true);
        destruct (orDefault (sampleLowerThird options) true);
        repeat (progress
                  (cbn [bind ret throw drawImage getImageData mediaOf drawn
                        readable andb orb negb app fst snd map attempted
                        readThrows existsb];
                   unfold N2F;
                   rewrite ?Hdraw, ?Hclean, ?E1, ?E2, ?E3, ?E4, ?E5, ?E6));
        try reflexivity;
        repeat match goal with
               | |- context [(?a =? 0)%Z] => destruct (a =? 0)%Z
               end;
        reflexivity.
    - destruct (drawable m) eqn:Hdraw;
        destruct (originClean m) eqn:Hclean;
        destruct (orDefault (handleSplitView options) true);
        destruct (orDefault (ignoreBlackBackground options) true);
        destruct (orDefault (sampleLowerThird options) true);
        repeat (progress
                  (cbn [bind ret throw drawImage getImageData mediaOf drawn
                        readable andb orb negb app fst snd map attempted
                        readThrows existsb];
                   unfold N2F;
                   rewrite ?Hdraw, ?Hclean, ?E1, ?E2, ?E3, ?E4, ?E5, ?E6));
        try reflexivity;
        repeat match goal with
               | |- context [(?a =? 0)%Z] => destruct (a =? 0)%Z
               end;
        reflexivity. }
  split; [exact H|]. rewrite H.
  destruct (regionsRead_policyCalls browser element options) as [rest Hrest].
  split; [now exists rest|]. split; [|apply draws_policyCalls].
  pose proof (policy_inside element options) as Hin.
  rewrite Hrest in Hin. now apply Forall_app in Hin.
Qed.

Lemma reads_within_policy_witness :
  fst (extractDominantColor plainBrowser (HTMLVideoElement taintedVideo)
         noOptions)
  = [DrawImage 50 50; GetImageData 10 5 30 40; ConsoleWarn]
  /\ fst (extractDominantColor plainBrowser (HTMLImageElement panorama)
            noOptions)
     = [DrawImage 50 50; GetImageData 0 33 25 17; GetImageData 25 33 25 17].
Proof.
  assert (Hs : (Z.of_N (orDefault (sampleSize noOptions) 50%N) <= maxCanvasSide)%Z)
    by (unfold maxCanvasSide; simpl; lia).
  split.
  - exact (proj1 (reads_within_policy plainBrowser
                    (HTMLVideoElement taintedVideo) noOptions Hs)).
  - exact (proj1 (reads_within_policy plainBrowser
                    (HTMLImageElement panorama) noOptions Hs)).
Defined.

(** ** The three fields of a result *)

Lemma createFallbackColor_coherent (s : string) :
  coherent (createFallbackColor s).
Proof.
  destruct (createFallbackColor_cases s) as [(_ & ->)|(Hrgb & Hhex & Hc)].
  - unfold coherent, ultimateFallback, channels, channel; simpl.
    repeat split; try lia; try lra. now right.
  - pose proof (hexToRgb_channels _ _ Hrgb) as Hch.
    unfold coherent. rewrite Hhex. repeat split; try assumption; try (now left);
      rewrite Hc; destruct (rgb (createFallbackColor s)) as [[r g] b];
      destruct Hch as (Hr & Hg & Hb);
      apply (getLuminance_bounds r g b Hr Hg Hb).
Qed.

Lemma computed_coherent (c : ExtractedColor) :
  channels (rgb c) ->
  hex c = (let '(r, g, b) := rgb c in rgbToHex r g b) ->
  consistent c -> coherent c.
Proof.
  intros Hch Hhex Hc. unfold coherent. split; [|split; [exact Hch|split]].
  - rewrite Hhex. destruct (rgb c) as [[r g] b]. destruct Hch as (Hr & Hg & Hb).
    destruct (toHex_parses r Hr) as (r1 & r2 & Er & Pr).
    destruct (toHex_parses g Hg) as (g1 & g2 & Eg & Pg).
    destruct (toHex_parses b Hb) as (b1 & b2 & Eb & Pb).
    unfold rgbToHex. rewrite Er, Eg, Eb. cbn [append hexToRgb].
    now rewrite Pr, Pg, Pb.
  - unfold consistent in Hc. rewrite Hc.
    destruct (rgb c) as [[r g] b]. destruct Hch as (Hr & Hg & Hb).
    apply (getLuminance_bounds r g b Hr Hg Hb).
  - now left.
Qed.

Lemma finalColor_coherent (best : ColorData.t) (boost : bool) :
  wellFormedEntry best -> coherent (finalColor best boost).
Proof.
  intros Hwf. destruct (finalColor_shape best boost Hwf) as (_ & Hc & Hch).
  apply computed_coherent; try assumption.
  unfold finalColor. destruct (ColorData.rgb best) as [[r g] b].
  destruct (boost && _);
    [destruct (boostColorBrightness r g b 0.4%float) as [[fr fg] fb]|];
    reflexivity.
Qed.

Lemma toExtracted_coherent (best : ColorData.t) :
  wellFormedEntry best -> coherent (toExtracted best).
Proof.
  intros Hwf. destruct (toExtracted_shape best Hwf) as (_ & Hc & Hch).
  apply computed_coherent; try assumption.
  unfold toExtracted. now destruct (ColorData.rgb best) as [[r g] b].
Qed.

Lemma extractDominantColor_coherent (browser : Browser) (element : Element)
  (options : ColorExtractionOptions) :
  coherent (snd (extractDominantColor browser element options)).
Proof.
  destruct (extractDominantColor_cases browser element options)
    as [H|[(sx & sy & sw & sh & H)|(lx & ly & lw & lh & rx & ry & rw & rh & H)]];
    rewrite H; clear H.
  - apply createFallbackColor_coherent.
  - unfold dominantOf.
    destruct (selectBestColor _ _ _ _) as [best|] eqn:Hsel;
      [|apply createFallbackColor_coherent].
    apply finalColor_coherent.
    eapply wellFormed_In; [apply scanPixels_wellFormed|].
    eapply selectBestColor_In; exact Hsel.
  - assert (Hfind : forall data ib lo hi boost best,
               findOptimalColor (scanPixels data ib) lo hi boost = Some best ->
               wellFormedEntry best).
    { intros data ib lo hi boost best Hf.
      eapply wellFormed_In; [apply scanPixels_wellFormed|].
      eapply findOptimalColor_Some; exact Hf. }
    unfold chooseHalf.
    destruct (findOptimalColor _ _ _ _) as [l|] eqn:HL;
      destruct (findOptimalColor (scanPixels (rectBytes _ rx ry rw rh) _) _ _ _)
        as [r|] eqn:HR; try apply createFallbackColor_coherent.
    + destruct (Rltb _ _); apply toExtracted_coherent; eapply Hfind; eassumption.
    + apply toExtracted_coherent; eapply Hfind; eassumption.
    + apply toExtracted_coherent; eapply Hfind; eassumption.
Qed.

(** X14.  Every colour the three exported extraction functions hand back is
    coherent: its hex string parses to its triple, the triple is made of
    channels, the luminance field lies in [0, 1], and it is the luminance of
    the triple unless the colour is the literal of the last resort. *)
Theorem results_coherent (browser : Browser) (element : Element)
  (video : Video) (imageUrl : string) (options : ColorExtractionOptions) :
  coherent (snd (extractDominantColor browser element options))
  /\ coherent (snd (extractColorFromVideo browser video options))
  /\ (forall c, snd (extractColorFromImageUrl browser imageUrl options)
                = Resolved c -> coherent c).
Proof.
  split; [apply extractDominantColor_coherent|]. split.
  - unfold extractColorFromVideo.
    destruct (fallbackOnly options); [apply createFallbackColor_coherent|].
    destruct (readyState video <? 2)%Z; [apply createFallbackColor_coherent|].
    apply extractDominantColor_coherent.
  - intros c. unfold extractColorFromImageUrl.
    destruct (fallbackOnly options).
    { intros [= <-]. apply createFallbackColor_coherent. }
    destruct (if String.eqb imageUrl EmptyString then _ else _).
    { intros [= <-]. apply createFallbackColor_coherent. }
    destruct (loadImage browser imageUrl) as [img|].
    + pose proof (extractDominantColor_coherent browser (HTMLImageElement img)
                    (imageExtractionOptions options)) as H.
      destruct (extractDominantColor _ _ _) as [calls color].
      now intros [= <-].
    + destruct (truthy (fallbackColor options)); [|discriminate].
      intros [= <-]. apply createFallbackColor_coherent.
Qed.

(** ** Saturation *)

(** X15.  On channels [calculateSaturation] lies between 0 and 1, and it is 0
    exactly for the grays. *)
Theorem calculateSaturation_range (r g b : Z) :
  channels (r, g, b) ->
  (0 <= calculateSaturation r g b <= 1)%R
  /\ (calculateSaturation r g b = 0%R <-> r = g /\ g = b).
Proof.
  intros ([Hr _] & [Hg _] & [Hb _]). unfold calculateSaturation.
  set (hi := Z.max (Z.max r g) b). set (lo := Z.min (Z.min r g) b).
  assert (Hlo : (lo <= hi)%Z) by (unfold lo, hi; lia).
  assert (Hlo0 : (0 <= lo)%Z) by (unfold lo; lia).
  assert (Hgray : (lo = hi <-> r = g /\ g = b)%Z) by (unfold lo, hi; lia).
  apply IZR_le in Hlo as Hlo', Hlo0 as Hlo0'.
  cbv zeta. destruct (Req_dec_T (IZR hi / 255) 0) as [Hz|Hz].
  - assert (Hhi : hi = 0%Z) by (apply eq_IZR; lra).
    split; [lra|]. split; [intros _|reflexivity]. apply Hgray. lia.
  - assert (Hpos : (0 < IZR hi / 255)%R) by lra.
    assert (Hs : ((IZR hi / 255 - IZR lo / 255) / (IZR hi / 255)
                  = 1 - IZR lo / IZR hi)%R) by (field; lra).
    rewrite Hs.
    assert (Hq : (0 <= IZR lo / IZR hi <= 1)%R).
    { assert (0 < IZR hi)%R by lra. split.
      - apply Rmult_le_pos; [lra|]. left. now apply Rinv_0_lt_compat.
      - apply (Rmult_le_reg_r (IZR hi)); [assumption|].
        unfold Rdiv. rewrite Rmult_assoc, Rinv_l by lra. lra. }
    split; [lra|]. rewrite <- Hgray. split.
    + intros H. apply eq_IZR.
      assert (Hone : (IZR lo / IZR hi = 1)%R) by lra.
      apply (f_equal (fun x => (x * IZR hi)%R)) in Hone.
      unfold Rdiv in Hone. rewrite Rmult_assoc, Rinv_l in Hone by lra. lra.
    + intros ->. unfold Rdiv. rewrite Rinv_r by lra. lra.
Qed.

Lemma calculateSaturation_range_witness :
  (0 <= calculateSaturation 0 168 0 <= 1)%R.
Proof.
  apply (calculateSaturation_range 0 168 0). unfold channels, channel. lia.
Defined.

(** ** When the promise rejects, and the video that is not ready *)

Lemma fallbackOnly_truthy (options : ColorExtractionOptions) (s : string) :
  fallbackOnly options = Some s -> truthy (fallbackColor options) = Some s.
Proof.
  unfold fallbackOnly. now destruct (truthyBool (useFallbackOnly options)).
Qed.

(** X16.  [extractColorFromImageUrl] rejects exactly when the image fails to
    load and no non-empty [fallbackColor] is configured; the earlier
    revision, which has no options, rejects exactly when the image fails to
    load. *)
Theorem extractColorFromImageUrl_rejects (browser : Browser)
  (imageUrl : string) (options : ColorExtractionOptions) :
  (snd (extractColorFromImageUrl browser imageUrl options) = Rejected
   <-> truthy (fallbackColor options) = None
       /\ loadImage browser imageUrl = None)
  /\ (snd (Legacy.extractColorFromImageUrl browser imageUrl) = Rejected
      <-> loadImage browser imageUrl = None).
Proof.
  split.
  - unfold extractColorFromImageUrl.
    destruct (fallbackOnly options) as [s|] eqn:Hfo.
    { apply fallbackOnly_truthy in Hfo. rewrite Hfo. cbn [snd].
      split; [discriminate|]. intros [H _]; discriminate H. }
    destruct (truthy (fallbackColor options)) as [s|] eqn:Ht.
    + destruct (String.eqb imageUrl EmptyString); cbn [snd].
      * split; [discriminate|]. intros [H _]; discriminate H.
      * destruct (loadImage browser imageUrl) as [img|].
        -- destruct (extractDominantColor _ _ _) as [calls color]. cbn [snd].
           split; [discriminate|]. intros [H _]; discriminate H.
        -- cbn [snd]. split; [discriminate|]. intros [H _]; discriminate H.
    + replace (if String.eqb imageUrl EmptyString then None else None)
        with (@None string) by now destruct (String.eqb imageUrl EmptyString).
      destruct (loadImage browser imageUrl) as [img|].
      * destruct (extractDominantColor _ _ _) as [calls color]. cbn [snd].
        split; [discriminate|]. intros [_ H]; discriminate H.
      * cbn [snd]. now split.
  - unfold Legacy.extractColorFromImageUrl.
    destruct (loadImage browser imageUrl) as [img|].
    + destruct (Legacy.extractDominantColor _ _ _) as [calls color]. cbn [snd].
      split; discriminate.
    + cbn [snd]. now split.
Qed.

(** X17.  For a video whose [readyState] is below 2, [extractColorFromVideo]
    touches no canvas, whatever the options, and answers with the configured
    [fallbackColor] when it is a non-empty string, else with #4a5568. *)
Theorem extractColorFromVideo_not_ready (browser : Browser) (video : Video)
  (options : ColorExtractionOptions) :
  (readyState video < 2)%Z ->
  extractColorFromVideo browser video options
  = ([], createFallbackColor (orElse (fallbackColor options) "#4a5568")).
Proof.
  intros Hready. apply Z.ltb_lt in Hready. unfold extractColorFromVideo.
  rewrite Hready.
  destruct (fallbackOnly options) as [s|] eqn:Hfo; [|reflexivity].
  apply fallbackOnly_truthy in Hfo. unfold orElse. now rewrite Hfo.
Qed.

Lemma extractColorFromVideo_not_ready_witness :
  extractColorFromVideo plainBrowser
    loadingVideo
    (withFallbackColor (Val "#336699"%string) noOptions)
  = ([], createFallbackColor "#336699").
Proof.
  apply (extractColorFromVideo_not_ready plainBrowser
           loadingVideo
           (withFallbackColor (Val "#336699"%string) noOptions)).
  simpl. lia.
Defined.

(** ** The boost and colours that are light enough *)

(** X18.  The contrast boost leaves a colour alone when its HSL lightness is
    not below 0.4, however low its luminance: [finalColor] then returns the
    chosen entry's own triple, boost or no boost. *)
Theorem boost_keeps_light (best : ColorData.t) (r g b : Z)
  (enableContrastBoost : bool) :
  ColorData.rgb best = (r, g, b) ->
  channels (r, g, b) ->
  (let '(_, _, l) := rgbToHsl (Z2F r) (Z2F g) (Z2F b) in (l <? 0.4)%float)
  = false ->
  boostColorBrightness r g b 0.4%float = (r, g, b)
  /\ rgb (finalColor best enableContrastBoost) = (r, g, b).
Proof.
  intros Hrgb (Hr & Hg & Hb) Hl.
  assert (Hboost : boostColorBrightness r g b 0.4%float = (r, g, b)).
  { pose proof (hsl_round_trip_exact r g b Hr Hg Hb) as Hrt.
    unfold boostColorBrightness.
    destruct (rgbToHsl (Z2F r) (Z2F g) (Z2F b)) as [[h s] l].
    unfold Math_max. rewrite Hl, Hrt. unfold channel in *.
    f_equal; [f_equal|]; lia. }
  split; [exact Hboost|].
  unfold finalColor. rewrite Hrgb.
  destruct (enableContrastBoost && _); [rewrite Hboost|]; reflexivity.
Qed.

Lemma boost_keeps_light_witness :
  boostColorBrightness 0 0 240 0.4%float = (0, 0, 240)%Z
  /\ rgb (finalColor
            (ColorData.mk 5 (0, 0, 240)%Z (getLuminance 0 0 240)
                          (calculateSaturation 0 0 240)) true)
     = (0, 0, 240)%Z.
Proof.
  apply (boost_keeps_light
           (ColorData.mk 5 (0, 0, 240)%Z (getLuminance 0 0 240)
                         (calculateSaturation 0 0 240)) 0 0 240 true).
  - reflexivity.
  - unfold channels, channel. lia.
  - vm_compute. reflexivity.
Defined.

(** ** The earlier revision's results *)

Lemma legacy_quantize_channel (c : Z) : channel c -> channel (Legacy.quantize c).
Proof.
  intros Hc.
  assert (H : allFrom 256 0 (fun z => (0 <=? Legacy.quantize z)%Z
                                      && (Legacy.quantize z <=? 255)%Z) = true)
    by (vm_compute; reflexivity).
  pose proof (allFrom_spec 256 0 _ H c) as Hz. cbv beta in Hz.
  unfold channel in *. rewrite andb_true_iff, !Z.leb_le in Hz. apply Hz. lia.
Qed.

Lemma legacy_scanStep_channels (data : list Byte.byte)
  (m : list (string * Legacy.Entry.t)) (i : nat) :
  Forall (fun e => channels (Legacy.Entry.rgb (snd e))) m ->
  Forall (fun e => channels (Legacy.Entry.rgb (snd e))) (Legacy.scanStep data m i).
Proof.
  intros H. unfold Legacy.scanStep.
  destruct (_ <? 128)%Z; [exact H|].
  destruct (Legacy.has m _).
  - unfold Legacy.incrementCount. apply Forall_map.
    eapply Forall_impl; [|exact H].
    intros [k c] Hc; cbn [fst snd] in *. now destruct (String.eqb k _).
  - apply Forall_app. split; [exact H|].
    constructor; [|constructor]. cbn [snd Legacy.Entry.rgb].
    repeat split; apply legacy_quantize_channel, byteAt_channel.
Qed.

Lemma legacy_preferred_In (m : list (string * Legacy.Entry.t))
  (start : Legacy.Entry.t) :
  Legacy.preferred m start = start \/ In (Legacy.preferred m start) (map snd m).
Proof.
  unfold Legacy.preferred. revert start.
  induction m as [|e m IH]; intros start; [now left|]. cbn [fold_left map].
  match goal with
  | |- context [fold_left ?f m ?a] => destruct (IH a) as [H|H]; rewrite ?H
  end.
  - destruct (Legacy.Entry.rgb (snd e)) as [[r g] b].
    destruct (_ && _ && _); [right; now left|now left].
  - right. now right.
Qed.

Lemma legacy_anyDominant_In (m : list (string * Legacy.Entry.t))
  (start : Legacy.Entry.t) :
  Legacy.anyDominant m start = start
  \/ In (Legacy.anyDominant m start) (map snd m).
Proof.
  unfold Legacy.anyDominant. revert start.
  induction m as [|e m IH]; intros start; [now left|]. cbn [fold_left map].
  match goal with
  | |- context [fold_left ?f m ?a] => destruct (IH a) as [H|H]; rewrite ?H
  end.
  - destruct (_ <? _)%Z; [right; now left|now left].
  - right. now right.
Qed.

(** X19.  Every colour the earlier revision's [extractDominantColor] and
    [extractColorFromVideo] return has a hex field of the form '#' and six
    lowercase hex digits that parses to its triple of channels; it is the
    literal fallback, or its luminance field is the luminance of its
    triple. *)
Theorem legacy_results (browser : Browser) (element : Element)
  (sampleSize : N) (video : Video) :
  let shaped := fun c : ExtractedColor =>
    wellFormedHex (hex c) = true
    /\ hexToRgb (hex c) = Some (rgb c)
    /\ channels (rgb c)
    /\ (c = Legacy.fallback \/ consistent c) in
  shaped (snd (Legacy.extractDominantColor browser element sampleSize))
  /\ shaped (snd (Legacy.extractColorFromVideo browser video)).
Proof.
  intros shaped.
  assert (Hfb : shaped Legacy.fallback).
  { unfold shaped, Legacy.fallback, channels, channel; cbn [hex rgb].
    repeat split; try reflexivity; try lia. now left. }
  assert (Hall : forall b e s, shaped (snd (Legacy.extractDominantColor b e s))).
  { intros b e s. unfold Legacy.extractDominantColor.
    destruct (negb (context2d b)); [exact Hfb|].
    destruct (Legacy.extractBody e s) as [calls [color|]] eqn:Hbody;
      [|exact Hfb]. cbn [snd].
    revert Hbody. unfold Legacy.extractBody.
    set (pick := fun data : list Byte.byte =>
           let colorMap :=
             fold_left (Legacy.scanStep data) (loopIndices (List.length data)) [] in
           let dominantColor :=
             Legacy.preferred colorMap (Legacy.Entry.mk 0 (74, 85, 104)%Z) in
           if (Legacy.Entry.count dominantColor =? 0)%Z
           then Legacy.anyDominant colorMap dominantColor
           else dominantColor).
    assert (Hpick : forall data, channels (Legacy.Entry.rgb (pick data))).
    { intros data. unfold pick. cbv zeta.
      set (m := fold_left (Legacy.scanStep data) (loopIndices (List.length data)) []).
      assert (Hm : Forall (fun e => channels (Legacy.Entry.rgb (snd e))) m).
      { unfold m. apply fold_left_invariant; [constructor|].
        intros acc i. apply legacy_scanStep_channels. }
      assert (Hin : forall d, In d (map snd m) -> channels (Legacy.Entry.rgb d)).
      { intros d Hd. apply in_map_iff in Hd as (x & <- & Hx).
        rewrite Forall_forall in Hm. now apply Hm. }
      assert (Hp : channels (Legacy.Entry.rgb
                               (Legacy.preferred m (Legacy.Entry.mk 0 (74, 85, 104)%Z)))).
      { destruct (legacy_preferred_In m (Legacy.Entry.mk 0 (74, 85, 104)%Z))
          as [->|H]; [unfold channels, channel; cbn; lia|now apply Hin]. }
      destruct (_ =? 0)%Z; [|exact Hp].
      destruct (legacy_anyDominant_In m
                  (Legacy.preferred m (Legacy.Entry.mk 0 (74, 85, 104)%Z)))
        as [->|H]; [exact Hp|now apply Hin]. }
    assert (Hshape : forall r g bl,
               channels (r, g, bl) ->
               shaped {| hex := rgbToHex r g bl; rgb := (r, g, bl);
                         luminance := getLuminance r g bl |}).
    { intros r g bl (Hr & Hg & Hb). unfold shaped. cbn [hex rgb].
      split; [now apply rgbToHex_wellFormed|]. split; [|split].
      - destruct (toHex_parses r Hr) as (r1 & r2 & Er & Pr).
        destruct (toHex_parses g Hg) as (g1 & g2 & Eg & Pg).
        destruct (toHex_parses bl Hb) as (b1 & b2 & Eb & Pb).
        unfold rgbToHex. rewrite Er, Eg, Eb. cbn [append hexToRgb].
        now rewrite Pr, Pg, Pb.
      - exact (conj Hr (conj Hg Hb)).
      - right. reflexivity. }
    unfold drawImage, getImageData, bind, ret, throw.
    destruct e as [v|img|m]; cbn [mediaOf].
    - destruct (drawable (videoMedia v)); [|discriminate].
      destruct (_ || _ || _); [discriminate|].
      match goal with
      | |- context [Legacy.Entry.rgb ?d] =>
          pose proof (Hpick (rectBytes (drawn (videoMedia v) s s) 0 0
                               (Z.of_N s) (Z.of_N s))) as Hd;
          change (channels (Legacy.Entry.rgb d)) in Hd;
          destruct (Legacy.Entry.rgb d) as [[r g] bl]
      end.
      intros H. injection H as _ <-. now apply Hshape.
    - destruct (negb (complete img) || _); [discriminate|].
      destruct (drawable (imageMedia img)); [|discriminate].
      destruct (_ || _ || _); [discriminate|].
      match goal with
      | |- context [Legacy.Entry.rgb ?d] =>
          pose proof (Hpick (rectBytes (drawn (imageMedia img) s s) 0 0
                               (Z.of_N s) (Z.of_N s))) as Hd;
          change (channels (Legacy.Entry.rgb d)) in Hd;
          destruct (Legacy.Entry.rgb d) as [[r g] bl]
      end.
      intros H. injection H as _ <-. now apply Hshape.
    - destruct (drawable m); [|discriminate].
      destruct (_ || _ || _); [discriminate|].
      match goal with
      | |- context [Legacy.Entry.rgb ?d] =>
          pose proof (Hpick (rectBytes (drawn m s s) 0 0
                               (Z.of_N s) (Z.of_N s))) as Hd;
          change (channels (Legacy.Entry.rgb d)) in Hd;
          destruct (Legacy.Entry.rgb d) as [[r g] bl]
      end.
      intros H. injection H as _ <-. now apply Hshape. }
  split; [apply Hall|].
  unfold Legacy.extractColorFromVideo.
  destruct (readyState video <? 2)%Z; [exact Hfb|apply Hall].
Qed.

(** ** The earlier revision's selection *)

Lemma legacy_preferred_prefix (l : list (string * Legacy.Entry.t))
  (start : Legacy.Entry.t) :
  let d := Legacy.preferred l start in
  (Legacy.Entry.count start <= Legacy.Entry.count d)%Z
  /\ (forall c, In c (map snd l) -> legacyBand c ->
                (Legacy.Entry.count c <= Legacy.Entry.count d)%Z)
  /\ (d = start \/ (In d (map snd l) /\ legacyBand d)).
Proof.
  unfold Legacy.preferred.
  induction l as [|e l IH] using rev_ind.
  - cbn. split; [lia|]. split; [intros c []|now left].
  - cbv zeta in IH |- *. rewrite fold_left_snoc.
    match type of IH with
    | context [fold_left ?f l start] => set (d := fold_left f l start) in *
    end.
    destruct IH as (Hge & Hmax & Hd). rewrite map_app.
    unfold legacyBand in *.
    destruct (Legacy.Entry.rgb (snd e)) as [[r g] b] eqn:Hrgb.
    destruct (Rltb 0.1 (getLuminance r g b)) eqn:H1;
      [apply Rltb_true in H1|apply Rltb_false in H1];
      (destruct (Rltb (getLuminance r g b) 0.8) eqn:H2;
       [apply Rltb_true in H2|apply Rltb_false in H2]);
      (destruct (Legacy.Entry.count d <? Legacy.Entry.count (snd e))%Z eqn:H3;
       [apply Z.ltb_lt in H3|apply Z.ltb_ge in H3]);
      cbn [andb]; (split; [lia|]); split;
      try (intros c Hc Hb; apply in_app_or in Hc;
           destruct Hc as [Hc|[<-|[]]];
           [specialize (Hmax c Hc Hb); lia
           |try lia; rewrite Hrgb in Hb; lra]);
      try (destruct Hd as [Hd|[Hd Hb]];
           [now left|right; split; [apply in_or_app; now left|exact Hb]]).
    right. split; [apply in_or_app; right; now left|]. rewrite Hrgb. lra.
Qed.

Lemma legacy_anyDominant_prefix (l : list (string * Legacy.Entry.t))
  (start : Legacy.Entry.t) :
  let d := Legacy.anyDominant l start in
  (Legacy.Entry.count start <= Legacy.Entry.count d)%Z
  /\ (forall c, In c (map snd l) ->
                (Legacy.Entry.count c <= Legacy.Entry.count d)%Z)
  /\ (d = start \/ In d (map snd l)).
Proof.
  unfold Legacy.anyDominant.
  induction l as [|e l IH] using rev_ind.
  - cbn. split; [lia|]. split; [intros c []|now left].
  - cbv zeta in IH |- *. rewrite fold_left_snoc.
    match type of IH with
    | context [fold_left ?f l start] => set (d := fold_left f l start) in *
    end.
    destruct IH as (Hge & Hmax & Hd). rewrite map_app.
    destruct (Legacy.Entry.count d <? Legacy.Entry.count (snd e))%Z eqn:H3;
      [apply Z.ltb_lt in H3|apply Z.ltb_ge in H3];
      (split; [lia|]); split;
      try (intros c Hc; apply in_app_or in Hc;
           destruct Hc as [Hc|[<-|[]]]; [specialize (Hmax c Hc); lia|lia]).
    + right. apply in_or_app. right. now left.
    + destruct Hd as [Hd|Hd]; [now left|right; apply in_or_app; now left].
Qed.

(** X20.  The selection of the earlier revision, on a table whose counts are
    at least 1.  If some entry has luminance strictly between 0.1 and 0.8,
    the choice is such an entry, and none of them has a higher count.
    Otherwise, on a table that is not empty, the choice is an entry and none
    has a higher count.  On the empty table the choice is the initial
    (74, 85, 104). *)
Theorem legacy_selection (colorMap : list (string * Legacy.Entry.t)) :
  Forall (fun e => (1 <= Legacy.Entry.count (snd e))%Z) colorMap ->
  let start := Legacy.Entry.mk 0 (74, 85, 104)%Z in
  let preferred := Legacy.preferred colorMap start in
  let dominantColor :=
    if (Legacy.Entry.count preferred =? 0)%Z
    then Legacy.anyDominant colorMap preferred else preferred in
  (colorMap = [] -> dominantColor = start)
  /\ ((exists c, In c (map snd colorMap) /\ legacyBand c) ->
      In dominantColor (map snd colorMap) /\ legacyBand dominantColor
      /\ forall c, In c (map snd colorMap) -> legacyBand c ->
                   (Legacy.Entry.count c <= Legacy.Entry.count dominantColor)%Z)
  /\ (colorMap <> [] ->
      (forall c, In c (map snd colorMap) -> ~ legacyBand c) ->
      In dominantColor (map snd colorMap)
      /\ forall c, In c (map snd colorMap) ->
                   (Legacy.Entry.count c <= Legacy.Entry.count dominantColor)%Z).
Proof.
  intros Hcount start preferred dominantColor.
  assert (Hc1 : forall c, In c (map snd colorMap) -> (1 <= Legacy.Entry.count c)%Z).
  { intros c Hc. apply in_map_iff in Hc as (e & <- & He).
    rewrite Forall_forall in Hcount. now apply Hcount. }
  destruct (legacy_preferred_prefix colorMap start) as (_ & Hmax & Hd).
  fold preferred in Hmax, Hd.
  split; [|split].
  - intros ->. reflexivity.
  - intros (c & Hc & Hb).
    pose proof (Hmax c Hc Hb) as Hle. pose proof (Hc1 c Hc) as H1.
    assert (Hnz : (Legacy.Entry.count preferred =? 0)%Z = false)
      by (apply Z.eqb_neq; lia).
    unfold dominantColor. rewrite Hnz.
    destruct Hd as [Hd|[Hin Hband]].
    + rewrite Hd in Hle. cbn in Hle. lia.
    + repeat split; assumption.
  - intros Hne Hnone.
    assert (Hst : preferred = start).
    { destruct Hd as [Hd|[Hin Hband]]; [exact Hd|].
      now destruct (Hnone _ Hin). }
    unfold dominantColor. rewrite Hst. cbn [Legacy.Entry.count Z.eqb].
    destruct (legacy_anyDominant_prefix colorMap start) as (_ & Hmax' & Hd').
    split; [|exact Hmax'].
    destruct Hd' as [Hd'|Hd']; [|exact Hd'].
    destruct colorMap as [|e m]; [congruence|].
    specialize (Hmax' (snd e) (or_introl eq_refl)).
    specialize (Hc1 (snd e) (or_introl eq_refl)).
    rewrite Hd' in Hmax'. cbn in Hmax'. lia.
Qed.

Lemma legacy_selection_witness :
  let colorMap := [("0,160,0"%string, Legacy.Entry.mk 3 (0, 160, 0)%Z)] in
  let start := Legacy.Entry.mk 0 (74, 85, 104)%Z in
  let preferred := Legacy.preferred colorMap start in
  let dominantColor :=
    if (Legacy.Entry.count preferred =? 0)%Z
    then Legacy.anyDominant colorMap preferred else preferred in
  (colorMap = [] -> dominantColor = start)
  /\ ((exists c, In c (map snd colorMap) /\ legacyBand c) ->
      In dominantColor (map snd colorMap) /\ legacyBand dominantColor
      /\ forall c, In c (map snd colorMap) -> legacyBand c ->
                   (Legacy.Entry.count c <= Legacy.Entry.count dominantColor)%Z)
  /\ (colorMap <> [] ->
      (forall c, In c (map snd colorMap) -> ~ legacyBand c) ->
      In dominantColor (map snd colorMap)
      /\ forall c, In c (map snd colorMap) ->
                   (Legacy.Entry.count c <= Legacy.Entry.count dominantColor)%Z).
Proof.
  apply (legacy_selection [("0,160,0"%string, Legacy.Entry.mk 3 (0, 160, 0)%Z)]).
  constructor; [cbn; lia|constructor].
Defined.

(** ** Ties in the most-frequent loop *)

(** X21.  The entry the last tier of the selection returns is the first of
    the table, in insertion order, with the highest count: every entry before
    it has a strictly lower count, every entry after it has no higher
    count. *)
Theorem mostFrequent_first (colorMap : ColorMap) (best : ColorData.t) :
  mostFrequent colorMap = Some best ->
  exists before key after,
    colorMap = before ++ (key, best) :: after
    /\ (forall c, In c (map snd before) ->
                  (ColorData.count c < ColorData.count best)%Z)
    /\ (forall c, In c (map snd after) ->
                  (ColorData.count c <= ColorData.count best)%Z).
Proof.
  unfold mostFrequent.
  set (step := fun (best : option ColorData.t * Z) (entry : string * ColorData.t) =>
                 let (bestColor, maxCount) := best in
                 let colorData := snd entry in
                 if (maxCount <? ColorData.count colorData)%Z
                 then (Some colorData, ColorData.count colorData)
                 else best).
  assert (Inv : forall l,
             let st := fold_left step l (None, 0%Z) in
             (forall c, In c (map snd l) -> (ColorData.count c <= snd st)%Z)
             /\ match fst st with
                | None => True
                | Some b =>
                    exists before key after,
                      l = before ++ (key, b) :: after
                      /\ ColorData.count b = snd st
                      /\ (forall c, In c (map snd before) ->
                                    (ColorData.count c < ColorData.count b)%Z)
                      /\ (forall c, In c (map snd after) ->
                                    (ColorData.count c <= ColorData.count b)%Z)
                end).
  { induction l as [|e l IH] using rev_ind.
    - simpl. split; [intros c []|exact I].
    - cbv zeta in IH |- *. rewrite fold_left_snoc.
      destruct (fold_left step l (None, 0%Z)) as [cur n] eqn:Hst.
      cbn [fst snd] in IH. destruct IH as [Hmax Hcur].
      unfold step. cbv beta iota zeta.
      destruct (n <? ColorData.count (snd e))%Z eqn:Hlt; cbn [fst snd].
      + apply Z.ltb_lt in Hlt. split.
        * intros c Hc. rewrite map_app in Hc. apply in_app_or in Hc.
          destruct Hc as [Hc|[<-|[]]]; [|lia].
          specialize (Hmax c Hc). lia.
        * exists l, (fst e), []. destruct e as [k c]; cbn [fst snd] in *.
          repeat split.
          -- intros c' Hc. specialize (Hmax c' Hc). lia.
          -- intros c' [].
      + apply Z.ltb_ge in Hlt. split.
        * intros c Hc. rewrite map_app in Hc. apply in_app_or in Hc.
          destruct Hc as [Hc|[<-|[]]]; [now apply Hmax|exact Hlt].
        * destruct cur as [b|]; [|exact I].
          destruct Hcur as (before & key & after & -> & Hs & Hb & Ha).
          exists before, key, (after ++ [e]).
          split; [now rewrite <- app_assoc|].
          repeat split; try assumption.
          intros c Hc. rewrite map_app in Hc. apply in_app_or in Hc.
          destruct Hc as [Hc|[<-|[]]]; [now apply Ha|lia]. }
  intros H. destruct (Inv colorMap) as [_ Hb]. cbv zeta in Hb.
  rewrite H in Hb.
  destruct Hb as (before & key & after & E & _ & Hbefore & Hafter).
  now exists before, key, after.
Qed.

Lemma mostFrequent_first_witness :
  exists before key after,
    [("0,168,0"%string, darkGreen 2); ("0,168,24"%string, darkGreen 2)]
    = before ++ (key, darkGreen 2) :: after
    /\ (forall c, In c (map snd before) ->
                  (ColorData.count c < ColorData.count (darkGreen 2))%Z)
    /\ (forall c, In c (map snd after) ->
                  (ColorData.count c <= ColorData.count (darkGreen 2))%Z).
Proof.
  apply (mostFrequent_first
           [("0,168,0"%string, darkGreen 2); ("0,168,24"%string, darkGreen 2)]).
  reflexivity.
Defined.
